(** * The CSV cleaning engine of the GAM / CM360 discrepancy finder

    A shallow embedding of [_clean_value] and [clean_csv_data] from
    [mm-gam-cm360-discrepancy-finder-duckdub/actions.py], and the properties
    the specification states about them; then of [upload_reports],
    [run_query_on_duckdb], [_access_file] and [_remove_special_chars] from
    the same file, with further properties of the code.

    Conventions of the embedding.
    - A Python [str] is a list of Unicode code points ([pystr]); [py "..."]
      writes an ASCII literal.
    - A float is an IEEE 754 binary64 value, [spec_float] with precision 53
      and maximal exponent 1024.
    - A Python function that may raise and that logs through [logger] is a
      computation in the monad [M]: the records logged, in order, and either
      the returned value or the raised exception.  The module sets the level
      DEBUG, so the records of [logger.debug] are logged as well.
    - The pandas and Python built-ins the code calls are defined next to their
      callers, each with the call it stands for.  What depends on the pandas
      that is installed is a field of [pandas_ext]: the conversions to a dtype
      outside the int / float / str families, which are open-ended (they
      depend on the dtype named by the caller), and the float read from a
      numeral of more than 15 digits, on which the versions of pandas differ. *)

From Stdlib Require Import ZArith String Ascii List Lia.
From Stdlib Require Import Floats.SpecFloat.
From Stdlib Require DecimalZ.
From stdpp Require Import base list gmap.

Local Open Scope Z_scope.

(** ** Text *)

Abbreviation pystr := (list N).

Definition py (s : string) : pystr := map N_of_ascii (list_ascii_of_string s).

Definition str_eqb (a b : pystr) : bool := bool_decide (a = b).

(** [x in [a; b; ...]] on strings. *)
Definition str_in (x : pystr) (l : list pystr) : bool := existsb (str_eqb x) l.

(** The code points [str.isspace] accepts, which are the ones [str.strip()]
    removes. *)
Definition whitespace : list N :=
  [9; 10; 11; 12; 13; 28; 29; 30; 31; 32; 133; 160; 5760;
   8192; 8193; 8194; 8195; 8196; 8197; 8198; 8199; 8200; 8201; 8202;
   8232; 8233; 8239; 8287; 12288]%N.

Definition is_space (c : N) : bool := existsb (N.eqb c) whitespace.

Fixpoint lstrip (s : pystr) : pystr :=
  match s with
  | [] => []
  | c :: r => if is_space c then lstrip r else s
  end.

Definition rstrip (s : pystr) : pystr := rev (lstrip (rev s)).

(** [s.strip()] *)
Definition strip (s : pystr) : pystr := rstrip (lstrip s).

(** The complement of the class [[^0-9\.\-]]: an ASCII digit, ['.'] or ['-']. *)
Definition is_numeric_char (c : N) : bool :=
  ((48 <=? c) && (c <=? 57) || (c =? 46) || (c =? 45))%N.

(** [re.sub(r"[^0-9\.\-]", "", s)]: every match of the class, a single
    character, is replaced by nothing, scanning left to right. *)
Fixpoint re_sub_non_numeric (s : pystr) : pystr :=
  match s with
  | [] => []
  | c :: r =>
      if is_numeric_char c then c :: re_sub_non_numeric r
      else re_sub_non_numeric r
  end.

(** ** Exceptions, log records and the monad *)

Inductive exn_class :=
| FileNotFoundError
| EmptyDataError
| TypeError
| ValueError
| OverflowError
| OtherException.

(** An exception: its class and [str(e)]. *)
Record exn := Exn { exn_cls : exn_class; exn_str : pystr }.

Inductive outcome (A : Type) :=
| Returns (a : A)
| Raises (e : exn).
Arguments Returns {A} a.
Arguments Raises {A} e.

(** ** Numbers *)

Abbreviation float := spec_float.

Definition prec : Z := 53.
Definition emax : Z := 1024.

Definition INT64_MIN : Z := - 2 ^ 63.
Definition INT64_MAX : Z := 2 ^ 63 - 1.
Definition UINT64_MAX : Z := 2 ^ 64 - 1.

Definition float_isnan (f : float) : bool :=
  match f with S754_nan => true | _ => false end.

(** The float [f] with the sign [neg]; NaN has none. *)
Definition with_sign (neg : bool) (f : float) : float :=
  match f with
  | S754_zero _ => S754_zero neg
  | S754_infinity _ => S754_infinity neg
  | S754_finite _ m e => S754_finite neg m e
  | S754_nan => S754_nan
  end.

(** [float(z)] for an integer [z]: the nearest binary64, ties to even. *)
Definition float_of_Z (z : Z) : float := binary_normalize prec emax z 0 false.

(** The binary64 nearest to [(-1)^neg * m / 10^k], ties to even. *)
Definition float_of_decimal (neg : bool) (m : Z) (k : nat) : float :=
  match m with
  | Zpos p =>
      SFdiv prec emax (S754_finite neg p 0)
            (S754_finite false (Z.to_pos (10 ^ Z.of_nat k)) 0)
  | _ => S754_zero neg
  end.

Definition signed (s : bool) (z : Z) : Z := if s then - z else z.

(** What [round] and [int] raise on an infinity. *)
Definition infinity_to_integer : exn :=
  Exn OverflowError (py "cannot convert float infinity to integer").

(** The integer nearest to [m * 2^e], ties to even. *)
Definition round_half_even (m e : Z) : Z :=
  if 0 <=? e then m * 2 ^ e
  else
    let d := 2 ^ (- e) in
    let q := m / d in
    match 2 * (m mod d) ?= d with
    | Lt => q
    | Gt => q + 1
    | Eq => if Z.even q then q else q + 1
    end.

(** [round(f)] with one argument, on a float: an [int], or an exception on an
    infinity or a NaN. *)
Definition float_round (f : float) : outcome Z :=
  match f with
  | S754_zero _ => Returns 0
  | S754_finite s m e => Returns (signed s (round_half_even (Zpos m) e))
  | S754_infinity _ => Raises infinity_to_integer
  | S754_nan =>
      Raises (Exn ValueError (py "cannot convert float NaN to integer"))
  end.

(** [int(f)]: truncation towards zero. *)
Definition float_trunc (f : float) : outcome Z :=
  match f with
  | S754_zero _ => Returns 0
  | S754_finite s m e =>
      Returns (signed s (if 0 <=? e then Zpos m * 2 ^ e else Zpos m / 2 ^ (- e)))
  | S754_infinity _ => Raises infinity_to_integer
  | S754_nan =>
      Raises (Exn ValueError (py "cannot convert float NaN to integer"))
  end.

(** [f == z] between a float and an [int]: Python compares the exact values. *)
Definition float_eq_Z (f : float) (z : Z) : bool :=
  match f with
  | S754_zero _ => z =? 0
  | S754_finite s m e =>
      if 0 <=? e then z =? signed s (Zpos m * 2 ^ e)
      else signed s (Zpos m) =? z * 2 ^ (- e)
  | _ => false
  end.

(** A numpy scalar as [pd.to_numeric] returns it: an [np.int64] or [np.uint64]
    ([NInt]), or an [np.float64]. *)
Inductive num :=
| NInt (z : Z)
| NFloat (f : float).

Definition nan : num := NFloat S754_nan.

(** [pd.isna(n)] *)
Definition num_isna (n : num) : bool :=
  match n with NInt _ => false | NFloat f => float_isnan f end.

(** [round(n)] *)
Definition num_round (n : num) : outcome Z :=
  match n with NInt z => Returns z | NFloat f => float_round f end.

(** [n == z] *)
Definition num_eq_Z (n : num) (z : Z) : bool :=
  match n with NInt x => x =? z | NFloat f => float_eq_Z f z end.

(** [int(n)] *)
Definition num_int (n : num) : outcome Z :=
  match n with NInt z => Returns z | NFloat f => float_trunc f end.

(** [float(n)] *)
Definition num_float (n : num) : float :=
  match n with NInt z => float_of_Z z | NFloat f => f end.

(** ** Values *)

(** A cell of the frame [pd.read_csv(..., dtype=str, keep_default_na=False,
    na_values=[''])] returns: NaN for an empty field, the field's text
    otherwise.  [RNone] is the absent value [_clean_value] also accepts. *)
Inductive raw :=
| RNone
| RNaN
| RStr (s : pystr).

(** A cleaned value.  [VObject] is a scalar of a dtype outside the int, float
    and str families (a timestamp, a boolean, ...), kept by the name of its
    dtype and its printed form. *)
Inductive pyval :=
| VNone
| VNA
| VNaT
| VInt (z : Z)
| VFloat (f : float)
| VStr (s : pystr)
| VObject (dtype : pystr) (repr : pystr).

(** [pd.isna(v)] *)
Definition isna (v : pyval) : bool :=
  match v with
  | VNone | VNA | VNaT => true
  | VFloat f => float_isnan f
  | _ => false
  end.

(** [pd.isna(value)] on a raw cell *)
Definition raw_isna (value : raw) : bool :=
  match value with RStr _ => false | _ => true end.

(** [value == ''] *)
Definition raw_is_empty_str (value : raw) : bool :=
  match value with RStr s => str_eqb s [] | _ => false end.

(** [str(value)] *)
Definition raw_str (value : raw) : pystr :=
  match value with
  | RNone => py "None"
  | RNaN => py "nan"
  | RStr s => s
  end.

(** The frame [pd.read_csv] returns: the columns in header order, each with
    its name and its cells in row order.  [read_csv] makes the names distinct
    and the columns equally long. *)
Abbreviation frame := (list (pystr * list raw)).

(** A [dict] with [str] keys, in insertion order. *)
Abbreviation dict V := (list (pystr * V)).

Abbreviation record := (dict pyval).

(** ** Logging and the monad *)

(** The records the functions log, by call site, with the values their
    messages are formatted from: for [DebugRawHead] and [DebugCleanedHead]
    the first five rows of the frame, for [DebugRawDtypes] the names of its
    columns (each read as [str]), for [DebugCleanedDtypes] the series of the
    cleaned frame. *)
Inductive log_record :=
| DebugStartUpload
| DebugRawHead (head : frame)
| DebugRawDtypes (columns : list pystr)
| DebugProcessing (column_name : pystr) (target_dtype : option pystr)
| DebugNoDtype (column_name : pystr)
| DebugCleanedHead (head : list record)
| DebugCleanedDtypes (cleaned_data : dict (list pyval))
| WarnNotSafeInt (value : raw) (numeric_val : num)
| WarnCellConversion (value_str target_dtype : pystr) (e : exn)
| WarnColumnConversion (column_name target_dtype : pystr) (e : exn)
| WarnEmptyCsv (csv_path : pystr)
| ErrorNotFound (csv_path : pystr)
| ErrorNotFoundOnRead (csv_path : pystr)
| ErrorUnexpected (csv_path : pystr) (e : exn).

Definition M (A : Type) : Type := list log_record * outcome A.

Definition ret {A} (a : A) : M A := ([], Returns a).

Definition bind {A B} (m : M A) (k : A -> M B) : M B :=
  match m with
  | (l, Returns a) => let '(l', o) := k a in (l ++ l', o)
  | (l, Raises e) => (l, Raises e)
  end.

Notation "x <- m ;; k" := (bind m (fun x => k))
  (at level 100, m at next level, right associativity).
Notation "m ;;; k" := (bind m (fun _ => k))
  (at level 100, right associativity).

(** A call that may raise and logs nothing. *)
Definition call {A} (o : outcome A) : M A := ([], o).

Definition raise {A} (e : exn) : M A := ([], Raises e).

(** [logger.debug(...)], [logger.warning(...)] and the like *)
Definition log (r : log_record) : M unit := ([r], Returns tt).

(** [try: body  except Exception as e: handler e] *)
Definition try_except {A} (body : M A) (handler : exn -> M A) : M A :=
  match body with
  | (l, Raises e) => let '(l', o) := handler e in (l ++ l', o)
  | done => done
  end.

(** [f] applied to each element in order, as [Series.apply] does.  The dtype
    [apply] infers for its result changes no value the finalization reads. *)
Fixpoint mapM {A B} (f : A -> M B) (l : list A) : M (list B) :=
  match l with
  | [] => ret []
  | x :: r => y <- f x ;; ys <- mapM f r ;; ret (y :: ys)
  end.

(** ** What depends on the pandas installed *)

(** What pandas does for a dtype name outside the int, float and str
    families.
    - [astype_scalar t s] is [pd.Series([s]).astype(t).iloc[0]];
    - [series_astype t col] is [col.astype(t)];
    - [to_datetime_coerce col] is [pd.to_datetime(col, errors='coerce')].
    Each returns or raises; a conversion of a series keeps its index.

    And what its parser reads from a numeral of more than 15 digits:
    [long_numeral s] is the [float64] read from the digits [s], with the
    ['.'] they may hold and without a sign.  The parser of pandas 2 is not
    correctly rounded on such numerals, and fails on a numeral beyond the
    range of [float64], which [errors='coerce'] turns into NaN; the parser
    of pandas 3 returns an infinity there. *)
Record pandas_ext := {
  long_numeral : pystr -> float;
  astype_scalar : pystr -> pystr -> outcome pyval;
  series_astype : pystr -> list pyval -> outcome (list pyval);
  to_datetime_coerce : list pyval -> outcome (list pyval);
  series_astype_length : forall t col col',
    series_astype t col = Returns col' -> length col' = length col;
  to_datetime_coerce_length : forall col col',
    to_datetime_coerce col = Returns col' -> length col' = length col
}.

(** ** Reading a numeral *)

Definition digit_of (c : N) : option Z :=
  if ((48 <=? c) && (c <=? 57))%N then Some (Z.of_N c - 48) else None.

(** The value of a run of ASCII digits read after [acc]; [None] when a
    character is not a digit. *)
Fixpoint digits_value (acc : Z) (s : pystr) : option Z :=
  match s with
  | [] => Some acc
  | c :: r =>
      match digit_of c with
      | Some d => digits_value (10 * acc + d) r
      | None => None
      end
  end.

(** The text before the first ['.'], and the text after it when there is one. *)
Fixpoint split_point (s : pystr) : pystr * option pystr :=
  match s with
  | [] => ([], None)
  | c :: r =>
      if (c =? 46)%N then ([], Some r)
      else let '(a, b) := split_point r in (c :: a, b)
  end.

(** [pd.to_numeric(s, errors='coerce')] on a text [s] of digits, ['.'] and
    ['-'] (what [re_sub_non_numeric] leaves): an optional leading ['-'], digits,
    and optionally a ['.'] and more digits, with at least one digit; any other
    text is NaN.  A numeral without ['.'] is an integer when it fits [int64] or
    [uint64].  Any other numeral is a float.  With at most 15 digits the
    parser holds the digits exactly and divides once by a power of ten that
    is exact too, so the float is the binary64 nearest to the numeral.  With
    more digits it is what [long_numeral] gives for the numeral without its
    sign, and the sign is put on the result. *)
Definition to_numeric_coerce (E : pandas_ext) (s : pystr) : num :=
  let '(neg, body) :=
    match s with
    | c :: r => if (c =? 45)%N then (true, r) else (false, s)
    | [] => (false, [])
    end in
  let '(ip, fp) := split_point body in
  match digits_value 0 ip, fp with
  | Some i, None =>
      if bool_decide (ip = []) then nan
      else
        let z := signed neg i in
        if (INT64_MIN <=? z) && (z <=? UINT64_MAX) then NInt z
        else NFloat (with_sign neg (long_numeral E body))
  | Some _, Some fr =>
      match digits_value 0 (ip ++ fr) with
      | Some m =>
          if bool_decide (ip ++ fr = []) then nan
          else if (length (ip ++ fr) <=? 15)%nat
               then NFloat (float_of_decimal neg m (length fr))
               else NFloat (with_sign neg (long_numeral E body))
      | None => nan
      end
  | None, _ => nan
  end.

(** ** The Value Normalizer *)

Definition int_tags : list pystr := [py "int"; py "int64"].
Definition float_tags : list pystr := [py "float"; py "float64"].
Definition str_tags : list pystr := [py "str"; py "string"].

Definition _clean_value (E : pandas_ext) (value : raw) (target_dtype : pystr)
  : M pyval :=
  if raw_isna value || raw_is_empty_str value then ret VNone
  else
    let value_str := strip (raw_str value) in
    if str_eqb value_str [] then ret VNone
    else if str_in target_dtype (int_tags ++ float_tags) then
      let cleaned_str := re_sub_non_numeric value_str in
      if str_eqb cleaned_str [] || str_eqb cleaned_str (py "-") then ret VNone
      else
        let numeric_val := to_numeric_coerce E cleaned_str in
        if num_isna numeric_val then ret VNone
        else if str_in target_dtype int_tags then
          r <- call (num_round numeric_val) ;;
          if num_eq_Z numeric_val r then
            if num_isna numeric_val then ret VNA
            else z <- call (num_int numeric_val) ;; ret (VInt z)
          else
            log (WarnNotSafeInt value numeric_val) ;;;
            if negb (num_isna numeric_val)
            then ret (VFloat (num_float numeric_val))
            else ret VNone
        else
          if negb (num_isna numeric_val)
          then ret (VFloat (num_float numeric_val))
          else ret VNone
    else if str_in target_dtype str_tags then ret (VStr value_str)
    else
      try_except
        (call (astype_scalar E target_dtype value_str))
        (fun e =>
           log (WarnCellConversion value_str target_dtype e) ;;;
           ret (VStr value_str)).

(** ** Column finalization *)

(** What [pd.to_numeric(col, errors="coerce")] returns for a series: [int64]
    when every element is an [int] that fits, [uint64] when every element is a
    non-negative [int] that fits [uint64], and [float64] otherwise. *)
Inductive numeric_series :=
| SInt64 (zs : list Z)
| SUInt64 (zs : list Z)
| SFloat64 (fs : list float).

(** The elements of [col] when they are all [int]s within [lo .. hi]. *)
Fixpoint ints_within (lo hi : Z) (col : list pyval) : option (list Z) :=
  match col with
  | [] => Some []
  | VInt z :: r =>
      if (lo <=? z) && (z <=? hi)
      then option_map (cons z) (ints_within lo hi r)
      else None
  | _ :: _ => None
  end.

(** An element of an object series as a [float64] under [errors="coerce"].
    A series cleaned under a numeric tag holds [None], [int] and [float] only;
    the other cases are here for totality. *)
Definition to_float64_coerce (E : pandas_ext) (v : pyval) : float :=
  match v with
  | VInt z => float_of_Z z
  | VFloat f => f
  | VStr s => num_float (to_numeric_coerce E s)
  | _ => S754_nan
  end.

Definition to_numeric_series (E : pandas_ext) (col : list pyval)
  : numeric_series :=
  match ints_within INT64_MIN INT64_MAX col with
  | Some zs => SInt64 zs
  | None =>
      match ints_within 0 UINT64_MAX col with
      | Some zs => SUInt64 zs
      | None => SFloat64 (map (to_float64_coerce E) col)
      end
  end.

(** A [float64] that [astype("Int64")] accepts: NaN, or a whole number within
    [int64] (the cast to [int64] compares equal to the float). *)
Definition int64_castable (f : float) : bool :=
  match float_trunc f with
  | Returns z => float_eq_Z f z && (INT64_MIN <=? z) && (z <=? INT64_MAX)
  | Raises _ => float_isnan f
  end.

Definition float_to_Int64 (f : float) : pyval :=
  match float_trunc f with
  | Returns z => VInt z
  | Raises _ => VNA
  end.

Definition unsafe_cast (from : string) : exn :=
  Exn TypeError (py "cannot safely cast non-equivalent " ++ py from ++ py " to int64").

(** [values[np.nanargmax(values)]]: the greatest element that is not NaN, the
    first of them when there are several; [None] when every element is NaN. *)
Fixpoint nanmax (fs : list float) : option float :=
  match fs with
  | [] => None
  | f :: r =>
      match nanmax r with
      | None => if float_isnan f then None else Some f
      | Some g =>
          if float_isnan f then Some g
          else if SFltb f g then Some g else Some f
      end
  end.

Definition too_large : exn :=
  Exn OverflowError (py "Python int too large to convert to C long").

(** An element of an [object] array of floats under [astype("int64")]: it is
    given to [int], and the [int] must fit a C [long]. *)
Definition object_to_int64 (f : float) : outcome Z :=
  match float_trunc f with
  | Returns z =>
      if (INT64_MIN <=? z) && (z <=? INT64_MAX) then Returns z
      else Raises too_large
  | Raises e => Raises e
  end.

(** The first exception of a list of outcomes. *)
Fixpoint first_raise {A} (os : list (outcome A)) : option exn :=
  match os with
  | [] => None
  | Returns _ :: r => first_raise r
  | Raises e :: _ => Some e
  end.

(** [s.astype("Int64")]: the nullable integer array, or an exception when an
    element is not an [int64] value.  For a [float64] series pandas first
    looks at the greatest element: [int] of it raises on an infinity; when it
    is not whole, the series is cast as an [object] array, the NaN replaced by
    1, and the complaint names [object]; otherwise the series is cast as it
    is, and the complaint names [float64]. *)
Definition astype_Int64 (s : numeric_series) : outcome (list pyval) :=
  match s with
  | SInt64 zs => Returns (map VInt zs)
  | SUInt64 _ => Raises (unsafe_cast "uint64")
  | SFloat64 fs =>
      match nanmax fs with
      | None => Returns (map float_to_Int64 fs)
      | Some top =>
          match float_trunc top with
          | Raises e => Raises e
          | Returns z =>
              if float_eq_Z top z then
                if forallb int64_castable fs
                then Returns (map float_to_Int64 fs)
                else Raises (unsafe_cast "float64")
              else
                match first_raise
                        (map object_to_int64
                           (List.filter (fun f => negb (float_isnan f)) fs)) with
                | Some e => Raises e
                | None => Raises (unsafe_cast "object")
                end
          end
      end
  end.

(** [s.astype("float64")] *)
Definition astype_float64 (s : numeric_series) : list pyval :=
  match s with
  | SInt64 zs | SUInt64 zs => map (fun z => VFloat (float_of_Z z)) zs
  | SFloat64 fs => map VFloat fs
  end.

(** An element under [astype("string")]: a missing value becomes [pd.NA].  The
    series it is applied to hold [str], [None] and NaN only. *)
Definition astype_string (v : pyval) : pyval := if isna v then VNA else v.

(** An element under [.str.strip()]: NaN stays NaN. *)
Definition str_strip (value : raw) : pyval :=
  match value with
  | RStr s => VStr (strip s)
  | _ => VFloat S754_nan
  end.

Definition datetime_tags : list pystr := [py "datetime64[ns]"; py "datetime"].

(** ** The Table Cleaner *)

(** [d[k] = v] *)
Fixpoint dict_set {V} (k : pystr) (v : V) (d : dict V) : dict V :=
  match d with
  | [] => [(k, v)]
  | (k', v') :: r =>
      if str_eqb k k' then (k, v) :: r else (k', v') :: dict_set k v r
  end.

(** The final dtype conversion of a cleaned series, by target tag. *)
Definition finalize (E : pandas_ext) (column_name target_dtype : pystr)
    (cleaned_series : list pyval) : M (list pyval) :=
  if str_in target_dtype int_tags then
    call (astype_Int64 (to_numeric_series E cleaned_series))
  else if str_in target_dtype float_tags then
    ret (astype_float64 (to_numeric_series E cleaned_series))
  else if str_in target_dtype str_tags then
    ret (map astype_string cleaned_series)
  else
    try_except
      (if str_in target_dtype datetime_tags
       then call (to_datetime_coerce E cleaned_series)
       else call (series_astype E target_dtype cleaned_series))
      (fun e =>
         log (WarnColumnConversion column_name target_dtype e) ;;;
         ret cleaned_series).

(** The series stored for a column with no tag: [.str.strip()], then
    [.astype("string")]. *)
Definition strip_only (column : list raw) : list pyval :=
  map (fun x => astype_string (str_strip x)) column.

(** The body of the loop over [raw_dataframe.columns] for one column: the
    series stored in [cleaned_data[column_name]].  [if target_dtype:] holds
    for a tag that is there and is not the empty string. *)
Definition clean_column (E : pandas_ext) (dtypes : gmap pystr pystr)
    (column_name : pystr) (column : list raw) : M (list pyval) :=
  let target_dtype := dtypes !! column_name in
  log (DebugProcessing column_name target_dtype) ;;;
  match target_dtype with
  | None =>
      log (DebugNoDtype column_name) ;;;
      ret (strip_only column)
  | Some target_dtype =>
      if str_eqb target_dtype [] then
        log (DebugNoDtype column_name) ;;;
        ret (strip_only column)
      else
        cleaned_series <- mapM (fun x => _clean_value E x target_dtype) column ;;
        finalize E column_name target_dtype cleaned_series
  end.

(** The loop over [raw_dataframe.columns], from the [cleaned_data] built so
    far. *)
Fixpoint clean_columns (E : pandas_ext) (dtypes : gmap pystr pystr)
    (columns : frame) (cleaned_data : dict (list pyval))
  : M (dict (list pyval)) :=
  match columns with
  | [] => ret cleaned_data
  | (column_name, column) :: rest =>
      series <- clean_column E dtypes column_name column ;;
      clean_columns E dtypes rest (dict_set column_name series cleaned_data)
  end.

(** The number of rows of [pd.DataFrame(cleaned_data)]: the series are aligned
    on their index, [0 .. n-1] for each. *)
Definition n_rows (cleaned_data : dict (list pyval)) : nat :=
  foldr (fun c n => Nat.max (length c.2) n) 0%nat cleaned_data.

(** Row [i] of the frame as a record; a position a series does not have is
    NaN. *)
Definition row_at (cleaned_data : dict (list pyval)) (i : nat) : record :=
  map (fun c => (c.1, nth i c.2 (VFloat S754_nan))) cleaned_data.

(** [pd.DataFrame(cleaned_data).to_dict(orient='records')] *)
Definition to_dict_records (cleaned_data : dict (list pyval)) : list record :=
  map (row_at cleaned_data) (seq 0 (n_rows cleaned_data)).

(** The loop that builds [processed_row]: the keys of [row] are distinct, so
    each assignment appends. *)
Definition processed_row (row : record) : record :=
  map (fun kv => (kv.1, if isna kv.2 then VNone else kv.2)) row.

(** What [Response(result=...)] carries: the records, or [{"error": msg}]. *)
Inductive SerializableResult :=
| Records (rows : list record)
| ErrorDict (msg : pystr).

(** What is at [csv_path]: nothing that [Path.is_file()] accepts, a file on
    which [pd.read_csv] raises ([EmptyDataError] when it has no columns), or a
    file [pd.read_csv] reads as a frame. *)
Inductive csv_file :=
| NotAFile
| ReadRaises (e : exn)
| ReadFrame (raw_dataframe : frame).

(** [df.head()]: the first five rows. *)
Definition frame_head (df : frame) : frame :=
  map (fun c => (c.1, take 5 c.2)) df.

Definition not_found_msg (csv_path : pystr) : pystr :=
  py "CSV file not found: " ++ csv_path.

Definition clean_csv_data (E : pandas_ext) (file : csv_file)
    (csv_path : pystr) (dtypes : gmap pystr pystr)
  : list log_record * SerializableResult :=
  let body : M SerializableResult :=
    match file with
    | NotAFile =>
        log (ErrorNotFound csv_path) ;;;
        ret (ErrorDict (not_found_msg csv_path))
    | ReadRaises e => raise e
    | ReadFrame raw_dataframe =>
        log (DebugRawHead (frame_head raw_dataframe)) ;;;
        log (DebugRawDtypes (map fst raw_dataframe)) ;;;
        cleaned_data <- clean_columns E dtypes raw_dataframe [] ;;
        log (DebugCleanedHead (take 5 (to_dict_records cleaned_data))) ;;;
        log (DebugCleanedDtypes cleaned_data) ;;;
        let result_list := to_dict_records cleaned_data in
        ret (Records (map processed_row result_list))
    end in
  match body with
  | (l, Returns result) => (l, result)
  | (l, Raises e) =>
      match exn_cls e with
      | FileNotFoundError =>
          (l ++ [ErrorNotFoundOnRead csv_path],
           ErrorDict (not_found_msg csv_path))
      | EmptyDataError =>
          (l ++ [WarnEmptyCsv csv_path], Records [])
      | _ =>
          (l ++ [ErrorUnexpected csv_path e],
           ErrorDict (py "Error cleaning CSV: " ++ exn_str e))
      end
  end.

(** *** A registry for closed runs *)

Definition not_understood (t : pystr) : exn :=
  Exn TypeError (py "data type '" ++ t ++ py "' not understood").

(** The binary64 nearest to a numeral without a sign, and an infinity when
    the numeral is beyond the range of binary64. *)
Definition nearest_float (s : pystr) : float :=
  let '(ip, fp) := split_point s in
  match digits_value 0 (ip ++ default [] fp) with
  | Some m => float_of_decimal false m (length (default [] fp))
  | None => S754_nan
  end.

(** The pandas of an installation in which no dtype name outside the int,
    float and str families is registered and no text is a date: every
    conversion to such a name raises, and [to_datetime] coerces everything to
    [NaT]; its parser is correctly rounded, and returns an infinity for a
    numeral beyond the range of [float64], as the parser of pandas 3 does.
    The properties hold for every [pandas_ext]; the closed runs are stated
    with this one. *)
Program Definition bare_pandas : pandas_ext := {|
  long_numeral := nearest_float;
  astype_scalar t _ := Raises (not_understood t);
  series_astype t _ := Raises (not_understood t);
  to_datetime_coerce col := Returns (map (fun _ => VNaT) col)
|}.
Next Obligation. discriminate. Qed.
Next Obligation. intros col col' [= <-]. apply length_map. Qed.

(** ** Notions the properties are stated with *)

(** The exact value of the float [f], which is [(-1)^s * m * 2^e], is the
    integer [z]. *)
Definition float_is_Z (f : float) (z : Z) : Prop :=
  match f with
  | S754_zero _ => z = 0
  | S754_finite s m e =>
      exists a : Z, z = (if s then - a else a) /\
        ((0 <= e) -> a = Zpos m * 2 ^ e) /\
        ((e < 0) -> Zpos m = a * 2 ^ (- e))
  | _ => False
  end.

(** The value of the number [n] is the integer [z]. *)
Definition num_is_Z (n : num) (z : Z) : Prop :=
  match n with NInt x => x = z | NFloat f => float_is_Z f z end.

(** [n] is mathematically whole: its value is an integer. *)
Definition whole (n : num) : Prop := exists z, num_is_Z n z.

(** The text [re_sub_non_numeric] leaves of a raw text. *)
Definition kept_text (s : pystr) : pystr := re_sub_non_numeric (strip s).

(** A record of [logger.debug]. *)
Definition is_debug (r : log_record) : bool :=
  match r with
  | DebugStartUpload | DebugRawHead _ | DebugRawDtypes _ | DebugProcessing _ _
  | DebugNoDtype _ | DebugCleanedHead _ | DebugCleanedDtypes _ => true
  | _ => false
  end.

(** The records of a log at WARNING level or above. *)
Definition above_debug (lg : list log_record) : list log_record :=
  List.filter (fun r => negb (is_debug r)) lg.

(** A text of whitespace only. *)
Definition all_space (s : pystr) : Prop := Forall (fun c => is_space c = true) s.

(** [p] occurs in [s] as a run of consecutive characters. *)
Definition substring (p s : pystr) : Prop := exists a b, s = a ++ p ++ b.

Definition numeric_tags : list pystr := int_tags ++ float_tags.

(** The binary64 values 10.5 and 1234.5. *)
Definition f10_5 : float := S754_finite false 5910974510923776 (-49).
Definition f1234_5 : float := S754_finite false 5429388417957888 (-42).

(** The tag the loop uses for a column, if any. *)
Definition tag_of (dtypes : gmap pystr pystr) (column_name : pystr)
  : option pystr :=
  match dtypes !! column_name with
  | Some t => if str_eqb t [] then None else Some t
  | None => None
  end.

(** The value [processed_row] stores for a cell. *)
Definition final (v : pyval) : pyval := if isna v then VNone else v.

(** The number of data rows of a frame. *)
Definition frame_height (df : frame) : nat :=
  match df with
  | [] => 0%nat
  | c :: _ => length c.2
  end.

(** What [pd.read_csv] guarantees of the frame it returns: distinct column
    names, and columns of one length. *)
Definition well_formed (df : frame) : Prop :=
  NoDup (map fst df) /\ Forall (fun c => length c.2 = frame_height df) df.

(** The cells a finished column may hold, by the family of its tag. *)
Definition int_cell (v : pyval) : Prop :=
  v = VNone \/ exists z, v = VInt z /\ INT64_MIN <= z <= INT64_MAX.

Definition float_cell (v : pyval) : Prop :=
  v = VNone \/ exists f, v = VFloat f /\ float_isnan f = false.

Definition str_cell (v : pyval) : Prop :=
  v = VNone \/ exists s, v = VStr s /\ s <> [] /\ strip s = s.

Definition untyped_cell (v : pyval) : Prop :=
  v = VNone \/ exists s, v = VStr s /\ strip s = s.

(** A cell is [None] or a value that is not missing, and it is of the
    finalized type of its column when the column has no tag or a tag of the
    int, float or str family. *)
Definition cell_ok (tag : option pystr) (v : pyval) : Prop :=
  (v = VNone \/ isna v = false) /\
  match tag with
  | None => untyped_cell v
  | Some t =>
      (In t int_tags -> int_cell v) /\
      (In t float_tags -> float_cell v) /\
      (In t str_tags -> str_cell v)
  end.

(** The record cell [v] comes from the raw cell [x] of a column with the tag
    [tag]: by stripping for a column with no tag, and otherwise from the value
    the Value Normalizer returns for [x], as the finalization of the int,
    float and str families converts it. *)
Definition cell_from (E : pandas_ext) (tag : option pystr) (x : raw)
    (v : pyval) : Prop :=
  match tag with
  | None => v = final (astype_string (str_strip x))
  | Some t =>
      exists lg c, _clean_value E x t = (lg, Returns c) /\
        (In t int_tags ->
           v = final c \/ v = final (float_to_Int64 (to_float64_coerce E c))) /\
        (In t float_tags -> v = final (VFloat (to_float64_coerce E c))) /\
        (In t str_tags -> v = final (astype_string c))
  end.

(** *** A sample report *)

(** Four columns and two data rows: an int, a float and a str column, and one
    the type specification does not name. *)
Definition sample_frame : frame :=
  [ (py "id",     [RStr (py "1,000");     RNaN]);
    (py "amount", [RStr (py "$1,234.50"); RStr (py "n/a")]);
    (py "name",   [RStr (py " bob ");     RStr (py "   ")]);
    (py "note",   [RStr (py "  hi");      RNaN]) ].

Definition sample_dtypes : gmap pystr pystr :=
  <[py "id" := py "int"]>
    (<[py "amount" := py "float"]> (<[py "name" := py "str"]> ∅)).

Definition sample_records : list record :=
  [ [ (py "id", VInt 1000); (py "amount", VFloat f1234_5);
      (py "name", VStr (py "bob")); (py "note", VStr (py "hi")) ];
    [ (py "id", VNone); (py "amount", VNone);
      (py "name", VNone); (py "note", VNone) ] ].

(** A report with one column, which the type specification does not name,
    and one cell, of whitespace only. *)
Definition blank_frame : frame := [ (py "a", [RStr (py "   ")]) ].

(** A report with one int column and one cell, ["10.5"]. *)
Definition fraction_frame : frame := [ (py "a", [RStr (py "10.5")]) ].

Definition fraction_dtypes : gmap pystr pystr := <[py "a" := py "int"]> ∅.

(** The header of the file at [csv_path], when it reads as a frame. *)
Definition header (file : csv_file) : list pystr :=
  match file with
  | ReadFrame df => map fst df
  | _ => []
  end.

(** ** The records written back as text *)

Fixpoint uint_chars (d : Decimal.uint) : pystr :=
  match d with
  | Decimal.Nil => []
  | Decimal.D0 l => 48%N :: uint_chars l
  | Decimal.D1 l => 49%N :: uint_chars l
  | Decimal.D2 l => 50%N :: uint_chars l
  | Decimal.D3 l => 51%N :: uint_chars l
  | Decimal.D4 l => 52%N :: uint_chars l
  | Decimal.D5 l => 53%N :: uint_chars l
  | Decimal.D6 l => 54%N :: uint_chars l
  | Decimal.D7 l => 55%N :: uint_chars l
  | Decimal.D8 l => 56%N :: uint_chars l
  | Decimal.D9 l => 57%N :: uint_chars l
  end.

(** [str(z)] for an [int] *)
Definition int_str (z : Z) : pystr :=
  match Z.to_int z with
  | Decimal.Pos d => uint_chars d
  | Decimal.Neg d => 45%N :: uint_chars d
  end.

(** The exact value [m * 2^e] of a finite float, as a fraction. *)
Definition fraction_of (m : positive) (e : Z) : Z * Z :=
  if 0 <=? e then (Zpos m * 2 ^ e, 1) else (Zpos m, 2 ^ (- e)).

(** [10^p <= num / den] *)
Definition pow10_le (p : Z) (num den : Z) : bool :=
  if 0 <=? p then 10 ^ p * den <=? num else den <=? num * 10 ^ (- p).

(** The least [p] from [p0] on, within [fuel] steps, with [num / den < 10^p]. *)
Fixpoint decimal_point (fuel : nat) (p0 : Z) (num den : Z) : Z :=
  match fuel with
  | O => p0
  | S k => if pow10_le p0 num den then decimal_point k (p0 + 1) num den else p0
  end.

(** [floor (num / den / 10^k)] *)
Definition scaled_floor (num den k : Z) : Z :=
  if 0 <=? k then num / (den * 10 ^ k) else (num * 10 ^ (- k)) / den.

(** The float read from the decimal [D * 10^k]. *)
Definition float_of_scaled (neg : bool) (D k : Z) : float :=
  if 0 <=? k then float_of_decimal neg (D * 10 ^ k) 0
  else float_of_decimal neg D (Z.to_nat (- k)).

Definition float_same (a b : float) : bool :=
  match a, b with
  | S754_zero s, S754_zero s' => Bool.eqb s s'
  | S754_infinity s, S754_infinity s' => Bool.eqb s s'
  | S754_nan, S754_nan => true
  | S754_finite s m e, S754_finite s' m' e' =>
      Bool.eqb s s' && (Zpos m =? Zpos m') && (e =? e')
  | _, _ => false
  end.

(** The shortest decimal [D * 10^k] that reads back as the finite float [f],
    which is [(-1)^s * num / den], and the nearest to it among the shortest:
    with [n] digits when there is one, for [n] up to 17. *)
Fixpoint shortest (fuel : nat) (n : Z) (s : bool) (f : float)
    (num den decpt : Z) : Z * Z :=
  let k := decpt - n in
  let lo := scaled_floor num den k in
  let hi := lo + 1 in
  let ok_lo := float_same (float_of_scaled s lo k) f in
  let ok_hi := float_same (float_of_scaled s hi k) f in
  let lo_nearer :=
    if 0 <=? k then 2 * num <=? (lo + hi) * 10 ^ k * den
    else 2 * num * 10 ^ (- k) <=? (lo + hi) * den in
  let pick := if ok_lo && (negb ok_hi || lo_nearer) then lo else hi in
  match fuel with
  | O => (if lo_nearer then lo else hi, k)
  | S fuel' =>
      if ok_lo || ok_hi then (pick, k)
      else shortest fuel' (n + 1) s f num den decpt
  end.

(** [D * 10^k] with the trailing zeros of [D] moved to the exponent. *)
Fixpoint strip_zeros (fuel : nat) (D k : Z) : Z * Z :=
  match fuel with
  | O => (D, k)
  | S fuel' =>
      if (D mod 10 =? 0) && negb (D =? 0) then strip_zeros fuel' (D / 10) (k + 1)
      else (D, k)
  end.

Definition zeros (n : Z) : pystr := repeat 48%N (Z.to_nat n).

(** [str(f)] for a float, which is [repr(f)]: the shortest digits that read
    back as [f], in fixed notation when the decimal point falls within
    [-3 .. 16] digits of the first digit, and in exponent notation otherwise. *)
Definition float_repr (f : float) : pystr :=
  match f with
  | S754_nan => py "nan"
  | S754_infinity s => if s then py "-inf" else py "inf"
  | S754_zero s => if s then py "-0.0" else py "0.0"
  | S754_finite s m e =>
      let '(num, den) := fraction_of m e in
      let est := ((Z.log2 num - Z.log2 den) * 30103) / 100000 - 1 in
      let decpt := decimal_point 4 est num den in
      let '(D0, k0) := shortest 17 1 s f num den decpt in
      let '(D, k) := strip_zeros 20 D0 k0 in
      let ds := int_str D in
      let n := Z.of_nat (length ds) in
      let point := n + k in
      let body :=
        if (16 <? point) || (point <? -3) then
          let x := point - 1 in
          take 1 ds ++ (if 1 <? n then 46%N :: drop 1 ds else [])
          ++ [101%N] ++ (if x <? 0 then [45%N] else [43%N])
          ++ (if Z.abs x <? 10 then [48%N] else []) ++ int_str (Z.abs x)
        else if point <=? 0 then py "0." ++ zeros (- point) ++ ds
        else if n <=? point then ds ++ zeros (point - n) ++ py ".0"
        else take (Z.to_nat point) ds ++ [46%N] ++ drop (Z.to_nat point) ds in
      if s then 45%N :: body else body
  end.

(** The raw cell [read_csv] reads from a record cell written as text: a
    missing value and the empty string are written as an empty field, which
    reads as NaN. *)
Definition as_text (v : pyval) : raw :=
  match v with
  | VInt z => RStr (int_str z)
  | VFloat f => if float_isnan f then RNaN else RStr (float_repr f)
  | VStr s => if str_eqb s [] then RNaN else RStr s
  | VObject _ r => if str_eqb r [] then RNaN else RStr r
  | _ => RNaN
  end.







(** The binary64 value 0.00001. *)
Definition f1e_5 : float := S754_finite false 5902958103587057 (-69).

(** An ASCII digit. *)
Definition is_digit (c : N) : Prop := (48 <= c <= 57)%N.

(** A record with no bit shifted out yet. *)
Definition exact_record (mrs : shr_record) : Prop :=
  shr_r mrs = false /\ shr_s mrs = false.

(** What the Value Normalizer returns under an int tag: [None], an [int], or
    a float that is not whole. *)
Definition int_cleaned (v : pyval) : Prop :=
  v = VNone \/ (exists z, v = VInt z) \/
  (exists f, v = VFloat f /\ float_isnan f = false /\ ~ whole (NFloat f)).

(** The records made from the series of [cleaned_data]. *)
Definition rows_of (cleaned_data : dict (list pyval)) : list record :=
  map processed_row (to_dict_records cleaned_data).



(** ** The query action *)

(** [str.isalnum] on an ASCII character. *)
Definition ascii_isalnum (c : N) : bool :=
  ((48 <=? c) && (c <=? 57) || (65 <=? c) && (c <=? 90) ||
   (97 <=? c) && (c <=? 122))%N.

(** The class [\w] of [re] on a [str] pattern: ['_'], or a character
    [str.isalnum] accepts.  Beyond ASCII [isalnum] is a table of the Unicode
    database, [uni_alnum]. *)
Definition is_word (uni_alnum : N -> bool) (c : N) : bool :=
  (c =? 95)%N || (if (c <? 128)%N then ascii_isalnum c else uni_alnum c).

(** The complement of the class [[^\w\s]]; [\s] is the whitespace of
    [str.isspace]. *)
Definition is_plain_char (uni_alnum : N -> bool) (c : N) : bool :=
  is_word uni_alnum c || is_space c.

(** [re.sub(r'[^\w\s]', '', text)] *)
Fixpoint _remove_special_chars (uni_alnum : N -> bool) (text : pystr) : pystr :=
  match text with
  | [] => []
  | c :: r =>
      if is_plain_char uni_alnum c then c :: _remove_special_chars uni_alnum r
      else _remove_special_chars uni_alnum r
  end.

Definition DUCKDB_DIR : pystr := py "data".

(** The thread a request is taken to be of when its headers have no
    [X-INVOKED_FOR_THREAD_ID]. *)
Definition DEFAULT_THREAD_ID : pystr :=
  py "57fc9d4c-5a16-4aaa-b044-792ad2c355d3".

(** [os.path.join(a, b)] on POSIX paths *)
Definition os_path_join (a b : pystr) : pystr :=
  match b with
  | 47%N :: _ => b
  | _ =>
      match last a with
      | None => a ++ b
      | Some c => if (c =? 47)%N then a ++ b else a ++ 47%N :: b
      end
  end.

(** [sep.join(parts)] *)
Fixpoint str_join (sep : pystr) (parts : list pystr) : pystr :=
  match parts with
  | [] => []
  | [p] => p
  | p :: rest => p ++ sep ++ str_join sep rest
  end.

(** What the [duckdb] module does for the query action.
    - [duckdb_connect db_path] is [duckdb.connect(database=db_path)];
    - [execute_fetchall con sql] is [con.execute(sql).fetchall()], with the
      connection as the statement leaves it;
    - [description_names con] is [[col[0] for col in con.description]];
    - [cell_str v] is [str(v)] for a value of a fetched row. *)
Record duckdb_ext := {
  connection : Type;
  cell : Type;
  cell_str : cell -> pystr;
  duckdb_connect : pystr -> outcome connection;
  execute_fetchall : connection -> pystr -> outcome (connection * list (list cell));
  description_names : connection -> outcome (list pystr)
}.

Definition newline : pystr := [10%N].

(** A line of the result table: the fields joined by [" \| "], and a line
    feed. *)
Definition table_line (fields : list pystr) : pystr :=
  str_join (py " \| ") fields ++ newline.

(** The text built in [output] for a result that has rows. *)
Definition query_output (D : duckdb_ext) (column_names : list pystr)
    (result : list (list (cell D))) : pystr :=
  let output := py "Discrepancy Query Results:" ++ newline in
  let output := output ++ (repeat 61%N 50 ++ newline) in
  let output := output ++ table_line column_names in
  let output := output ++ (repeat 45%N 50 ++ newline) in
  foldl (fun output row => output ++ table_line (map (cell_str D) row))
        output result.

(** [run_query_on_duckdb] from [duckdb.connect] on: the connection is made
    outside the [try], the query runs inside it. *)
Definition query_database (D : duckdb_ext) (db_path sql_query : pystr)
  : M pystr :=
  con <- call (duckdb_connect D db_path) ;;
  try_except
    (r <- call (execute_fetchall D con sql_query) ;;
     column_names <- call (description_names D r.1) ;;
     match r.2 with
     | [] => ret (py "No discrepancies found (0 rows returned).")
     | _ :: _ => ret (query_output D column_names r.2)
     end)
    (fun e => ret (py "Error executing query: " ++ exn_str e)).

(** [header] is what [request.headers] holds for [X-INVOKED_FOR_THREAD_ID],
    if anything. *)
Definition run_query_on_duckdb (D : duckdb_ext) (uni_alnum : N -> bool)
    (header : option pystr) (sql_query : pystr) : M pystr :=
  let thread_id := default DEFAULT_THREAD_ID header in
  if str_eqb thread_id [] then
    ret (py "Thread ID is missing from request headers.")
  else
    let thread_id := _remove_special_chars uni_alnum thread_id in
    let db_path := os_path_join DUCKDB_DIR (thread_id ++ py ".duckdb") in
    query_database D db_path sql_query.

(** The lines of a text, each ended by a line feed; [cur] is the line being
    read, last character first. *)
Fixpoint lines_from (cur : pystr) (s : pystr) : list pystr :=
  match s with
  | [] => match cur with [] => [] | _ => [rev cur] end
  | c :: r =>
      if (c =? 10)%N then rev cur :: lines_from [] r
      else lines_from (c :: cur) r
  end.

Definition lines (s : pystr) : list pystr := lines_from [] s.

(** ** Files of the chat *)

(** A [pathlib] path on POSIX: the root (nothing, ["/"] or ["//"]) and the
    components after it. *)
Record path := Path { path_root : pystr; path_parts : list pystr }.

(** [s.split("/")]; [cur] is the piece being read, last character first. *)
Fixpoint split_slash_from (cur : pystr) (s : pystr) : list pystr :=
  match s with
  | [] => [rev cur]
  | c :: r =>
      if (c =? 47)%N then rev cur :: split_slash_from [] r
      else split_slash_from (c :: cur) r
  end.

Definition split_slash (s : pystr) : list pystr := split_slash_from [] s.

(** [posixpath.splitroot]: one leading slash, or three or more, is the root
    ["/"]; exactly two are the root ["//"]. *)
Definition splitroot (s : pystr) : pystr * pystr :=
  match s with
  | 47%N :: 47%N :: 47%N :: _ => ([47%N], drop 1 s)
  | 47%N :: 47%N :: r => ([47%N; 47%N], r)
  | 47%N :: r => ([47%N], r)
  | _ => ([], s)
  end.

(** A piece that stays a component: not empty and not ["."]. *)
Definition is_component (x : pystr) : bool :=
  negb (str_eqb x []) && negb (str_eqb x [46%N]).

(** [Path(s)] *)
Definition Path_of (s : pystr) : path :=
  let '(root, rel) := splitroot s in
  Path root (List.filter is_component (split_slash rel)).

(** [p.name] *)
Definition path_name (p : path) : pystr := default [] (last (path_parts p)).

(** [p.parent] *)
Definition path_parent (p : path) : path :=
  Path (path_root p) (removelast (path_parts p)).

(** [p / s] for a text [s] *)
Definition path_div (p : path) (s : pystr) : path :=
  let q := Path_of s in
  if str_eqb (path_root q) [] then Path (path_root p) (path_parts p ++ path_parts q)
  else q.

(** The stem and the suffix of a name: the name is cut at its last ['.'],
    unless that is its first or its last character. *)
Definition splitext (name : pystr) : pystr * pystr :=
  match split_point (rev name) with
  | (e, Some s) =>
      if negb (str_eqb e []) && negb (str_eqb s [])
      then (rev s, 46%N :: rev e)
      else (name, [])
  | (_, None) => (name, [])
  end.

(** [p.stem] and [p.suffix] *)
Definition path_stem (p : path) : pystr := (splitext (path_name p)).1.
Definition path_suffix (p : path) : pystr := (splitext (path_name p)).2.

(** What the chat and the file system do for [_access_file]:
    [chat_get_file name] is [chat.get_file(name)], and [rename src dst] is
    what [src.rename(dst)] raises, if anything. *)
Record chat_ext := {
  chat_get_file : pystr -> outcome path;
  rename : path -> path -> option exn
}.

(** The lines written with [print] are not kept. *)
Definition _access_file (W : chat_ext) (filename : pystr) : pystr * path :=
  let filepath := Path_of filename in
  let orig_basename := path_name filepath in
  let body : outcome path :=
    match chat_get_file W orig_basename with
    | Raises e => Raises e
    | Returns temp_file =>
        let temp_file_dir := path_parent temp_file in
        let new_temp_file_name := path_stem temp_file ++ path_suffix filepath in
        let new_temp_file_path := path_div temp_file_dir new_temp_file_name in
        match rename W temp_file new_temp_file_path with
        | Some e => Raises e
        | None => Returns new_temp_file_path
        end
    end in
  match body with
  | Returns temp_file => (orig_basename, temp_file)
  | Raises _ => (orig_basename, filepath)
  end.

(** A path as [pathlib] builds it: the root is nothing, ["/"] or ["//"], and
    a component is not empty, is not ["."] and has no ['/']. *)
Definition wf_path (p : path) : Prop :=
  (path_root p = [] \/ path_root p = [47%N] \/ path_root p = [47%N; 47%N]) /\
  Forall (fun x => is_component x = true /\ ~ In 47%N x) (path_parts p).

(** ** The upload action *)

(** [str(p)] for a path *)
Definition path_str (p : path) : pystr :=
  match path_root p, path_parts p with
  | [], [] => [46%N]
  | root, parts => root ++ str_join [47%N] parts
  end.

(** A [Response]: [result] and [error], each [None] unless it is given. *)
Record Response := {
  response_result : option SerializableResult;
  response_error : option pystr
}.

(** [Response(result=r)] *)
Definition Response_of_result (r : SerializableResult) : Response :=
  {| response_result := Some r; response_error := None |}.

(** What [pd.DataFrame] raises for a [dict] whose values are all scalars. *)
Definition scalar_values : exn :=
  Exn ValueError (py "If using all scalar values, you must pass an index").

(** [pd.DataFrame(result)] for what a response of [clean_csv_data] carries:
    the frame of the records, or [ValueError] for the error [dict], whose one
    value is a scalar. *)
Definition DataFrame_of (result : option SerializableResult)
  : outcome (list record) :=
  match result with
  | Some (Records rows) => Returns rows
  | Some (ErrorDict _) => Raises scalar_values
  | None => Returns []
  end.

(** The columns of [pd.DataFrame(rows)]: the keys of the records, each at its
    first appearance. *)
Definition frame_columns (rows : list record) : list pystr :=
  foldl (fun cols row =>
           foldl (fun cols kv => if str_in kv.1 cols then cols else cols ++ [kv.1])
                 cols row)
        [] rows.

(** What the file system, [duckdb] and [pandas] do for the upload action.
    - [file_at p] is what [clean_csv_data] finds at the path [p];
    - [load_tables db_path gam_table cm360_table gam_df cm360_df] stands for
      the statements from the first [print] to the second [SELECT COUNT( * )]:
      the frames are printed, the database is opened, the two tables are
      dropped and written, and their rows are counted;
    - [list_repr names] is [str(list(df.columns))]. *)
Record store_ext := {
  file_at : path -> csv_file;
  load_tables : pystr -> pystr -> pystr -> list record -> list record ->
                outcome (Z * Z);
  list_repr : list pystr -> pystr
}.

(** [W1] and [W2] are the chat and the file system as the first and the
    second call of [_access_file] find them. *)
Definition upload_reports (E : pandas_ext) (W1 W2 : chat_ext) (S : store_ext)
    (uni_alnum : N -> bool) (header : option pystr)
    (gam_csv cm360_csv : pystr) (dtypes : gmap pystr pystr) : M pystr :=
  log DebugStartUpload ;;;
  let thread_id := default DEFAULT_THREAD_ID header in
  if str_eqb thread_id [] then
    ret (py "Thread ID is missing from request headers.")
  else
    let thread_id := _remove_special_chars uni_alnum thread_id in
    let db_path := os_path_join DUCKDB_DIR (thread_id ++ py ".duckdb") in
    let gam := _access_file W1 gam_csv in
    let cm360 := _access_file W2 cm360_csv in
    let gam_table := py "GAM_" ++ thread_id in
    let cm360_table := py "CM360_" ++ thread_id in
    let gam_run :=
      clean_csv_data E (file_at S gam.2) (path_str gam.2) dtypes in
    let cm360_run :=
      clean_csv_data E (file_at S cm360.2) (path_str cm360.2) dtypes in
    let gam_response := Response_of_result gam_run.2 in
    let cm360_response := Response_of_result cm360_run.2 in
    (gam_run.1 ++ cm360_run.1, Returns tt) ;;;
    match response_error gam_response with
    | Some err => ret (py "Failed to parse GAM data, " ++ err)
    | None =>
    match response_error cm360_response with
    | Some err => ret (py "Failed to parse CM360 data, " ++ err)
    | None =>
        gam_df <- call (DataFrame_of (response_result gam_response)) ;;
        cm360_df <- call (DataFrame_of (response_result cm360_response)) ;;
        counts <- call (load_tables S db_path gam_table cm360_table
                          gam_df cm360_df) ;;
        ret (py "Successfully loaded:" ++ newline ++
             py "- " ++ int_str counts.1 ++ py " rows from '" ++ gam.1 ++
             py "' into table '" ++ gam_table ++ py "'" ++ newline ++
             py "- " ++ int_str counts.2 ++ py " rows from '" ++ cm360.1 ++
             py "' into table '" ++ cm360_table ++ py "'" ++ newline ++
             py "- GAM column names: " ++ list_repr S (frame_columns gam_df) ++
             newline ++
             py "- CM360 column names: " ++
             list_repr S (frame_columns cm360_df) ++ newline ++
             py "Database path: " ++ db_path)
    end
    end.

(** ** Notions of the further properties *)

(** A numeral: an optional ['-'], digits, and optionally a ['.'] and more
    digits, with at least one digit in all. *)
Definition numeral (s : pystr) : Prop :=
  exists (neg : bool) (ip : pystr) (fp : option pystr),
    s = (if neg then [45%N] else []) ++ ip ++
        match fp with Some fr => 46%N :: fr | None => [] end /\
    Forall is_digit ip /\ Forall is_digit (default [] fp) /\
    ip ++ default [] fp <> [].

(** The text starts with ['-']. *)
Definition leading_minus (s : pystr) : bool :=
  match s with
  | c :: _ => (c =? 45)%N
  | [] => false
  end.

(** [f >= 0] when [neg] is [false], and [f <= 0] when it is [true]; NaN is
    neither. *)
Definition float_on_side (neg : bool) (f : float) : Prop :=
  match f with
  | S754_zero _ => True
  | S754_infinity s | S754_finite s _ _ => s = neg
  | S754_nan => False
  end.

Definition int_on_side (neg : bool) (z : Z) : Prop :=
  if neg then z <= 0 else 0 <= z.

(** The number of ['.'] in a text. *)
Definition points (s : pystr) : nat := length (List.filter (N.eqb 46) s).

(** A record logged at ERROR level: by [logger.error] or
    [logger.exception]. *)
Definition error_level (r : log_record) : bool :=
  match r with
  | ErrorNotFound _ | ErrorNotFoundOnRead _ | ErrorUnexpected _ _ => true
  | _ => false
  end.

(** A cell with nothing in it: an empty field, or whitespace only. *)
Definition blank (x : raw) : Prop :=
  raw_isna x = true \/ exists s, x = RStr s /\ all_space s.

(** The characters kept of the cell are the decimal text of [z]. *)
Definition spells (x : raw) (z : Z) : Prop :=
  exists s, x = RStr s /\ kept_text s = int_str z.

(** A frame with no data row. *)
Definition no_rows (df : frame) : Prop := Forall (fun c => c.2 = []) df.

(** A warning about a conversion to a dtype outside the int, float and str
    families. *)
Definition conversion_warning (r : log_record) : Prop :=
  match r with
  | WarnCellConversion _ _ _ | WarnColumnConversion _ _ _ => True
  | _ => False
  end.

(** What a column with an int tag may raise: the complaint of
    [astype("Int64")] about a [uint64], a [float64] or an [object] series,
    or the [OverflowError] of [round] and [int] on an infinity, or of the
    cast of an [object] series on an [int] beyond [int64]. *)
Definition int_column_error (e : exn) : Prop :=
  e = unsafe_cast "uint64" \/ e = unsafe_cast "float64" \/
  e = unsafe_cast "object" \/ e = infinity_to_integer \/ e = too_large.

(** A record of the DEBUG line at the head of the loop over the columns. *)
Definition is_processing (r : log_record) : Prop :=
  match r with DebugProcessing _ _ => True | _ => False end.

(** Two tags of one family: both int tags, both float tags or both str
    tags. *)
Definition same_family (t t' : pystr) : Prop :=
  (In t int_tags /\ In t' int_tags) \/
  (In t float_tags /\ In t' float_tags) \/
  (In t str_tags /\ In t' str_tags).

(** The type specification with each tag [t] replaced by [alias t]. *)
Definition retag (alias : pystr -> pystr) (dtypes : gmap pystr pystr)
  : gmap pystr pystr := alias <$> dtypes.

(** A log record as it reads when each tag [t] is replaced by [alias t]: the
    DEBUG record at the head of the loop shows the tag. *)
Definition retag_record (alias : pystr -> pystr) (r : log_record)
  : log_record :=
  match r with
  | DebugProcessing column_name (Some t) =>
      DebugProcessing column_name (Some (alias t))
  | _ => r
  end.

(** A log record as it reads when [name] has the empty tag instead of no
    entry. *)
Definition empty_tag_record (name : pystr) (r : log_record) : log_record :=
  match r with
  | DebugProcessing column_name None =>
      if str_eqb column_name name then DebugProcessing column_name (Some [])
      else r
  | _ => r
  end.

(** The report with the rows of [df2] after the rows of [df1], for two
    reports with one header. *)
Definition stack (df1 df2 : frame) : frame :=
  zip_with (fun c1 c2 => (c1.1, c1.2 ++ c2.2)) df1 df2.

(** What the Table Cleaner stores for a cell of a column whose tag is of
    the float or str family, or that has no tag. *)
Definition cell_alone (E : pandas_ext) (tag : option pystr) (x : raw) : pyval :=
  match tag with
  | None => astype_string (str_strip x)
  | Some t =>
      let v := match _clean_value E x t with
               | (_, Returns v) => v
               | (_, Raises _) => VNone
               end in
      if str_in t float_tags then VFloat (to_float64_coerce E v)
      else astype_string v
  end.

(** *** More sample inputs *)

(** A report with a header and no data row. *)
Definition header_only_frame : frame := [ (py "id", []); (py "amount", []) ].

Definition id_dtypes : gmap pystr pystr := <[py "id" := py "int"]> ∅.

(** A report with an int column and a column without a tag. *)
Definition counts_frame : frame :=
  [ (py "id",   [RStr (py "1,000"); RNaN]);
    (py "note", [RStr (py " x ");   RStr (py "y")]) ].

(** A report whose int column holds [2^53 + 1] and an empty field. *)
Definition ids_frame : frame :=
  [ (py "id", [RStr (py "9007199254740993"); RNaN]) ].

(** A report whose int column holds [2^63]. *)
Definition big_id_frame : frame :=
  [ (py "id", [RStr (py "9223372036854775808")]) ].

(** A Unicode table with nothing alphanumeric beyond ASCII; the sample
    texts are ASCII. *)
Definition ascii_only (c : N) : bool := false.

(** A database with one table of two integer columns and one row, on which
    every statement returns that row. *)
Definition sample_db : duckdb_ext := {|
  connection := unit;
  cell := Z;
  cell_str := int_str;
  duckdb_connect _ := Returns tt;
  execute_fetchall _ _ := Returns (tt, [[1; 2]]);
  description_names _ := Returns [py "a"; py "b"]
|}.

(** A chat that has every file, under [/tmp/upload_1], and a file system on
    which every rename succeeds. *)
Definition sample_chat : chat_ext := {|
  chat_get_file _ := Returns (Path [47%N] [py "tmp"; py "upload_1"]);
  rename _ _ := None
|}.

(** A chat that has no file. *)
Definition no_chat : chat_ext := {|
  chat_get_file name :=
    Raises (Exn OtherException (py "no such file in the chat"));
  rename _ _ := None
|}.

(** A file system with no file at any path, and a database that stores
    nothing. *)
Definition empty_store : store_ext := {|
  file_at _ := NotAFile;
  load_tables _ _ _ _ _ := Returns (0, 0);
  list_repr _ := py "[]"
|}.

(** The long name of a tag: ["int64"] for ["int"], ["float64"] for
    ["float"], ["string"] for ["str"]. *)
Definition long_name (t : pystr) : pystr :=
  if str_eqb t (py "int") then py "int64"
  else if str_eqb t (py "float") then py "float64"
  else if str_eqb t (py "str") then py "string"
  else t.

(** Two reports with the header [amount], [note], the first column with a
    float tag. *)
Definition first_rows : frame :=
  [ (py "amount", [RStr (py "$1,234.50")]); (py "note", [RStr (py " a ")]) ].

Definition more_rows : frame :=
  [ (py "amount", [RNaN; RStr (py "10.5")]);
    (py "note",   [RStr (py "b"); RStr (py "   ")]) ].

Definition amount_dtypes : gmap pystr pystr := <[py "amount" := py "float"]> ∅.





(** A report with an int column of ["10.5"] and ["11"]. *)
Definition mixed_frame : frame := [ (py "a", [RStr (py "10.5"); RStr (py "11")]) ].

(** * Properties *)

(** ** Text *)

Lemma str_eqb_true a b : str_eqb a b = true <-> a = b.
Proof. unfold str_eqb. apply bool_decide_eq_true. Qed.

Lemma str_eqb_false a b : str_eqb a b = false <-> a <> b.
Proof. unfold str_eqb. apply bool_decide_eq_false. Qed.

Lemma str_eqb_refl a : str_eqb a a = true.
Proof. by apply str_eqb_true. Qed.

Lemma str_in_true x l : str_in x l = true <-> In x l.
Proof.
  unfold str_in. rewrite existsb_exists. split.
  - intros (y & Hy & Heq). apply str_eqb_true in Heq. by subst.
  - intros H. exists x. split; [done | apply str_eqb_refl].
Qed.

Lemma str_in_false x l : str_in x l = false <-> ~ In x l.
Proof.
  rewrite <- str_in_true. destruct (str_in x l); split; congruence.
Qed.

Lemma lstrip_split s :
  exists l, s = l ++ lstrip s /\ all_space l.
Proof.
  induction s as [|c r (l & Hl & Hsp)]; simpl.
  - exists []. split; [done | constructor].
  - destruct (is_space c) eqn:Hc.
    + exists (c :: l). split; [simpl; congruence | by constructor].
    + exists []. split; [done | constructor].
Qed.

Lemma lstrip_head s c r : lstrip s = c :: r -> is_space c = false.
Proof.
  induction s as [|a s IH]; simpl; [done |].
  destruct (is_space a) eqn:Ha; [done |]. intros [= -> _]. done.
Qed.

Lemma lstrip_all_space s : all_space s -> lstrip s = [].
Proof. induction 1 as [|c r Hc _ IH]; simpl; [done | by rewrite Hc]. Qed.

Lemma lstrip_fixed s c r : s = c :: r -> is_space c = false -> lstrip s = s.
Proof. intros -> Hc. simpl. by rewrite Hc. Qed.

Lemma rstrip_split s :
  exists r, s = rstrip s ++ r /\ all_space r.
Proof.
  unfold rstrip. destruct (lstrip_split (rev s)) as (l & Hl & Hsp).
  exists (rev l). split.
  - rewrite <- rev_app_distr, <- Hl. by rewrite rev_involutive.
  - by apply Forall_rev.
Qed.

Lemma rstrip_last s r c : rstrip s = r ++ [c] -> is_space c = false.
Proof.
  unfold rstrip. intros H. apply (f_equal (@rev N)) in H.
  rewrite rev_involutive, rev_app_distr in H. simpl in H.
  by apply lstrip_head in H.
Qed.

(** [strip] removes a run of whitespace at each end, and what is left neither
    starts nor ends with whitespace. *)
Lemma strip_split s :
  exists l r, s = l ++ strip s ++ r /\ all_space l /\ all_space r.
Proof.
  destruct (lstrip_split s) as (l & Hl & Hls).
  destruct (rstrip_split (lstrip s)) as (r & Hr & Hrs).
  exists l, r. unfold strip. rewrite <- Hr. done.
Qed.

Lemma strip_last s r c : strip s = r ++ [c] -> is_space c = false.
Proof. apply rstrip_last. Qed.

Lemma strip_head s c r : strip s = c :: r -> is_space c = false.
Proof.
  intros H. destruct (rstrip_split (lstrip s)) as (t & Ht & _).
  fold (strip s) in Ht. rewrite H in Ht. simpl in Ht.
  by apply lstrip_head in Ht.
Qed.

Lemma strip_empty_iff s : strip s = [] <-> all_space s.
Proof.
  split.
  - intros H. destruct (strip_split s) as (l & r & Hs & Hl & Hr).
    rewrite H in Hs. simpl in Hs. rewrite Hs. by apply Forall_app.
  - intros H. unfold strip. by rewrite (lstrip_all_space s H).
Qed.

Lemma rstrip_fixed s r c : s = r ++ [c] -> is_space c = false -> rstrip s = s.
Proof.
  intros -> Hc. unfold rstrip. rewrite rev_app_distr. simpl.
  rewrite Hc. simpl. by rewrite rev_involutive.
Qed.

(** A text that neither starts nor ends with whitespace is left as it is. *)
Lemma strip_fixed s :
  (forall c r, s = c :: r -> is_space c = false) ->
  (forall r c, s = r ++ [c] -> is_space c = false) ->
  strip s = s.
Proof.
  intros Hh Hl. unfold strip.
  destruct s as [|c r]; [done |].
  rewrite (lstrip_fixed (c :: r) c r eq_refl (Hh c r eq_refl)).
  destruct (exists_last (l := c :: r)) as (r' & c' & Hs); [done |].
  apply (rstrip_fixed _ r' c' Hs). by apply (Hl r' c').
Qed.

Lemma strip_idempotent s : strip (strip s) = strip s.
Proof.
  apply strip_fixed.
  - intros c r H. by apply (strip_head s c r).
  - intros r c H. by apply (strip_last s r c).
Qed.

(** ** The Value Normalizer *)

Section CleanValue.
Variable E : pandas_ext.

(** The universal pre-check. *)
Lemma clean_value_missing value t :
  raw_isna value = true \/ value = RStr [] ->
  _clean_value E value t = ([], Returns VNone).
Proof.
  intros [H | ->]; unfold _clean_value; [by rewrite H | done].
Qed.

Lemma clean_value_blank s t :
  all_space s -> _clean_value E (RStr s) t = ([], Returns VNone).
Proof.
  intros H. unfold _clean_value. simpl.
  destruct (str_eqb s []); [done |].
  apply strip_empty_iff in H. by rewrite H.
Qed.

(** Past the pre-check, the value is its stripped text. *)
Lemma clean_value_text s t :
  strip s <> [] ->
  _clean_value E (RStr s) t =
    let value_str := strip s in
    if str_in t (int_tags ++ float_tags) then
      let cleaned_str := re_sub_non_numeric value_str in
      if str_eqb cleaned_str [] || str_eqb cleaned_str (py "-") then ret VNone
      else
        let numeric_val := to_numeric_coerce E cleaned_str in
        if num_isna numeric_val then ret VNone
        else if str_in t int_tags then
          r <- call (num_round numeric_val) ;;
          if num_eq_Z numeric_val r then
            z <- call (num_int numeric_val) ;; ret (VInt z)
          else
            log (WarnNotSafeInt (RStr s) numeric_val) ;;;
            ret (VFloat (num_float numeric_val))
        else ret (VFloat (num_float numeric_val))
    else if str_in t str_tags then ret (VStr value_str)
    else
      try_except
        (call (astype_scalar E t value_str))
        (fun e => log (WarnCellConversion value_str t e) ;;; ret (VStr value_str)).
Proof.
  intros Hs. unfold _clean_value. simpl raw_isna. simpl raw_str.
  assert (Hne : s <> []) by (intros ->; by apply Hs).
  simpl raw_is_empty_str.
  apply str_eqb_false in Hne, Hs. rewrite Hne, Hs. cbn [orb].
  cbv zeta.
  destruct (str_in t (int_tags ++ float_tags)); [|reflexivity].
  destruct (str_eqb _ [] || str_eqb _ (py "-")); [reflexivity |].
  destruct (num_isna (to_numeric_coerce _ _)) eqn:Hna; reflexivity.
Qed.
End CleanValue.

(** C4. Whatever the target tag and whatever pandas does for other dtypes, an
    absent value, a NaN and the empty string are cleaned to [None] without a
    log record; a text made of whitespace only is cleaned to [None] as well,
    [strip] removing exactly a run of whitespace at each end of the text; so
    [""], ["   "] and NaN are all cleaned to the one value [None]. *)
Theorem C4_missing_values_unified (E : pandas_ext) (target_dtype : pystr) :
  _clean_value E RNone target_dtype = ([], Returns VNone) /\
  _clean_value E RNaN target_dtype = ([], Returns VNone) /\
  _clean_value E (RStr []) target_dtype = ([], Returns VNone) /\
  _clean_value E (RStr (py "   ")) target_dtype = ([], Returns VNone) /\
  (forall s, all_space s ->
     _clean_value E (RStr s) target_dtype = ([], Returns VNone)) /\
  (forall s, exists l r,
     s = l ++ strip s ++ r /\ all_space l /\ all_space r /\
     (strip s = [] <-> all_space s) /\
     (forall c t, strip s = c :: t -> is_space c = false) /\
     (forall t c, strip s = t ++ [c] -> is_space c = false)).
Proof.
  split; [apply clean_value_missing; by left |].
  split; [apply clean_value_missing; by left |].
  split; [apply clean_value_missing; by right |].
  split; [apply clean_value_blank; unfold all_space; by repeat constructor |].
  split; [intros s Hs; by apply clean_value_blank |].
  intros s. destruct (strip_split s) as (l & r & H1 & H2 & H3).
  exists l, r.
  split; [done |]. split; [done |]. split; [done |].
  split; [apply strip_empty_iff |].
  split; [apply strip_head | apply strip_last].
Qed.

(** ** Numbers *)

Lemma pow2_pos e : 0 < 2 ^ e \/ e < 0.
Proof. destruct (Z.lt_ge_cases e 0); [by right | left; by apply Z.pow_pos_nonneg]. Qed.

(** A float equal to an integer rounds and truncates to that integer. *)
Lemma float_eq_Z_exact f z :
  float_eq_Z f z = true ->
  float_round f = Returns z /\ float_trunc f = Returns z.
Proof.
  destruct f as [s | s | | s m e]; simpl; try done.
  - intros H%Z.eqb_eq. by subst.
  - unfold round_half_even. destruct (0 <=? e) eqn:He.
    + intros H%Z.eqb_eq. by subst.
    + intros H%Z.eqb_eq. apply Z.leb_gt in He.
      assert (Hd : 0 < 2 ^ (- e)) by (apply Z.pow_pos_nonneg; lia).
      set (d := 2 ^ (- e)) in *.
      assert (Hm : Z.pos m = signed s z * d).
      { destruct s; simpl in *; lia. }
      rewrite Hm, Z.mod_mul, Z.div_mul by lia.
      replace (2 * 0 ?= d) with Lt by (symmetry; apply Z.compare_lt_iff; lia).
      split; f_equal; destruct s; simpl; lia.
Qed.

Lemma float_eq_Z_unique f z z' :
  float_eq_Z f z = true -> float_eq_Z f z' = true -> z = z'.
Proof.
  intros H H'. apply float_eq_Z_exact in H as [H1 _].
  apply float_eq_Z_exact in H' as [H2 _]. congruence.
Qed.

Lemma num_eq_Z_exact n z :
  num_eq_Z n z = true -> num_round n = Returns z /\ num_int n = Returns z.
Proof.
  destruct n as [x | f]; simpl.
  - intros H%Z.eqb_eq. by subst.
  - apply float_eq_Z_exact.
Qed.

(** [f == z] holds exactly when the value of [f] is the integer [z]. *)
Lemma float_eq_Z_is f z : float_eq_Z f z = true <-> float_is_Z f z.
Proof.
  destruct f as [s | s | | s m e]; simpl; [apply Z.eqb_eq | done | done |].
  destruct (0 <=? e) eqn:He; rewrite Z.eqb_eq.
  - apply Z.leb_le in He. split.
    + intros ->. exists (Zpos m * 2 ^ e).
      split; [by destruct s | split; [done | lia]].
    + intros (a & -> & H1 & _). rewrite (H1 He). by destruct s.
  - apply Z.leb_gt in He. split.
    + intros H. exists (if s then - z else z).
      split; [destruct s; lia |]. split; [lia |]. intros _.
      destruct s; simpl in H; lia.
    + intros (a & -> & _ & H2). rewrite (H2 He). destruct s; simpl; lia.
Qed.

Lemma num_eq_Z_is n z : num_eq_Z n z = true <-> num_is_Z n z.
Proof. destruct n as [x | f]; simpl; [apply Z.eqb_eq | apply float_eq_Z_is]. Qed.


(** [round] raises on an infinity only. *)
Lemma num_round_cases n :
  num_isna n = false ->
  (exists r, num_round n = Returns r) \/
  (exists b, n = NFloat (S754_infinity b) /\
     num_round n = Raises infinity_to_integer).
Proof.
  destruct n as [z | [s | s | | s m e]]; simpl; intros Hna; eauto.
  done.
Qed.

Lemma num_round_returns n :
  num_isna n = false -> (forall b, n <> NFloat (S754_infinity b)) ->
  exists r, num_round n = Returns r.
Proof.
  intros Hna Hinf. destruct (num_round_cases n Hna) as [H | (b & Hb & _)];
    [done | by destruct (Hinf b)].
Qed.

Lemma to_numeric_coerce_empty E : to_numeric_coerce E [] = nan.
Proof. reflexivity. Qed.

Lemma to_numeric_coerce_minus E : to_numeric_coerce E (py "-") = nan.
Proof. reflexivity. Qed.

(** ** Numerals *)

Lemma split_point_spec s :
  s = (split_point s).1 ++
      match (split_point s).2 with Some fr => 46%N :: fr | None => [] end.
Proof.
  induction s as [|c r IH]; simpl; [done |].
  destruct (c =? 46)%N eqn:Hc.
  - apply N.eqb_eq in Hc. by subst.
  - destruct (split_point r) as [a b]. simpl in *. by rewrite <- IH.
Qed.

Lemma digits_value_digits acc s v :
  digits_value acc s = Some v -> Forall is_digit s.
Proof.
  revert acc. induction s as [|c r IH]; simpl; intros acc H; [constructor |].
  unfold digit_of in H.
  destruct ((48 <=? c)%N && (c <=? 57)%N) eqn:Hc; [|done].
  apply andb_prop in Hc as [H1 H2]. apply N.leb_le in H1, H2.
  constructor; [done | by eapply IH].
Qed.

Lemma digits_value_nonneg acc s v :
  0 <= acc -> digits_value acc s = Some v -> 0 <= v.
Proof.
  revert acc. induction s as [|c r IH]; simpl; intros acc Ha H.
  - injection H as <-. done.
  - unfold digit_of in H.
    destruct ((48 <=? c)%N && (c <=? 57)%N) eqn:Hc; [|done].
    apply andb_prop in Hc as [H1 H2]. apply N.leb_le in H1, H2.
    eapply IH; [|exact H]. lia.
Qed.

(** What [to_numeric_coerce] reads as a number is a numeral. *)
Lemma to_numeric_coerce_numeral E s :
  num_isna (to_numeric_coerce E s) = false -> numeral s.
Proof.
  unfold to_numeric_coerce.
  set (nb := match s with [] => _ | _ => _ end).
  assert (Hs : s = (if nb.1 then [45%N] else []) ++ nb.2).
  { subst nb. destruct s as [|c r]; [done |].
    destruct (c =? 45)%N eqn:Hc; [|done].
    apply N.eqb_eq in Hc. by subst. }
  destruct nb as [neg body]. simpl in Hs.
  pose proof (split_point_spec body) as Hb.
  destruct (split_point body) as [ip fp]. simpl in Hb.
  destruct (digits_value 0 ip) as [i|] eqn:Hi; [|done].
  apply digits_value_digits in Hi.
  destruct fp as [fr|].
  - destruct (digits_value 0 (ip ++ fr)) as [m|] eqn:Hm; [|done].
    apply digits_value_digits in Hm. apply Forall_app in Hm as [_ Hfr].
    case_bool_decide as Hne; [done |]. intros _.
    exists neg, ip, (Some fr). rewrite Hs, Hb. done.
  - case_bool_decide as Hne; [done |]. intros _.
    exists neg, ip, None. rewrite Hs, Hb. unfold default. cbn [from_option id].
    split; [done |]. split; [done |]. split; [constructor |].
    by rewrite app_nil_r.
Qed.

(** ** Integers written as text *)

Lemma uint_chars_digits d : Forall is_digit (uint_chars d).
Proof.
  induction d; simpl; constructor; try done; unfold is_digit; lia.
Qed.



Lemma minus_not_space : is_space 45 = false.
Proof. reflexivity. Qed.



Lemma split_point_digits s :
  Forall is_digit s -> split_point s = (s, None).
Proof.
  induction 1 as [|c r Hc _ IH]; simpl; [done |].
  replace ((c =? 46)%N) with false; [by rewrite IH |].
  symmetry. apply N.eqb_neq. unfold is_digit in Hc. lia.
Qed.

Lemma digits_value_acc d acc :
  digits_value (Zpos acc) (uint_chars d) = Some (Zpos (Pos.of_uint_acc d acc)).
Proof.
  revert acc. induction d; intros acc; simpl; [done | ..];
    match goal with
    | |- digits_value ?a _ = _ =>
        match goal with
        | |- _ = Some (Zpos (Pos.of_uint_acc _ ?b)) =>
            replace a with (Zpos b) by lia; apply IHd
        end
    end.
Qed.

Lemma digits_value_uint d :
  digits_value 0 (uint_chars d) = Some (Z.of_N (Pos.of_uint d)).
Proof.
  induction d; simpl; [done | exact IHd | ..]; apply digits_value_acc.
Qed.

Lemma digits_value_pos p :
  digits_value 0 (uint_chars (Pos.to_uint p)) = Some (Zpos p).
Proof.
  rewrite digits_value_uint. f_equal.
  exact (DecimalZ.of_to (Zpos p)).
Qed.

Lemma uint_chars_pos_nonempty p : uint_chars (Pos.to_uint p) <> [].
Proof.
  intros H. pose proof (digits_value_pos p) as Hd. rewrite H in Hd. done.
Qed.


(** The decimal text of an integer within [int64] or [uint64] reads back as
    that integer. *)
Lemma int_str_reads_back E z :
  INT64_MIN <= z <= UINT64_MAX -> to_numeric_coerce E (int_str z) = NInt z.
Proof.
  intros Hz. unfold int_str, to_numeric_coerce.
  destruct z as [|p|p]; simpl Z.to_int.
  - reflexivity.
  - pose proof (uint_chars_digits (Pos.to_uint p)) as Hd.
    pose proof (uint_chars_pos_nonempty p) as Hne.
    destruct (uint_chars (Pos.to_uint p)) as [|c r] eqn:Hs; [done |].
    replace ((c =? 45)%N) with false.
    2:{ symmetry. apply N.eqb_neq. apply Forall_cons in Hd as [Hc _].
        unfold is_digit in Hc. lia. }
    rewrite split_point_digits by done.
    rewrite <- Hs, digits_value_pos, Hs.
    rewrite bool_decide_false by done. simpl signed.
    replace ((INT64_MIN <=? Z.pos p) && (Z.pos p <=? UINT64_MAX)) with true;
      [done |].
    symmetry. apply andb_true_iff. split; apply Z.leb_le; lia.
  - pose proof (uint_chars_digits (Pos.to_uint p)) as Hd.
    pose proof (uint_chars_pos_nonempty p) as Hne.
    cbv beta iota. replace ((45 =? 45)%N) with true by reflexivity.
    cbv beta iota. rewrite split_point_digits by done.
    rewrite digits_value_pos.
    rewrite bool_decide_false by done. simpl signed.
    replace ((INT64_MIN <=? - Z.pos p) && (- Z.pos p <=? UINT64_MAX)) with true;
      [done |].
    symmetry. apply andb_true_iff. split; apply Z.leb_le; lia.
Qed.

(** ** Cleaning under a numeric tag *)


Lemma re_sub_non_numeric_app a b :
  re_sub_non_numeric (a ++ b) = re_sub_non_numeric a ++ re_sub_non_numeric b.
Proof.
  induction a as [|c r IH]; simpl; [done |].
  destruct (is_numeric_char c); simpl; by rewrite IH.
Qed.

Lemma re_sub_non_numeric_noise s :
  Forall (fun c => is_numeric_char c = false) s -> re_sub_non_numeric s = [].
Proof. induction 1 as [|c r Hc _ IH]; simpl; [done | by rewrite Hc]. Qed.


Lemma re_sub_non_numeric_kept s :
  Forall (fun c => is_numeric_char c = true) (re_sub_non_numeric s).
Proof.
  induction s as [|c r IH]; simpl; [constructor |].
  destruct (is_numeric_char c) eqn:Hc; [by constructor | done].
Qed.

Section NumericTarget.
Variable E : pandas_ext.
Variables s t : pystr.

Let kept := re_sub_non_numeric (strip s).
Let n := to_numeric_coerce E kept.

(** A text whose numeral parses is past every earlier exit. *)
Lemma parsed_is_text :
  num_isna n = false ->
  strip s <> [] /\ str_eqb kept [] || str_eqb kept (py "-") = false.
Proof.
  intros Hna. split.
  - intros H. subst n kept. by rewrite H in Hna.
  - apply orb_false_iff. split; apply str_eqb_false; intros H;
      subst n; rewrite H in Hna; done.
Qed.

Lemma clean_value_unparsed :
  In t numeric_tags -> strip s <> [] ->
  kept = [] \/ kept = py "-" \/ num_isna n = true ->
  _clean_value E (RStr s) t = ([], Returns VNone).
Proof.
  intros Ht Hs H. rewrite clean_value_text by done. cbv zeta.
  apply str_in_true in Ht. unfold numeric_tags in Ht. rewrite Ht.
  fold kept. fold n.
  destruct H as [-> | [-> | H]]; [done | done |].
  destruct (_ || _); [done |]. by rewrite H.
Qed.

Lemma clean_value_float :
  In t float_tags -> num_isna n = false ->
  _clean_value E (RStr s) t = ([], Returns (VFloat (num_float n))).
Proof.
  intros Ht Hna. destruct (parsed_is_text Hna) as [Hs Hk].
  rewrite clean_value_text by done. cbv zeta. fold kept. fold n.
  assert (H1 : str_in t (int_tags ++ float_tags) = true).
  { apply str_in_true, in_or_app. by right. }
  assert (H2 : str_in t int_tags = false).
  { apply str_in_false. intros Hi.
    revert Ht Hi. unfold float_tags, int_tags. simpl.
    intros [<- | [<- | []]] [Hx | [Hx | []]]; discriminate Hx. }
  by rewrite H1, Hk, Hna, H2.
Qed.

(** Under an int tag, what [round] does with the number decides. *)
Lemma clean_value_int_unfold :
  In t int_tags -> num_isna n = false ->
  _clean_value E (RStr s) t =
    match num_round n with
    | Returns r =>
        if num_eq_Z n r then
          match num_int n with
          | Returns z => ([], Returns (VInt z))
          | Raises e => ([], Raises e)
          end
        else ([WarnNotSafeInt (RStr s) n], Returns (VFloat (num_float n)))
    | Raises e => ([], Raises e)
    end.
Proof.
  intros Ht Hna. destruct (parsed_is_text Hna) as [Hs Hk].
  rewrite clean_value_text by done. cbv zeta. fold kept. fold n.
  assert (H1 : str_in t (int_tags ++ float_tags) = true).
  { apply str_in_true, in_or_app. by left. }
  apply str_in_true in Ht. rewrite H1, Hk, Hna, Ht.
  unfold call, bind. destruct (num_round n) as [r | e]; [|done].
  destruct (num_eq_Z n r); [|done]. by destruct (num_int n).
Qed.

Lemma clean_value_int_whole z :
  In t int_tags -> num_isna n = false -> num_eq_Z n z = true ->
  _clean_value E (RStr s) t = ([], Returns (VInt z)).
Proof.
  intros Ht Hna Hz. rewrite clean_value_int_unfold by done.
  destruct (num_eq_Z_exact n z Hz) as [Hr Hi]. by rewrite Hr, Hz, Hi.
Qed.

Lemma clean_value_int_fraction :
  In t int_tags -> num_isna n = false ->
  (forall b, n <> NFloat (S754_infinity b)) -> ~ whole n ->
  exists f, n = NFloat f /\
    _clean_value E (RStr s) t =
      ([WarnNotSafeInt (RStr s) n], Returns (VFloat f)).
Proof.
  intros Ht Hna Hfin Hw.
  destruct (num_round_returns n Hna Hfin) as [r Hr].
  assert (Hne : num_eq_Z n r = false).
  { destruct (num_eq_Z n r) eqn:Heq; [|done]. destruct Hw.
    exists r. by apply num_eq_Z_is. }
  rewrite clean_value_int_unfold, Hr, Hne by done.
  destruct n as [x | f] eqn:Hn.
  { destruct Hw. by exists x. }
  by exists f.
Qed.

Lemma clean_value_int_infinity b :
  In t int_tags -> n = NFloat (S754_infinity b) ->
  _clean_value E (RStr s) t = ([], Raises infinity_to_integer).
Proof.
  intros Ht Hn. rewrite clean_value_int_unfold; [by rewrite Hn | done |].
  by rewrite Hn.
Qed.
End NumericTarget.





(** C10. The filter works character by character, wherever the character
    stands, so the digits on the two sides of removed characters are joined:
    ["12x34"] under ["int"] is cleaned to the integer 1234, although ["1234"]
    does not occur in ["12x34"]. *)
Theorem C10_digit_groups_are_joined (E : pandas_ext) :
  (forall a b,
     re_sub_non_numeric (a ++ b) = re_sub_non_numeric a ++ re_sub_non_numeric b) /\
  (forall a noise b,
     Forall (fun c => is_numeric_char c = false) noise ->
     re_sub_non_numeric (a ++ noise ++ b) =
       re_sub_non_numeric a ++ re_sub_non_numeric b) /\
  re_sub_non_numeric (py "12x34") = py "1234" /\
  _clean_value E (RStr (py "12x34")) (py "int") = ([], Returns (VInt 1234)) /\
  ~ substring (py "1234") (py "12x34").
Proof.
  split; [apply re_sub_non_numeric_app |].
  split.
  { intros a noise b H. rewrite !re_sub_non_numeric_app.
    by rewrite (re_sub_non_numeric_noise noise H). }
  split; [reflexivity |]. split; [reflexivity |].
  intros (a & b & H). vm_compute in H.
  do 5 (destruct a as [|? a]; simpl in H; [discriminate H | injection H as _ H]).
  destruct a; discriminate H.
Qed.

(** ** What the Value Normalizer returns, by tag *)

Section CleanValueShape.
Variable E : pandas_ext.

Lemma clean_value_cases value t :
  _clean_value E value t = ([], Returns VNone) \/
  exists s, value = RStr s /\ strip s <> [].
Proof.
  destruct value as [| | s].
  - left. apply clean_value_missing. by left.
  - left. apply clean_value_missing. by left.
  - destruct (decide (strip s = [])) as [H | H].
    + left. apply clean_value_blank. by apply strip_empty_iff.
    + right. by exists s.
Qed.

(** Under an int tag: [None], an [int], or a float that is not whole; or
    [round] raises on an infinity. *)
Lemma clean_value_int value t :
In t int_tags ->
(exists l v, _clean_value E value t = (l, Returns v) /\ int_cleaned v) \/
_clean_value E value t = ([], Raises infinity_to_integer).
Proof.
intros Ht. destruct (clean_value_cases value t) as [H | (s & -> & Hs)].
{ left. exists [], VNone. split; [done | by left]. }
set (n := to_numeric_coerce E (re_sub_non_numeric (strip s))).
destruct (num_isna n) eqn:Hna.
{ left. exists [], VNone. split; [|by left].
  apply clean_value_unparsed; [| done | by right; right].
  apply in_or_app. by left. }
destruct (num_round_cases n Hna) as [[r Hr] | (b & Hb & _)].
2:{ right. by apply (clean_value_int_infinity E s t b). }
left. destruct (num_eq_Z n r) eqn:Heq.
- exists [], (VInt r). split; [by apply clean_value_int_whole |].
  right; left. by exists r.
- assert (Hw : ~ whole n).
  { intros (z & Hz%num_eq_Z_is). destruct (num_eq_Z_exact _ _ Hz) as [Hr' _].
    assert (z = r) by congruence. subst z. congruence. }
  assert (Hfin : forall b, n <> NFloat (S754_infinity b)).
  { intros b Hb. by rewrite Hb in Hr. }
  destruct (clean_value_int_fraction E s t Ht Hna Hfin Hw) as (f & Hf & Hc).
  eexists _, _. split; [exact Hc |]. right; right. exists f.
  fold n in Hf. rewrite Hf in Hna, Hw. done.
Qed.

(** Under a float tag: [None] or a float, and nothing is logged. *)
Lemma clean_value_float_shape value t :
  In t float_tags ->
  exists v, _clean_value E value t = ([], Returns v) /\
    (v = VNone \/ exists f, v = VFloat f).
Proof.
  intros Ht. destruct (clean_value_cases value t) as [H | (s & -> & Hs)].
  { exists VNone. split; [done | by left]. }
  set (n := to_numeric_coerce E (re_sub_non_numeric (strip s))).
  destruct (num_isna n) eqn:Hna.
  - exists VNone. split; [|by left].
    apply clean_value_unparsed; [| done | by right; right].
    apply in_or_app. by right.
  - exists (VFloat (num_float n)). split; [by apply clean_value_float |].
    right. by exists (num_float n).
Qed.

(** Under a str tag: [None] or the stripped text, which is not empty. *)
Lemma clean_value_str value t :
  In t str_tags ->
  _clean_value E value t = ([], Returns VNone) \/
  exists s, value = RStr s /\ strip s <> [] /\
    _clean_value E value t = ([], Returns (VStr (strip s))).
Proof.
  intros Ht. destruct (clean_value_cases value t) as [H | (s & -> & Hs)].
  { by left. }
  right. exists s. split; [done |]. split; [done |].
  rewrite clean_value_text by done. cbv zeta.
  assert (H1 : str_in t (int_tags ++ float_tags) = false).
  { apply str_in_false. intros Hi. revert Ht Hi.
    unfold float_tags, int_tags, str_tags. simpl.
    intros [<- | [<- | []]] [Hx | [Hx | [Hx | [Hx | []]]]]; discriminate Hx. }
  apply str_in_true in Ht. by rewrite H1, Ht.
Qed.

(** Under any other tag: what the conversion returns, or the stripped text
    with a warning when the conversion raises. *)
Lemma clean_value_other s t :
  ~ In t (numeric_tags ++ str_tags) -> strip s <> [] ->
  _clean_value E (RStr s) t =
    match astype_scalar E t (strip s) with
    | Returns v => ([], Returns v)
    | Raises e => ([WarnCellConversion (strip s) t e], Returns (VStr (strip s)))
    end.
Proof.
  intros Ht Hs. rewrite clean_value_text by done. cbv zeta.
  assert (H1 : str_in t (int_tags ++ float_tags) = false).
  { apply str_in_false. intros Hi. apply Ht, in_or_app. by left. }
  assert (H2 : str_in t str_tags = false).
  { apply str_in_false. intros Hi. apply Ht, in_or_app. by right. }
  rewrite H1, H2. by destruct (astype_scalar E t (strip s)).
Qed.

(** Outside the int family the Value Normalizer never raises. *)
Lemma clean_value_returns value t :
  ~ In t int_tags -> exists l v, _clean_value E value t = (l, Returns v).
Proof.
  intros Hi.
  destruct (decide (In t float_tags)) as [Hf | Hf].
  { destruct (clean_value_float_shape value t Hf) as (v & H & _). eauto. }
  destruct (decide (In t str_tags)) as [Hs | Hs].
  { destruct (clean_value_str value t Hs) as [H | (s & _ & _ & H)]; eauto. }
  destruct (clean_value_cases value t) as [H | (s & -> & Hne)]; [eauto |].
  rewrite clean_value_other; [| |done].
  - destruct (astype_scalar E t (strip s)); eauto.
  - unfold numeric_tags. rewrite !in_app_iff. tauto.
Qed.

(** It raises under an int tag only, on an infinity, before it logs. *)
Lemma clean_value_raises value t lg e :
  _clean_value E value t = (lg, Raises e) ->
  In t int_tags /\ lg = [] /\ e = infinity_to_integer.
Proof.
  intros H. destruct (decide (In t int_tags)) as [Hi | Hi].
  - destruct (clean_value_int value t Hi) as [(l & v & H' & _) | H'];
      rewrite H' in H; [done |]. by injection H as <- <-.
  - destruct (clean_value_returns value t Hi) as (l & v & H'). congruence.
Qed.
End CleanValueShape.

(** ** The monad *)

Lemma bind_returns {A B} (m : M A) (k : A -> M B) lg b :
  bind m k = (lg, Returns b) ->
  exists l1 a l2, m = (l1, Returns a) /\ k a = (l2, Returns b) /\ lg = l1 ++ l2.
Proof.
  unfold bind. destruct m as [l1 [a | e]]; [|done].
  destruct (k a) as [l2 o] eqn:Hk. intros [= <- ->]. by exists l1, a, l2.
Qed.

Lemma bind_raises {A B} (m : M A) (k : A -> M B) lg e :
  bind m k = (lg, Raises e) ->
  m = (lg, Raises e) \/
  exists l1 a l2, m = (l1, Returns a) /\ k a = (l2, Raises e) /\ lg = l1 ++ l2.
Proof.
  unfold bind. destruct m as [l1 [a | e']].
  - destruct (k a) as [l2 o] eqn:Hk. intros [= <- ->]. right. by exists l1, a, l2.
  - intros [= <- <-]. by left.
Qed.

Lemma mapM_returns {A B} (f : A -> M B) l lg ys :
  mapM f l = (lg, Returns ys) ->
  Forall2 (fun x y => exists l', f x = (l', Returns y)) l ys.
Proof.
  revert lg ys. induction l as [|x r IH]; simpl; intros lg ys H.
  - injection H as <- <-. constructor.
  - apply bind_returns in H as (l1 & y & l2 & Hx & H & ->).
    apply bind_returns in H as (l3 & ys' & l4 & Hr & H & ->).
    injection H as <- <-. constructor; [by exists l1 | by eapply IH].
Qed.

Lemma mapM_total {A B} (f : A -> M B) l :
  (forall x, exists l' y, f x = (l', Returns y)) ->
  exists lg ys, mapM f l = (lg, Returns ys).
Proof.
  intros Hf. induction l as [|x r (lg & ys & IH)]; simpl; [by eexists _, _ |].
  destruct (Hf x) as (l' & y & Hx). rewrite Hx, IH. simpl. by eexists _, _.
Qed.

Lemma mapM_raises {A B} (f : A -> M B) l lg e :
  mapM f l = (lg, Raises e) ->
  exists x l', In x l /\ f x = (l', Raises e).
Proof.
  revert lg. induction l as [|x r IH]; simpl; intros lg H; [done |].
  apply bind_raises in H as [H | (l1 & y & l2 & Hx & H & ->)].
  - exists x, lg. split; [by left | done].
  - apply bind_raises in H as [H | (l3 & ys & l4 & _ & H & _)]; [|done].
    destruct (IH _ H) as (x' & l' & Hin & Hx'). exists x', l'.
    split; [by right | done].
Qed.

(** A record logged first is the first of the log. *)
Lemma log_first {A} (r : log_record) (k : M A) lg o :
  (log r ;;; k) = (lg, o) <-> exists l, k = (l, o) /\ lg = r :: l.
Proof.
  unfold log, bind. destruct k as [l o']. split.
  - intros [= <- <-]. by exists l.
  - intros (l' & [= <- <-] & ->). done.
Qed.

Lemma log_then {A} (r : log_record) (k : M A) :
  (log r ;;; k) = (r :: k.1, k.2).
Proof. unfold log, bind. by destruct k. Qed.


(** A log has nothing at WARNING level or above when all its records are
    debug records. *)
Lemma above_debug_quiet lg :
  above_debug lg = [] <-> Forall (fun r => is_debug r = true) lg.
Proof.
  induction lg as [|r lg IH]; simpl; [split; [constructor | done] |].
  destruct (is_debug r) eqn:Hr; simpl.
  - rewrite IH. split; [by constructor | by intros [_ H]%Forall_cons].
  - split; [done |]. intros [H _]%Forall_cons. congruence.
Qed.

(** ** Column finalization *)

Lemma ints_within_spec lo hi col zs :
  ints_within lo hi col = Some zs ->
  col = map VInt zs /\ Forall (fun z => lo <= z <= hi) zs.
Proof.
  revert zs. induction col as [|v r IH]; simpl; intros zs H.
  - injection H as <-. split; [done | constructor].
  - destruct v; try done.
    destruct ((lo <=? z) && (z <=? hi)) eqn:Hz; [|done].
    destruct (ints_within lo hi r) as [zs'|]; [|done].
    injection H as <-. destruct (IH zs' eq_refl) as [-> Hall].
    split; [done |]. constructor; [lia | done].
Qed.

Lemma nanmax_none fs : nanmax fs = None -> Forall (fun f => float_isnan f = true) fs.
Proof.
  induction fs as [|f r IH]; simpl; [constructor |].
  destruct (nanmax r) as [g|].
  - destruct (float_isnan f); [done |]. by destruct (SFltb f g).
  - destruct (float_isnan f) eqn:Hf; [|done]. intros _. by constructor; auto.
Qed.

Lemma nanmax_some fs top :
  nanmax fs = Some top -> In top fs /\ float_isnan top = false.
Proof.
  revert top. induction fs as [|f r IH]; simpl; intros top; [done |].
  destruct (nanmax r) as [g|].
  - destruct (IH g eq_refl) as [Hin Hg].
    destruct (float_isnan f) eqn:Hf.
    + intros [= <-]. split; [by right | done].
    + destruct (SFltb f g); intros [= <-]; split; auto.
  - destruct (float_isnan f) eqn:Hf; [done |]. intros [= <-]. auto.
Qed.

(** [int] of a float that is not NaN raises [OverflowError] when it raises. *)
Lemma float_trunc_raises f e :
  float_isnan f = false -> float_trunc f = Raises e -> e = infinity_to_integer.
Proof. destruct f; simpl; try done. by intros _ [= <-]. Qed.

Lemma object_to_int64_raises fs e :
  first_raise
    (map object_to_int64 (List.filter (fun f => negb (float_isnan f)) fs)) = Some e ->
  e = infinity_to_integer \/ e = too_large.
Proof.
  induction fs as [|f r IH]; simpl; [done |].
  destruct (float_isnan f) eqn:Hf; simpl; [done |].
  unfold object_to_int64 at 1.
  destruct (float_trunc f) as [z | e'] eqn:Ht.
  - destruct (_ && _); [done |]. intros [= <-]. by right.
  - intros [= <-]. left. by apply (float_trunc_raises f).
Qed.

(** [astype("Int64")] returns for a [float64] series exactly when every
    element is NaN or a whole number within [int64]. *)
Lemma astype_Int64_float_returns fs series :
  astype_Int64 (SFloat64 fs) = Returns series <->
  forallb int64_castable fs = true /\ series = map float_to_Int64 fs.
Proof.
  simpl. destruct (nanmax fs) as [top|] eqn:Hm.
  - destruct (nanmax_some fs top Hm) as [Hin Hnan].
    destruct (float_trunc top) as [z | e] eqn:Ht.
    + destruct (float_eq_Z top z) eqn:Heq.
      * destruct (forallb int64_castable fs); split;
          [by intros [= <-] | by intros [_ ->] | done | by intros [? _]].
      * split; [by destruct (first_raise _) |]. intros [Hall _].
        rewrite forallb_forall in Hall. specialize (Hall top Hin).
        unfold int64_castable in Hall. rewrite Ht, Heq in Hall. done.
    + split; [done |]. intros [Hall _].
      rewrite forallb_forall in Hall. specialize (Hall top Hin).
      unfold int64_castable in Hall. rewrite Ht, Hnan in Hall. done.
  - apply nanmax_none in Hm. split.
    + intros [= <-]. split; [|done]. apply forallb_forall. intros f Hf.
      rewrite Forall_forall in Hm. apply list_elem_of_In, Hm in Hf.
      by destruct f.
    + by intros [_ ->].
Qed.

(** And when it raises, it is with one of two [TypeError]s or an
    [OverflowError]. *)
Lemma astype_Int64_float_raises fs e :
  astype_Int64 (SFloat64 fs) = Raises e ->
  forallb int64_castable fs = false /\
  (e = unsafe_cast "float64" \/ e = unsafe_cast "object" \/
   e = infinity_to_integer \/ e = too_large).
Proof.
  intros H. split.
  { destruct (forallb int64_castable fs) eqn:Hall; [|done].
    assert (H' : astype_Int64 (SFloat64 fs) = Returns (map float_to_Int64 fs))
      by by apply astype_Int64_float_returns.
    congruence. }
  revert H. simpl. destruct (nanmax fs) as [top|] eqn:Hm; [|done].
  destruct (nanmax_some fs top Hm) as [Hin Hnan].
  destruct (float_trunc top) as [z | e'] eqn:Ht.
  - destruct (float_eq_Z top z).
    + destruct (forallb int64_castable fs); [done |]. intros [= <-]. by left.
    + destruct (first_raise _) as [e'|] eqn:Hr; intros [= <-].
      * apply object_to_int64_raises in Hr as [-> | ->]; tauto.
      * right. by left.
  - intros [= <-]. right; right; left. by apply (float_trunc_raises top).
Qed.

Lemma astype_Int64_returns E col series :
  astype_Int64 (to_numeric_series E col) = Returns series ->
  length series = length col /\
  Forall (fun v => v = VNA \/ exists z, v = VInt z /\ INT64_MIN <= z <= INT64_MAX)
         series.
Proof.
  unfold to_numeric_series.
  destruct (ints_within INT64_MIN INT64_MAX col) as [zs|] eqn:H1.
  { intros [= <-]. apply ints_within_spec in H1 as [-> Hall].
    split; [done |]. apply Forall_map.
    eapply Forall_impl; [exact Hall |]. intros z Hz. right. by exists z. }
  destruct (ints_within 0 UINT64_MAX col) as [zs|] eqn:H2; [done |].
  intros [Hc ->]%astype_Int64_float_returns.
  split; [by rewrite !length_map |].
  apply Forall_map, Forall_map.
  rewrite forallb_forall in Hc. apply Forall_forall. intros v Hv.
  apply list_elem_of_In in Hv.
  specialize (Hc _ (in_map (to_float64_coerce E) _ _ Hv)). simpl.
  unfold int64_castable, float_to_Int64 in *.
  destruct (float_trunc (to_float64_coerce E v)) as [z | e]; [|by left].
  right. exists z. split; [done |].
  apply andb_prop in Hc as [Hc H4]. apply andb_prop in Hc as [_ H3]. lia.
Qed.

Lemma astype_Int64_raises E col e :
  astype_Int64 (to_numeric_series E col) = Raises e ->
  exn_cls e = TypeError \/ exn_cls e = OverflowError.
Proof.
  destruct (to_numeric_series E col) as [zs | zs | fs]; [done | |].
  - intros [= <-]. by left.
  - intros [_ [-> | [-> | [-> | ->]]]]%astype_Int64_float_raises;
      [by left | by left | by right | by right].
Qed.

Lemma astype_float64_spec E col :
  astype_float64 (to_numeric_series E col) =
    map (fun v => VFloat (to_float64_coerce E v)) col.
Proof.
  unfold to_numeric_series.
  destruct (ints_within INT64_MIN INT64_MAX col) as [zs|] eqn:H1.
  { apply ints_within_spec in H1 as [-> _]. simpl. by rewrite map_map. }
  destruct (ints_within 0 UINT64_MAX col) as [zs|] eqn:H2.
  { apply ints_within_spec in H2 as [-> _]. simpl. by rewrite map_map. }
  simpl. by rewrite map_map.
Qed.

(** ** One column *)

Lemma int_float_disjoint t : In t int_tags -> In t float_tags -> False.
Proof.
  unfold int_tags, float_tags. simpl.
  intros [<- | [<- | []]] [H | [H | []]]; discriminate H.
Qed.

Lemma int_str_disjoint t : In t int_tags -> In t str_tags -> False.
Proof.
  unfold int_tags, str_tags. simpl.
  intros [<- | [<- | []]] [H | [H | []]]; discriminate H.
Qed.

Lemma float_str_disjoint t : In t float_tags -> In t str_tags -> False.
Proof.
  unfold float_tags, str_tags. simpl.
  intros [<- | [<- | []]] [H | [H | []]]; discriminate H.
Qed.

Lemma final_cases v : final v = VNone \/ isna (final v) = false.
Proof. unfold final. destruct (isna v) eqn:H; [by left | by right]. Qed.

Section Columns.
Variable E : pandas_ext.
Variable dtypes : gmap pystr pystr.

Lemma clean_column_unfold name column :
  clean_column E dtypes name column =
    (log (DebugProcessing name (dtypes !! name)) ;;;
     match tag_of dtypes name with
     | None => log (DebugNoDtype name) ;;; ret (strip_only column)
     | Some t =>
         cleaned_series <- mapM (fun x => _clean_value E x t) column ;;
         finalize E name t cleaned_series
     end).
Proof.
  unfold clean_column, tag_of. destruct (dtypes !! name) as [t|]; [|done].
  by destruct (str_eqb t []).
Qed.

(** What a run of the loop body comes from, past its first debug record. *)
Lemma clean_column_inv name column lg o :
  clean_column E dtypes name column = (lg, o) ->
  exists l,
    lg = DebugProcessing name (dtypes !! name) :: l /\
    match tag_of dtypes name with
    | None => l = [DebugNoDtype name] /\ o = Returns (strip_only column)
    | Some t =>
        (cleaned_series <- mapM (fun x => _clean_value E x t) column ;;
         finalize E name t cleaned_series) = (l, o)
    end.
Proof.
  rewrite clean_column_unfold. intros (l & H & ->)%log_first.
  exists l. split; [done |].
  destruct (tag_of dtypes name) as [t|]; [done |]. by injection H as <- <-.
Qed.

Lemma finalize_int name t c :
  In t int_tags ->
  finalize E name t c = call (astype_Int64 (to_numeric_series E c)).
Proof. intros H%str_in_true. unfold finalize. by rewrite H. Qed.

Lemma finalize_float name t c :
  In t float_tags ->
  finalize E name t c = ret (map (fun v => VFloat (to_float64_coerce E v)) c).
Proof.
  intros H. unfold finalize.
  assert (Hi : str_in t int_tags = false).
  { apply str_in_false. intros Hi. by apply (int_float_disjoint t). }
  apply str_in_true in H. by rewrite Hi, H, astype_float64_spec.
Qed.

Lemma finalize_str name t c :
  In t str_tags -> finalize E name t c = ret (map astype_string c).
Proof.
  intros H. unfold finalize.
  assert (Hi : str_in t int_tags = false).
  { apply str_in_false. intros Hi. by apply (int_str_disjoint t). }
  assert (Hf : str_in t float_tags = false).
  { apply str_in_false. intros Hf. by apply (float_str_disjoint t). }
  apply str_in_true in H. by rewrite Hi, Hf, H.
Qed.

Lemma finalize_other name t c :
  ~ In t (numeric_tags ++ str_tags) ->
  finalize E name t c =
    try_except
      (if str_in t datetime_tags
       then call (to_datetime_coerce E c)
       else call (series_astype E t c))
      (fun e => log (WarnColumnConversion name t e) ;;; ret c).
Proof.
  intros H. unfold finalize, numeric_tags in *. rewrite !in_app_iff in H.
  assert (Hi : str_in t int_tags = false) by (apply str_in_false; tauto).
  assert (Hf : str_in t float_tags = false) by (apply str_in_false; tauto).
  assert (Hs : str_in t str_tags = false) by (apply str_in_false; tauto).
  by rewrite Hi, Hf, Hs.
Qed.

(** A finalization that is not of an int column returns. *)
Lemma finalize_returns name t c :
  ~ In t int_tags -> exists lg series, finalize E name t c = (lg, Returns series).
Proof.
  intros Hi.
  destruct (decide (In t float_tags)) as [Hf | Hf].
  { rewrite finalize_float by done. by eexists _, _. }
  destruct (decide (In t str_tags)) as [Hs | Hs].
  { rewrite finalize_str by done. by eexists _, _. }
  rewrite finalize_other.
  2:{ unfold numeric_tags. rewrite !in_app_iff. tauto. }
  destruct (str_in t datetime_tags).
  - destruct (to_datetime_coerce E c); by eexists _, _.
  - destruct (series_astype E t c); by eexists _, _.
Qed.

Lemma finalize_raises name t c lg e :
  finalize E name t c = (lg, Raises e) ->
  In t int_tags /\ lg = [] /\
  astype_Int64 (to_numeric_series E c) = Raises e /\
  (exn_cls e = TypeError \/ exn_cls e = OverflowError).
Proof.
  intros H. destruct (decide (In t int_tags)) as [Hi | Hi].
  - rewrite finalize_int in H by done. injection H as <- H.
    repeat split; try done. by apply astype_Int64_raises in H.
  - destruct (finalize_returns name t c Hi) as (lg' & series & H'). congruence.
Qed.

Lemma finalize_length name t c lg series :
  finalize E name t c = (lg, Returns series) -> length series = length c.
Proof.
  destruct (decide (In t int_tags)) as [Hi | Hi].
  { rewrite finalize_int by done. intros [= <- H].
    by apply astype_Int64_returns in H as [H _]. }
  destruct (decide (In t float_tags)) as [Hf | Hf].
  { rewrite finalize_float by done. intros [= <- <-]. apply length_map. }
  destruct (decide (In t str_tags)) as [Hs | Hs].
  { rewrite finalize_str by done. intros [= <- <-]. apply length_map. }
  rewrite finalize_other.
  2:{ unfold numeric_tags. rewrite !in_app_iff. tauto. }
  destruct (str_in t datetime_tags).
  - destruct (to_datetime_coerce E c) eqn:Hd; simpl.
    + intros [= <- <-]. by apply to_datetime_coerce_length in Hd.
    + by intros [= <- <-].
  - destruct (series_astype E t c) eqn:Hd; simpl.
    + intros [= <- <-]. by apply series_astype_length in Hd.
    + by intros [= <- <-].
Qed.

Lemma cleaned_series_total t column :
  ~ In t int_tags ->
  exists lg cleaned, mapM (fun x => _clean_value E x t) column = (lg, Returns cleaned).
Proof. intros Hi. apply mapM_total. intros x. by apply clean_value_returns. Qed.

Lemma cleaned_series_raises t column lg e :
  mapM (fun x => _clean_value E x t) column = (lg, Raises e) ->
  In t int_tags /\ e = infinity_to_integer.
Proof.
  intros (x & l' & _ & Hx)%mapM_raises.
  apply clean_value_raises in Hx. tauto.
Qed.

Lemma cleaned_series_length t column lg cleaned :
  mapM (fun x => _clean_value E x t) column = (lg, Returns cleaned) ->
  length cleaned = length column.
Proof. intros H%mapM_returns. symmetry. by eapply Forall2_length. Qed.

Lemma clean_column_length name column lg series :
  clean_column E dtypes name column = (lg, Returns series) ->
  length series = length column.
Proof.
  intros (l & _ & H)%clean_column_inv. destruct (tag_of dtypes name) as [t|].
  - apply bind_returns in H as (l1 & c & l2 & Hc & Hf & _).
    apply finalize_length in Hf. apply cleaned_series_length in Hc. congruence.
  - destruct H as [_ [= ->]]. apply length_map.
Qed.

(** Only an int column raises: its Value Normalizer on an infinity, or its
    finalization, with [TypeError] or [OverflowError]. *)
Lemma clean_column_raises name column lg e :
  clean_column E dtypes name column = (lg, Raises e) ->
  exists t, tag_of dtypes name = Some t /\ In t int_tags /\
    (exn_cls e = TypeError \/ exn_cls e = OverflowError).
Proof.
  intros (l & _ & H)%clean_column_inv.
  destruct (tag_of dtypes name) as [t|]; [|by destruct H].
  exists t. split; [done |].
  apply bind_raises in H as [H | (l1 & c & l2 & Hc & Hf & _)].
  - apply cleaned_series_raises in H as [Hi ->]. split; [done | by right].
  - apply finalize_raises in Hf. tauto.
Qed.

Lemma clean_column_returns name column :
  (forall t, tag_of dtypes name = Some t -> ~ In t int_tags) ->
  exists lg series, clean_column E dtypes name column = (lg, Returns series).
Proof.
  intros Ht. rewrite clean_column_unfold.
  destruct (tag_of dtypes name) as [t|]; [|by eexists _, _].
  destruct (cleaned_series_total t column (Ht t eq_refl)) as (l1 & c & Hc).
  destruct (finalize_returns name t c (Ht t eq_refl)) as (l2 & series & Hf).
  rewrite Hc. simpl. rewrite Hf. by eexists _, _.
Qed.
End Columns.

(** ** The cells of a finished column *)

Lemma astype_Int64_positional E col series :
  astype_Int64 (to_numeric_series E col) = Returns series ->
  series = col \/ series = map (fun c => float_to_Int64 (to_float64_coerce E c)) col.
Proof.
  unfold to_numeric_series.
  destruct (ints_within INT64_MIN INT64_MAX col) as [zs|] eqn:H1.
  { intros [= <-]. apply ints_within_spec in H1 as [-> _]. by left. }
  destruct (ints_within 0 UINT64_MAX col) as [zs|] eqn:H2; [done |].
  intros [_ ->]%astype_Int64_float_returns. right. by rewrite map_map.
Qed.

Section Cells.
Variable E : pandas_ext.
Variable dtypes : gmap pystr pystr.

Lemma cell_ok_none tag : cell_ok tag VNone.
Proof.
  split; [by left |]. destruct tag; [|by left].
  repeat split; intros _; by left.
Qed.

Lemma clean_column_cells name column lg series :
  clean_column E dtypes name column = (lg, Returns series) ->
  Forall (fun y => cell_ok (tag_of dtypes name) (final y)) series.
Proof.
  intros (l0 & _ & H)%clean_column_inv. destruct (tag_of dtypes name) as [t|].
  - apply bind_returns in H as (l1 & c & l2 & Hc & Hf & _).
    apply Forall_forall. intros y Hy. split; [apply final_cases |].
    split; [|split]; intros Ht.
    + rewrite finalize_int in Hf by done. injection Hf as _ Hf.
      apply astype_Int64_returns in Hf as [_ Hall].
      rewrite Forall_forall in Hall.
      destruct (Hall y Hy) as [-> | (z & -> & Hz)]; [by left |].
      right. by exists z.
    + rewrite finalize_float in Hf by done. injection Hf as _ <-.
      apply list_elem_of_fmap in Hy as (v & -> & _).
      unfold final. simpl.
      destruct (float_isnan (to_float64_coerce E v)) eqn:Hn; [by left |].
      right. by eexists.
    + rewrite finalize_str in Hf by done. injection Hf as _ <-.
      apply list_elem_of_fmap in Hy as (v & -> & Hv).
      apply mapM_returns in Hc.
      apply list_elem_of_lookup in Hv as (i & Hi).
      destruct (Forall2_lookup_r _ _ _ _ _ Hc Hi) as (x & _ & l' & Hx).
      destruct (clean_value_str E x t Ht) as [H | (s & _ & Hs & H)];
        rewrite H in Hx; injection Hx as _ <-; [by left |].
      right. exists (strip s). split; [done |]. split; [done |].
      apply strip_idempotent.
  - destruct H as [_ [= ->]]. apply Forall_forall. intros y Hy.
    apply list_elem_of_fmap in Hy as (x & -> & _).
    split; [apply final_cases |].
    destruct x as [| | s]; [by left | by left |].
    right. exists (strip s). split; [done | apply strip_idempotent].
Qed.

(** Position [i] of a finished column comes from position [i] of the raw
    column. *)
Lemma clean_column_positional name column lg series i x :
  clean_column E dtypes name column = (lg, Returns series) ->
  column !! i = Some x ->
  exists y, series !! i = Some y /\
    cell_from E (tag_of dtypes name) x (final y).
Proof.
  intros (l0 & _ & H)%clean_column_inv. destruct (tag_of dtypes name) as [t|].
  - intros Hx. apply bind_returns in H as (l1 & c & l2 & Hc & Hf & _).
    apply mapM_returns in Hc.
    destruct (Forall2_lookup_l _ _ _ _ _ Hc Hx) as (v & Hv & l' & Hcv).
    assert (Hlen := finalize_length E name t c l2 series Hf).
    destruct (lookup_lt_is_Some_2 series i) as [y Hy].
    { rewrite Hlen. by eapply lookup_lt_Some. }
    exists y. split; [done |]. exists l', v. split; [done |].
    split; [|split]; intros Ht.
    + rewrite finalize_int in Hf by done. injection Hf as _ Hf.
      apply astype_Int64_positional in Hf as [-> | ->].
      * left. congruence.
      * right. rewrite list_lookup_fmap, Hv in Hy. simpl in Hy. congruence.
    + rewrite finalize_float in Hf by done. injection Hf as _ <-.
      rewrite list_lookup_fmap, Hv in Hy. simpl in Hy. congruence.
    + rewrite finalize_str in Hf by done. injection Hf as _ <-.
      rewrite list_lookup_fmap, Hv in Hy. simpl in Hy. congruence.
  - destruct H as [_ [= ->]]. intros Hx. eexists. split; [|reflexivity].
    unfold strip_only. by rewrite list_lookup_fmap, Hx.
Qed.
End Cells.

(** ** The loop over the columns *)

Lemma dict_set_Forall {V} (P : pystr * V -> Prop) k v d :
  P (k, v) -> Forall P d -> Forall P (dict_set k v d).
Proof.
  intros Hk. induction 1 as [|[k' v'] r Hh Hr IH]; simpl.
  - by repeat constructor.
  - destruct (str_eqb k k'); constructor; done.
Qed.

Lemma dict_set_fresh {V} k (v : V) d :
  ~ In k (map fst d) -> dict_set k v d = d ++ [(k, v)].
Proof.
  induction d as [|[k' v'] r IH]; simpl; [done |].
  intros H. destruct (str_eqb k k') eqn:Hk.
  - apply str_eqb_true in Hk. subst k'. destruct H. by left.
  - rewrite IH; [done |]. intros Hin. apply H. by right.
Qed.

Section Loop.
Variable E : pandas_ext.
Variable dtypes : gmap pystr pystr.

Lemma clean_columns_Forall (P : pystr * list pyval -> Prop) cols acc lg cd :
  (forall name column l series,
     In (name, column) cols ->
     clean_column E dtypes name column = (l, Returns series) ->
     P (name, series)) ->
  Forall P acc ->
  clean_columns E dtypes cols acc = (lg, Returns cd) ->
  Forall P cd.
Proof.
  revert acc lg. induction cols as [|[name column] rest IH]; simpl;
    intros acc lg HP Hacc H.
  - by injection H as _ <-.
  - apply bind_returns in H as (l1 & series & l2 & Hc & Hr & _).
    eapply IH; [| |exact Hr].
    + intros. eapply HP; [right|]; done.
    + apply dict_set_Forall; [|done]. eapply HP; [by left | done].
Qed.

(** With distinct names, the loop appends one series per column, in the
    order of the columns. *)
Lemma clean_columns_appends cols acc lg cd :
  NoDup (map fst acc ++ map fst cols) ->
  clean_columns E dtypes cols acc = (lg, Returns cd) ->
  exists new, cd = acc ++ new /\
    Forall2 (fun c d => d.1 = c.1 /\
               exists l, clean_column E dtypes c.1 c.2 = (l, Returns d.2))
            cols new.
Proof.
  revert acc lg. induction cols as [|[name column] rest IH]; simpl;
    intros acc lg Hnd H.
  - injection H as _ <-. exists []. split; [by rewrite app_nil_r | constructor].
  - apply bind_returns in H as (l1 & series & l2 & Hc & Hr & _).
    assert (Hfresh : ~ In name (map fst acc)).
    { apply NoDup_app in Hnd as (_ & Hd & _). intros Hin.
      apply (Hd name); [by apply list_elem_of_In | left]. }
    rewrite dict_set_fresh in Hr by done.
    destruct (IH (acc ++ [(name, series)]) l2) as (new & -> & Hall);
      [| done |].
    { rewrite map_app. simpl. rewrite <- app_assoc. simpl.
      apply NoDup_app in Hnd as (H1 & H2 & H3).
      apply NoDup_cons in H3 as [H3 H4].
      apply NoDup_app. split; [done |]. split; [|by apply NoDup_cons].
      intros k Hk Hk'. apply elem_of_cons in Hk' as [-> | Hk'].
      - by apply Hfresh, list_elem_of_In.
      - apply (H2 k Hk). by right. }
    exists ((name, series) :: new). split; [by rewrite <- app_assoc |].
    constructor; [|done]. split; [done | by exists l1].
Qed.

Lemma clean_columns_raises cols acc lg e :
  clean_columns E dtypes cols acc = (lg, Raises e) ->
  (exn_cls e = TypeError \/ exn_cls e = OverflowError) /\
  exists name column t,
    In (name, column) cols /\ tag_of dtypes name = Some t /\ In t int_tags.
Proof.
  revert acc lg. induction cols as [|[name column] rest IH]; simpl;
    intros acc lg H; [done |].
  apply bind_raises in H as [H | (l1 & series & l2 & Hc & Hr & _)].
  - apply clean_column_raises in H as (t & Ht & Hi & He).
    split; [done |]. exists name, column, t. tauto.
  - apply IH in Hr as (He & name' & column' & t & Hin & Ht).
    split; [done |]. exists name', column', t. tauto.
Qed.

Lemma clean_columns_returns cols acc :
  (forall name t, In name (map fst cols) ->
     tag_of dtypes name = Some t -> ~ In t int_tags) ->
  exists lg cd, clean_columns E dtypes cols acc = (lg, Returns cd).
Proof.
  intros Ht. destruct (clean_columns E dtypes cols acc) as [lg [cd | e]] eqn:H.
  - by eexists _, _.
  - apply clean_columns_raises in H as (_ & name & column & t & Hin & Htag & Hi).
    destruct (Ht name t); try done.
    apply in_map_iff. by exists (name, column).
Qed.

(** The whole call on a file that reads as a frame. *)
Lemma clean_csv_data_frame df csv_path :
  clean_csv_data E (ReadFrame df) csv_path dtypes =
    match clean_columns E dtypes df [] with
    | (lg, Returns cd) =>
        (DebugRawHead (frame_head df) :: DebugRawDtypes (map fst df) :: lg ++
           [DebugCleanedHead (take 5 (to_dict_records cd)); DebugCleanedDtypes cd],
         Records (map processed_row (to_dict_records cd)))
    | (lg, Raises e) =>
        (DebugRawHead (frame_head df) :: DebugRawDtypes (map fst df) :: lg ++
           [ErrorUnexpected csv_path e],
         ErrorDict (py "Error cleaning CSV: " ++ exn_str e))
    end.
Proof.
  unfold clean_csv_data.
  destruct (clean_columns E dtypes df []) as [lg [cd | e]] eqn:H; simpl.
  - done.
  - by apply clean_columns_raises in H as [[-> | ->] _].
Qed.

Lemma clean_csv_data_records df csv_path lg rows :
  clean_csv_data E (ReadFrame df) csv_path dtypes = (lg, Records rows) ->
  exists lg' cd, clean_columns E dtypes df [] = (lg', Returns cd) /\
    rows = map processed_row (to_dict_records cd) /\
    lg = DebugRawHead (frame_head df) :: DebugRawDtypes (map fst df) :: lg' ++
           [DebugCleanedHead (take 5 (to_dict_records cd)); DebugCleanedDtypes cd].
Proof.
  rewrite clean_csv_data_frame.
  destruct (clean_columns E dtypes df []) as [lg' [cd | e]]; [|done].
  intros [= <- <-]. by exists lg', cd.
Qed.
End Loop.

(** ** The records *)

Lemma in_to_dict_records cd row :
  In row (map processed_row (to_dict_records cd)) ->
  exists i, row = map (fun d => (d.1, final (nth i d.2 (VFloat S754_nan)))) cd.
Proof.
  unfold to_dict_records. rewrite map_map. intros H.
  apply in_map_iff in H as (i & <- & _). exists i.
  unfold processed_row, row_at. rewrite map_map. done.
Qed.

Lemma sample_run E :
  clean_csv_data E (ReadFrame sample_frame) (py "report.csv") sample_dtypes
  = ([ DebugRawHead sample_frame;
       DebugRawDtypes [py "id"; py "amount"; py "name"; py "note"];
       DebugProcessing (py "id") (Some (py "int"));
       DebugProcessing (py "amount") (Some (py "float"));
       DebugProcessing (py "name") (Some (py "str"));
       DebugProcessing (py "note") None;
       DebugNoDtype (py "note");
       DebugCleanedHead
         [ [ (py "id", VInt 1000); (py "amount", VFloat f1234_5);
             (py "name", VStr (py "bob")); (py "note", VStr (py "hi")) ];
           [ (py "id", VNA); (py "amount", VFloat S754_nan);
             (py "name", VNA); (py "note", VNA) ] ];
       DebugCleanedDtypes
         [ (py "id", [VInt 1000; VNA]);
           (py "amount", [VFloat f1234_5; VFloat S754_nan]);
           (py "name", [VStr (py "bob"); VNA]);
           (py "note", [VStr (py "hi"); VNA]) ] ],
     Records sample_records).
Proof. vm_compute. reflexivity. Qed.

(** C5, as amended. In the records of a successful call every cell is [None]
    or a value that is not missing, so never NaN, NaT or [pd.NA]; a cell of an
    int column is [None] or an [int] within int64, a cell of a float column is
    [None] or a float that is not NaN, a cell of a str column is [None] or a
    stripped text that is not empty, and a cell of a column without a tag is
    [None] or a stripped text, which may be empty. *)
Theorem C5_output_cells (E : pandas_ext) (file : csv_file)
    (csv_path : pystr) (dtypes : gmap pystr pystr) lg rows :
  clean_csv_data E file csv_path dtypes = (lg, Records rows) ->
  forall row name v,
    In row rows -> In (name, v) row -> cell_ok (tag_of dtypes name) v.
Proof.
  intros H row name v Hrow Hcell. destruct file as [| e | df].
  - done.
  - unfold clean_csv_data in H. simpl in H.
    destruct (exn_cls e); try done. injection H as _ <-. done.
  - apply clean_csv_data_records in H as (lg' & cd & Hcd & -> & _).
    apply in_to_dict_records in Hrow as (i & ->).
    apply in_map_iff in Hcell as ([k series] & [= <- <-] & Hin).
    assert (Hall : Forall (fun d : pystr * list pyval =>
               Forall (fun y => cell_ok (tag_of dtypes d.1) (final y)) d.2) cd).
    { eapply clean_columns_Forall; [| |exact Hcd]; [|constructor].
      intros k' column l series' _ Hc. simpl. by eapply clean_column_cells. }
    rewrite Forall_forall in Hall.
    specialize (Hall (k, series) (proj2 (list_elem_of_In _ _) Hin)).
    simpl in *.
    destruct (nth_in_or_default i series (VFloat S754_nan)) as [Hn | ->].
    + rewrite Forall_forall in Hall. apply Hall. by apply list_elem_of_In.
    + apply cell_ok_none.
Qed.

(** C5 on the sample report: the second cell of the str column, of
    whitespace only, is [None]. *)
Lemma C5_witness :
  cell_ok (tag_of sample_dtypes (py "name")) VNone /\
  cell_ok (tag_of sample_dtypes (py "id")) (VInt 1000).
Proof.
  split.
  - apply (C5_output_cells bare_pandas (ReadFrame sample_frame)
             (py "report.csv") sample_dtypes _ sample_records
             (sample_run bare_pandas)
             [ (py "id", VNone); (py "amount", VNone);
               (py "name", VNone); (py "note", VNone) ]).
    + right; left; reflexivity.
    + right; right; left; reflexivity.
  - apply (C5_output_cells bare_pandas (ReadFrame sample_frame)
             (py "report.csv") sample_dtypes _ sample_records
             (sample_run bare_pandas)
             [ (py "id", VInt 1000); (py "amount", VFloat f1234_5);
               (py "name", VStr (py "bob")); (py "note", VStr (py "hi")) ]).
    + left; reflexivity.
    + left; reflexivity.
Defined.

(** Whatever pandas does for other dtypes, a cell of whitespace only in a
    column without a tag is the empty string in the records. *)
Lemma blank_run E :
  clean_csv_data E (ReadFrame blank_frame) (py "report.csv") ∅
  = ([ DebugRawHead blank_frame; DebugRawDtypes [py "a"];
       DebugProcessing (py "a") None; DebugNoDtype (py "a");
       DebugCleanedHead [[(py "a", VStr [])]];
       DebugCleanedDtypes [(py "a", [VStr []])] ],
     Records [[(py "a", VStr [])]]).
Proof. vm_compute. reflexivity. Qed.

(** C5 as stated fails: a successful call returns a record with a cell that
    is the empty string, and logs nothing above the DEBUG level. *)
Lemma C5_counterexample :
  (clean_csv_data bare_pandas (ReadFrame blank_frame) (py "report.csv") ∅).2
    = Records [[(py "a", VStr (py ""))]] /\
  above_debug
    (clean_csv_data bare_pandas (ReadFrame blank_frame) (py "report.csv") ∅).1
    = [] /\
  tag_of ∅ (py "a") = None /\
  ~ str_cell (VStr (py "")).
Proof.
  split; [by rewrite blank_run |]. split; [by rewrite blank_run |].
  split; [reflexivity |].
  intros [H | (s & [= <-] & Hne & _)]; [discriminate H | by apply Hne].
Qed.

(** ** Rows and columns *)

Lemma n_rows_uniform (cd : dict (list pyval)) n :
  cd <> [] -> Forall (fun d => length d.2 = n) cd -> n_rows cd = n.
Proof.
  intros Hne Hall. induction Hall as [|d r Hd Hr IH]; [done |].
  simpl. destruct r as [|d' r'].
  - simpl. lia.
  - rewrite IH by done. lia.
Qed.

Section Shape.
Variable E : pandas_ext.
Variable dtypes : gmap pystr pystr.

(** The records of a well-formed frame: one per data row, in order, each
    with the columns of the header, in order, and each cell made from the
    cell of its row and column. *)
Lemma records_shape df lg cd :
  well_formed df ->
  clean_columns E dtypes df [] = (lg, Returns cd) ->
  let rows := map processed_row (to_dict_records cd) in
  length rows = frame_height df /\
  forall i row, rows !! i = Some row ->
    Forall2 (fun (c : pystr * list raw) (kv : pystr * pyval) =>
               kv.1 = c.1 /\
               exists x, c.2 !! i = Some x /\
                 cell_from E (tag_of dtypes c.1) x kv.2)
            df row.
Proof.
  intros [Hnd Hlen] Hcd rows.
  destruct (clean_columns_appends E dtypes df [] lg cd Hnd Hcd)
    as (new & -> & Hall). simpl in rows.
  remember (frame_height df) as n eqn:Hn0.
  assert (Hlens : Forall (fun d : pystr * list pyval => length d.2 = n) new).
  { clear rows Hcd Hnd Hn0.
    induction Hall as [|c d cs ds (_ & l & Hc) _ IH]; [constructor |].
    apply Forall_cons in Hlen as [Hc' Hlen].
    constructor; [|by apply IH].
    apply clean_column_length in Hc. congruence. }
  assert (Hn : n_rows new = n).
  { destruct new as [|d ds].
    - apply Forall2_nil_inv_r in Hall. by subst df.
    - by apply n_rows_uniform. }
  assert (Hrows : length rows = n).
  { subst rows. unfold to_dict_records.
    by rewrite !length_map, length_seq. }
  split; [done |]. intros i row Hi.
  assert (Hlt : (i < n)%nat).
  { rewrite <- Hrows. by eapply lookup_lt_Some. }
  subst rows. unfold to_dict_records in Hi.
  rewrite !list_lookup_fmap, Hn, lookup_seq_lt in Hi by done.
  simpl in Hi. injection Hi as <-.
  unfold processed_row, row_at. rewrite map_map. simpl.
  clear Hn Hrows Hcd Hnd Hn0.
  induction Hall as [|c d cs ds (Hk & l & Hc) _ IH]; [constructor |].
  apply Forall_cons in Hlen as [Hc' Hlen].
  apply Forall_cons in Hlens as [Hd Hlens].
  simpl. constructor; [|by apply IH].
  split; [done |]. simpl.
  destruct (lookup_lt_is_Some_2 c.2 i) as [x Hx]; [lia |].
  exists x. split; [done |].
  destruct (clean_column_positional E dtypes c.1 c.2 l d.2 i x Hc Hx)
    as (y & Hy & Hfrom).
  by rewrite (nth_lookup_Some _ _ _ _ Hy).
Qed.
End Shape.

Lemma records_keys E dtypes df csv_path lg rows :
  well_formed df ->
  clean_csv_data E (ReadFrame df) csv_path dtypes = (lg, Records rows) ->
  Forall (fun row => map fst row = map fst df) rows.
Proof.
  intros Hwf H. apply clean_csv_data_records in H as (lg' & cd & Hcd & -> & _).
  destruct (records_shape E dtypes df lg' cd Hwf Hcd) as [Hlen Hrows].
  apply Forall_forall. intros row Hrow.
  apply list_elem_of_lookup in Hrow as (i & Hi).
  specialize (Hrows i row Hi). clear Hi Hwf Hcd Hlen.
  induction Hrows as [|c kv cs kvs [Hk _] _ IH]; [done |].
  simpl. by rewrite Hk, IH.
Qed.

Lemma sample_well_formed : well_formed sample_frame.
Proof.
  split.
  - apply (bool_decide_unpack _). by vm_compute.
  - by repeat constructor.
Qed.




(** ** The type specification *)

Lemma clean_column_ext E d1 d2 name column :
  d1 !! name = d2 !! name ->
  clean_column E d1 name column = clean_column E d2 name column.
Proof. intros H. unfold clean_column. by rewrite H. Qed.

Lemma clean_columns_ext E d1 d2 cols acc :
  (forall name, In name (map fst cols) -> d1 !! name = d2 !! name) ->
  clean_columns E d1 cols acc = clean_columns E d2 cols acc.
Proof.
  revert acc. induction cols as [|[name column] rest IH]; simpl; intros acc H.
  - done.
  - rewrite (clean_column_ext E d1 d2 name column) by (apply H; by left).
    destruct (clean_column E d2 name column) as [l [series | e]]; simpl; [|done].
    rewrite IH; [done |]. intros k Hk. apply H. by right.
Qed.

(** Two type specifications that agree on the names of the header give the
    same result, log included. *)
Lemma clean_csv_data_ext E file csv_path d1 d2 :
  (forall name, In name (header file) -> d1 !! name = d2 !! name) ->
  clean_csv_data E file csv_path d1 = clean_csv_data E file csv_path d2.
Proof.
  intros H. destruct file as [| e | df]; [done | done |].
  unfold clean_csv_data. by rewrite (clean_columns_ext E d1 d2 df [] H).
Qed.

(** C9. An entry of the type specification for a name that is not in the
    header changes nothing: with it added or changed, or removed, the call
    returns the same result and logs the same records; and the records of a
    call on a well-formed frame list the columns of the header, in order. *)
Theorem C9_entries_outside_header_ignored (E : pandas_ext) (file : csv_file)
    (csv_path : pystr) (dtypes : gmap pystr pystr) (k t : pystr) :
  ~ In k (header file) ->
  clean_csv_data E file csv_path (<[k := t]> dtypes)
    = clean_csv_data E file csv_path dtypes /\
  clean_csv_data E file csv_path (delete k dtypes)
    = clean_csv_data E file csv_path dtypes /\
  (forall df lg rows,
     file = ReadFrame df -> well_formed df ->
     clean_csv_data E file csv_path (<[k := t]> dtypes) = (lg, Records rows) ->
     Forall (fun row => map fst row = map fst df) rows).
Proof.
  intros Hk. split; [|split].
  - apply clean_csv_data_ext. intros name Hname.
    apply lookup_insert_ne. by intros ->.
  - apply clean_csv_data_ext. intros name Hname.
    apply lookup_delete_ne. by intros ->.
  - intros df lg rows -> Hwf H. by eapply records_keys.
Qed.

(** C9 on the sample report, with an int entry for a column ["ghost"] the
    header does not have. *)
Lemma C9_witness :
  (clean_csv_data bare_pandas (ReadFrame sample_frame) (py "report.csv")
     (<[py "ghost" := py "int"]> sample_dtypes)).2
  = Records sample_records.
Proof.
  destruct (C9_entries_outside_header_ignored bare_pandas
              (ReadFrame sample_frame) (py "report.csv") sample_dtypes
              (py "ghost") (py "int")) as (Hins & _ & _).
  - apply str_in_false. reflexivity.
  - rewrite Hins. by rewrite sample_run.
Defined.

(** ** Other tags *)

(** A call on a frame without an int column returns records. *)
Lemma clean_csv_data_returns_records E dtypes df csv_path :
  (forall name t, In name (map fst df) ->
     tag_of dtypes name = Some t -> ~ In t int_tags) ->
  exists lg rows,
    clean_csv_data E (ReadFrame df) csv_path dtypes = (lg, Records rows).
Proof.
  intros H. rewrite clean_csv_data_frame.
  destruct (clean_columns_returns E dtypes df [] H) as (lg & cd & ->).
  by eexists _, _.
Qed.

(** C8. Under a tag outside the int, float and str families, a cell past the
    pre-check is cleaned to what the conversion of its stripped text returns,
    and, when the conversion raises, to the stripped text itself with one
    warning logged; under such a tag the Value Normalizer returns for every
    cell; the finalization of such a column keeps the cleaned series, with
    one warning, when its conversion raises; and a call on a frame without an
    int column returns records. *)
Theorem C8_other_tag_falls_back (E : pandas_ext) (s t : pystr) :
  ~ In t (numeric_tags ++ str_tags) -> strip s <> [] ->
  (forall v, astype_scalar E t (strip s) = Returns v ->
     _clean_value E (RStr s) t = ([], Returns v)) /\
  (forall e, astype_scalar E t (strip s) = Raises e ->
     _clean_value E (RStr s) t =
       ([WarnCellConversion (strip s) t e], Returns (VStr (strip s)))) /\
  (forall value, exists lg v, _clean_value E value t = (lg, Returns v)) /\
  (forall name cleaned,
     finalize E name t cleaned =
       match (if str_in t datetime_tags
              then to_datetime_coerce E cleaned
              else series_astype E t cleaned) with
       | Returns series => ([], Returns series)
       | Raises e => ([WarnColumnConversion name t e], Returns cleaned)
       end) /\
  (forall dtypes name column,
     tag_of dtypes name = Some t ->
     exists lg series,
       clean_column E dtypes name column = (lg, Returns series) /\
       length series = length column) /\
  (forall dtypes df csv_path,
     (forall name t', In name (map fst df) ->
        tag_of dtypes name = Some t' -> ~ In t' int_tags) ->
     exists lg rows,
       clean_csv_data E (ReadFrame df) csv_path dtypes = (lg, Records rows)).
Proof.
  intros Ht Hs.
  assert (Hi : ~ In t int_tags).
  { intros Hi. apply Ht. unfold numeric_tags. rewrite !in_app_iff. tauto. }
  split. { intros v Hv. rewrite clean_value_other by done. by rewrite Hv. }
  split. { intros e He. rewrite clean_value_other by done. by rewrite He. }
  split. { intros value. by apply clean_value_returns. }
  split.
  { intros name cleaned. rewrite finalize_other by done.
    destruct (str_in t datetime_tags).
    - by destruct (to_datetime_coerce E cleaned).
    - by destruct (series_astype E t cleaned). }
  split.
  { intros dtypes name column Htag.
    destruct (clean_column_returns E dtypes name column) as (lg & series & H).
    - intros t' Ht'. assert (t' = t) by congruence. by subst t'.
    - exists lg, series. split; [done |]. by eapply clean_column_length. }
  intros dtypes df csv_path H. by apply clean_csv_data_returns_records.
Qed.

(** C8 at the text [" x "] under the tag ["foo"], which pandas does not
    understand. *)
Lemma C8_witness :
  _clean_value bare_pandas (RStr (py " x ")) (py "foo") =
    ([WarnCellConversion (py "x") (py "foo") (not_understood (py "foo"))],
     Returns (VStr (py "x"))).
Proof.
  destruct (C8_other_tag_falls_back bare_pandas (py " x ") (py "foo"))
    as (_ & Hraise & _).
  - apply str_in_false. reflexivity.
  - discriminate.
  - apply (Hraise (not_understood (py "foo"))). reflexivity.
Defined.

(** ** An int column with a fraction *)

Lemma clean_columns_each E dtypes cols acc lg cd :
  clean_columns E dtypes cols acc = (lg, Returns cd) ->
  forall name column, In (name, column) cols ->
    exists l series, clean_column E dtypes name column = (l, Returns series).
Proof.
  revert acc lg. induction cols as [|[k c] rest IH]; simpl;
    intros acc lg H name column Hin; [done |].
  apply bind_returns in H as (l1 & series & l2 & Hc & Hr & _).
  destruct Hin as [[= <- <-] | Hin]; [by eexists _, _ | by eapply IH].
Qed.

Lemma fraction_not_castable f :
  float_isnan f = false -> ~ whole (NFloat f) -> int64_castable f = false.
Proof.
  intros Hnan Hw. unfold int64_castable.
  destruct (float_trunc f) as [z | e]; [|done].
  destruct (float_eq_Z f z) eqn:Heq; [|done]. destruct Hw. exists z. by apply float_eq_Z_is.
Qed.

Lemma ints_within_float lo hi col f : In (VFloat f) col -> ints_within lo hi col = None.
Proof.
  induction col as [|v r IH]; simpl; [done |].
  intros [-> | Hin]; [done |]. destruct v; try done.
  destruct (_ && _); [|done]. by rewrite IH.
Qed.

(** A cell of an int column whose numeral parses to a number that is not
    whole makes the whole call return an error result. *)
Lemma fraction_fails_the_call E df csv_path dtypes name column t s :
  In (name, column) df -> tag_of dtypes name = Some t -> In t int_tags ->
  In (RStr s) column ->
  let n := to_numeric_coerce E (re_sub_non_numeric (strip s)) in
  num_isna n = false -> ~ whole n ->
  exists lg msg,
    clean_csv_data E (ReadFrame df) csv_path dtypes = (lg, ErrorDict msg).
Proof.
  intros Hcol Htag Ht Hcell n Hna Hw. rewrite clean_csv_data_frame.
  destruct (clean_columns E dtypes df []) as [lg [cd | e]] eqn:Hrun;
    [|by eexists _, _].
  exfalso.
  destruct (clean_columns_each E dtypes df [] lg cd Hrun name column Hcol)
    as (l & series & Hc).
  apply clean_column_inv in Hc as (l0 & _ & Hc). rewrite Htag in Hc.
  apply bind_returns in Hc as (l1 & cleaned & l2 & Hm & Hf & _).
  rewrite finalize_int in Hf by done. injection Hf as _ Hf.
  apply mapM_returns in Hm.
  apply list_elem_of_In, list_elem_of_lookup in Hcell as (i & Hi).
  destruct (Forall2_lookup_l _ _ _ _ _ Hm Hi) as (v & Hv' & l' & Hx).
  assert (Hfin : forall b, n <> NFloat (S754_infinity b)).
  { intros b Hb.
    by rewrite (clean_value_int_infinity E s t b Ht Hb) in Hx. }
  destruct (clean_value_int_fraction E s t Ht Hna Hfin Hw) as (f & Hn & Hv).
  fold n in Hn. rewrite Hn in Hna, Hw.
  assert (Hin : In (VFloat f) cleaned).
  { rewrite Hv in Hx. injection Hx as _ <-.
    apply list_elem_of_In, list_elem_of_lookup. by exists i. }
  unfold to_numeric_series in Hf.
  rewrite !(ints_within_float _ _ cleaned f Hin) in Hf.
  apply astype_Int64_float_returns in Hf as [Hc _].
  rewrite forallb_forall in Hc.
  specialize (Hc f (in_map (to_float64_coerce E) _ _ Hin)).
  by rewrite fraction_not_castable in Hc.
Qed.

(** C1, at a report with one int column and the one cell ["10.5"]: the cell
    is cleaned to the float 10.5 with a warning, [astype("Int64")] raises on
    the column, naming [object], and the call returns an error result; with
    the integer 11 after the 10.5 in the column, the greatest value is whole,
    and [astype("Int64")] raises naming [float64].  Every call on a frame
    with an int column one cell of which parses to a number that is not whole
    returns an error result. *)
Theorem C1_fraction_in_int_column_is_an_error (E : pandas_ext) :
  _clean_value E (RStr (py "10.5")) (py "int") =
    ([WarnNotSafeInt (RStr (py "10.5")) (NFloat f10_5)], Returns (VFloat f10_5)) /\
  finalize E (py "a") (py "int") [VFloat f10_5] =
    ([], Raises (unsafe_cast "object")) /\
  finalize E (py "a") (py "int") [VFloat f10_5; VInt 11] =
    ([], Raises (unsafe_cast "float64")) /\
  clean_csv_data E (ReadFrame fraction_frame) (py "report.csv") fraction_dtypes =
    ([DebugRawHead fraction_frame; DebugRawDtypes [py "a"];
      DebugProcessing (py "a") (Some (py "int"));
      WarnNotSafeInt (RStr (py "10.5")) (NFloat f10_5);
      ErrorUnexpected (py "report.csv") (unsafe_cast "object")],
     ErrorDict (py "Error cleaning CSV: cannot safely cast non-equivalent object to int64")) /\
  (clean_csv_data E (ReadFrame mixed_frame) (py "report.csv") fraction_dtypes).2 =
    ErrorDict (py "Error cleaning CSV: cannot safely cast non-equivalent float64 to int64") /\
  (forall df csv_path dtypes name column t s,
     In (name, column) df -> tag_of dtypes name = Some t -> In t int_tags ->
     In (RStr s) column ->
     num_isna (to_numeric_coerce E (kept_text s)) = false ->
     (forall z, ~ num_is_Z (to_numeric_coerce E (kept_text s)) z) ->
     exists lg msg,
       clean_csv_data E (ReadFrame df) csv_path dtypes = (lg, ErrorDict msg)).
Proof.
  split; [vm_compute; reflexivity |]. split; [vm_compute; reflexivity |].
  split; [vm_compute; reflexivity |]. split; [vm_compute; reflexivity |].
  split; [vm_compute; reflexivity |].
  intros df csv_path dtypes name column t s Hcol Htag Ht Hcell Hna Hw.
  eapply fraction_fails_the_call; try done.
  intros (z & Hz). by apply (Hw z).
Qed.

(** ** Integers written as text, cleaned *)


(** ** Integers through binary64 *)

Lemma digits2_pos_log2 p : Zpos (digits2_pos p) = Z.log2 (Zpos p) + 1.
Proof.
  assert (H : digits2_pos p = Pos.size p).
  { induction p; simpl; congruence. }
  rewrite H. destruct p; simpl; lia.
Qed.

Lemma digits2_pos_bounds p :
  2 ^ (Zpos (digits2_pos p) - 1) <= Zpos p < 2 ^ Zpos (digits2_pos p).
Proof.
  rewrite digits2_pos_log2. replace (Z.log2 (Z.pos p) + 1 - 1) with (Z.log2 (Z.pos p)) by lia.
  replace (Z.log2 (Z.pos p) + 1) with (Z.succ (Z.log2 (Z.pos p))) by lia.
  apply Z.log2_spec. lia.
Qed.

Lemma Zdigits2_bound m : 0 <= m -> m < 2 ^ Zdigits2 m.
Proof.
  destruct m as [|p|p]; simpl; [lia | | lia].
  intros _. apply digits2_pos_bounds.
Qed.

Lemma shr_1_m mrs : 0 <= shr_m mrs -> shr_m (shr_1 mrs) = shr_m mrs / 2.
Proof.
  destruct mrs as [m r s]. cbn [shr_m]. intros Hm.
  destruct m as [|[p|p|]|p]; cbn [shr_1 shr_m];
    first [ reflexivity
          | apply Z.div_unique with 1; lia
          | apply Z.div_unique with 0; lia
          | lia ].
Qed.

Lemma pow2_xO p : 2 ^ Zpos p~0 = 2 ^ Zpos p * 2 ^ Zpos p.
Proof.
  replace (Zpos p~0) with (Zpos p + Zpos p) by lia.
  apply Z.pow_add_r; lia.
Qed.

Lemma pow2_xI p : 2 ^ Zpos p~1 = 2 * (2 ^ Zpos p * 2 ^ Zpos p).
Proof.
  replace (Zpos p~1) with (1 + (Zpos p + Zpos p)) by lia.
  rewrite !Z.pow_add_r by lia. lia.
Qed.

Lemma iter_pos_shr_m p mrs :
  0 <= shr_m mrs ->
  shr_m (SpecFloat.iter_pos shr_1 p mrs) = shr_m mrs / 2 ^ Zpos p.
Proof.
  revert mrs. induction p as [p IH | p IH |]; intros mrs Hm;
    cbn [SpecFloat.iter_pos].
  - assert (H1 : 0 <= shr_m (shr_1 mrs)).
    { rewrite shr_1_m by done. apply Z.div_pos; lia. }
    assert (H2 : 0 <= shr_m (SpecFloat.iter_pos shr_1 p (shr_1 mrs))).
    { rewrite IH by done. apply Z.div_pos; lia. }
    rewrite IH, IH, shr_1_m by done.
    rewrite !Z.div_div by lia. by rewrite pow2_xI.
  - assert (H2 : 0 <= shr_m (SpecFloat.iter_pos shr_1 p mrs)).
    { rewrite IH by done. apply Z.div_pos; lia. }
    rewrite IH, IH by done. rewrite !Z.div_div by lia. by rewrite pow2_xO.
  - by rewrite shr_1_m.
Qed.

Lemma shr_1_exact mrs :
  0 <= shr_m mrs -> exact_record mrs -> (2 | shr_m mrs) ->
  exact_record (shr_1 mrs).
Proof.
  destruct mrs as [m r s]. unfold exact_record. cbn [shr_m shr_r shr_s].
  intros Hm [-> ->] [q Hq].
  destruct m as [|[p|p|]|p]; cbn [shr_1 shr_r shr_s orb]; try done; lia.
Qed.

Lemma iter_pos_shr_exact p mrs :
  0 <= shr_m mrs -> exact_record mrs -> (2 ^ Zpos p | shr_m mrs) ->
  exact_record (SpecFloat.iter_pos shr_1 p mrs).
Proof.
  revert mrs. induction p as [p IH | p IH |]; intros mrs Hm Hex [q Hq];
    cbn [SpecFloat.iter_pos].
  - rewrite pow2_xI in Hq.
    assert (H1 : shr_m (shr_1 mrs) = q * (2 ^ Zpos p * 2 ^ Zpos p)).
    { rewrite shr_1_m by done. rewrite Hq. symmetry.
      apply Z.div_unique with 0; lia. }
    assert (Hp : 0 < 2 ^ Zpos p) by (apply Z.pow_pos_nonneg; lia).
    assert (H0 : 0 <= q) by nia.
    apply IH.
    + rewrite iter_pos_shr_m by lia. apply Z.div_pos; lia.
    + apply IH; [lia | | exists (q * 2 ^ Zpos p); lia].
      apply shr_1_exact; [done | done |]. exists (q * (2 ^ Zpos p * 2 ^ Zpos p)). lia.
    + rewrite iter_pos_shr_m by lia. rewrite H1. exists q.
      rewrite Z.mul_assoc. by rewrite Z.div_mul by lia.
  - rewrite pow2_xO in Hq.
    assert (Hp : 0 < 2 ^ Zpos p) by (apply Z.pow_pos_nonneg; lia).
    assert (H0 : 0 <= q) by nia.
    apply IH.
    + rewrite iter_pos_shr_m by lia. apply Z.div_pos; lia.
    + apply IH; [lia | done | exists (q * 2 ^ Zpos p); lia].
    + rewrite iter_pos_shr_m by lia. rewrite Hq. exists q.
      rewrite Z.mul_assoc. by rewrite Z.div_mul by lia.
  - apply shr_1_exact; [done | done |]. exists q. by rewrite Hq.
Qed.

Lemma fexp_ge x : x - 53 <= fexp prec emax x.
Proof. unfold fexp, emin, prec, emax. lia. Qed.

Lemma shr_exact_record m : exact_record (shr_record_of_loc m loc_Exact).
Proof. by split. Qed.

(** After [shr_fexp], the mantissa has at most 53 bits. *)
Lemma shr_fexp_bound m e l :
  0 <= m -> 0 <= shr_m (shr_fexp prec emax m e l).1 < 2 ^ 53.
Proof.
  intros Hm. unfold shr_fexp, shr.
  assert (Hrec : shr_m (shr_record_of_loc m l) = m) by (by destruct l as [|[]]).
  pose proof (fexp_ge (Zdigits2 m + e)) as Hf.
  pose proof (Zdigits2_bound m Hm) as Hd.
  destruct (fexp prec emax (Zdigits2 m + e) - e) as [|p|p] eqn:Hn;
    cbn [fst]; rewrite ?iter_pos_shr_m, Hrec by lia.
  - split; [done |]. eapply Z.lt_le_trans; [exact Hd |].
    apply Z.pow_le_mono_r; lia.
  - assert (0 < 2 ^ Zpos p) by (apply Z.pow_pos_nonneg; lia).
    split; [apply Z.div_pos; lia |].
    apply Z.div_lt_upper_bound; [lia |].
    rewrite <- Z.pow_add_r by lia.
    eapply Z.lt_le_trans; [exact Hd |]. apply Z.pow_le_mono_r; lia.
  - split; [done |]. eapply Z.lt_le_trans; [exact Hd |].
    apply Z.pow_le_mono_r; lia.
Qed.

Lemma round_nearest_even_nonneg m l : 0 <= m -> 0 <= round_nearest_even m l.
Proof.
  intros Hm. unfold round_nearest_even.
  destruct l as [|[]]; try lia. destruct (Z.even m); lia.
Qed.



Lemma Zdigits2_div_pow2 m n :
  0 < m -> 0 <= n -> 2 ^ n <= m ->
  Zdigits2 (m / 2 ^ n) = Zdigits2 m - n.
Proof.
  intros Hm Hn Hle.
  assert (Hq : 0 < m / 2 ^ n).
  { apply Z.div_str_pos. split; [apply Z.pow_pos_nonneg; lia | done]. }
  destruct m as [|p|p]; [lia | | lia].
  destruct (Z.pos p / 2 ^ n) as [|q|q] eqn:Hdiv; [lia | | lia].
  cbn [Zdigits2]. rewrite !digits2_pos_log2, <- Hdiv.
  rewrite <- Z.shiftr_div_pow2, Z.log2_shiftr by lia.
  assert (n <= Z.log2 (Z.pos p)) by (apply Z.log2_le_pow2; lia).
  lia.
Qed.

(** Rounding a mantissa that is aligned on its exponent, when the bits to
    drop are zero, drops them and changes nothing else. *)
Lemma binary_round_aux_aligned s (mz : positive) ez n :
  fexp prec emax (Zpos (digits2_pos mz) + ez) - ez = n ->
  0 <= n -> (2 ^ n | Zpos mz) ->
  Zpos (digits2_pos mz) - n = 53 -> ez + n <= emax - prec ->
  exists m', Zpos m' = Zpos mz / 2 ^ n /\
    binary_round_aux prec emax s (Zpos mz) ez loc_Exact
      = S754_finite s m' (ez + n).
Proof.
  intros Hn Hn0 [q Hq] Hd He.
  assert (Hp : 0 < 2 ^ n) by (apply Z.pow_pos_nonneg; lia).
  assert (Hq0 : 0 < q) by nia.
  assert (Hdiv : Zpos mz / 2 ^ n = q) by (rewrite Hq; apply Z.div_mul; lia).
  assert (Hle : 2 ^ n <= Zpos mz) by nia.
  assert (Hdq : Zdigits2 q = 53).
  { rewrite <- Hdiv, Zdigits2_div_pow2 by lia. cbn [Zdigits2]. lia. }
  assert (Hf2 : fexp prec emax (Zdigits2 q + (ez + n)) - (ez + n) = 0).
  { rewrite Hdq. replace (53 + (ez + n)) with (Zpos (digits2_pos mz) + ez) by lia.
    lia. }
  destruct q as [|m'|m']; [lia | | lia].
  exists m'. split; [done |].
  unfold binary_round_aux, shr_fexp at 1. cbn [Zdigits2]. rewrite Hn.
  cbn [shr_record_of_loc]. unfold shr at 1.
  destruct n as [|p|p]; [| |lia].
  - cbn [shr_m loc_of_shr_record round_nearest_even].
    rewrite Z.pow_0_r, Z.div_1_r in Hdiv. injection Hdiv as ->.
    unfold shr_fexp. rewrite Z.add_0_r in Hf2. rewrite Hf2.
    cbn [shr_record_of_loc shr shr_m].
    rewrite Z.add_0_r in He. apply Z.leb_le in He. rewrite He.
    by rewrite Z.add_0_r.
  - set (mrs := SpecFloat.iter_pos shr_1 p _).
    assert (Hm : shr_m mrs = Zpos m').
    { subst mrs. rewrite iter_pos_shr_m by (cbn; lia). cbn [shr_m]. done. }
    assert (Hex : exact_record mrs).
    { subst mrs. apply iter_pos_shr_exact; [cbn; lia | by split |].
      cbn [shr_m]. by exists (Zpos m'). }
    destruct mrs as [m1 r1 s1]. destruct Hex as [Hr Hs].
    cbn [shr_m shr_r shr_s] in *. subst m1 r1 s1.
    cbn [loc_of_shr_record round_nearest_even].
    unfold shr_fexp. rewrite Hf2. cbn [shr_record_of_loc shr shr_m].
    apply Z.leb_le in He. by rewrite He.
Qed.

Lemma shift_pos_value mx k :
  Zpos (Pos.iter xO mx k) = Zpos mx * 2 ^ Zpos k.
Proof.
  change (Pos.iter xO mx k) with (shift_pos k mx).
  rewrite shift_pos_correct.
  change (Zpower_pos 2 k) with (2 ^ Zpos k). lia.
Qed.

(** [float(z)] is [z] itself when [z] has at most 53 significant bits. *)
Lemma float_of_Z_exact z m k :
  z <> 0 -> Z.abs z = m * 2 ^ k -> 0 < m < 2 ^ 53 -> 0 <= k ->
  Z.abs z <= 2 ^ 63 ->
  float_eq_Z (float_of_Z z) z = true.
Proof.
  intros Hz Habs Hm Hk Hmax.
  assert (Hgen : forall s mx, Zpos mx = m * 2 ^ k -> Zpos mx <= 2 ^ 63 ->
            float_eq_Z (binary_round prec emax s mx 0) (signed s (Zpos mx)) = true).
  { clear z Hz Habs Hmax. intros s mx Hmx Hmax.
    unfold binary_round.
    pose proof (digits2_pos_bounds mx) as Hd.
    pose proof (digits2_pos_log2 mx) as Hl.
    set (d := Zpos (digits2_pos mx)) in *.
    assert (Hd64 : d <= 64).
    { destruct (Z.le_gt_cases d 64) as [|Hgt]; [done |].
      assert (2 ^ 64 <= 2 ^ (d - 1)) by (apply Z.pow_le_mono_r; lia). lia. }
    assert (Hfexp : fexp prec emax (d + 0) = d - 53).
    { unfold fexp, emin, prec, emax. lia. }
    rewrite Hfexp. unfold shl_align.
    destruct (d - 53 - 0) as [|p|p] eqn:Hsub.
    - (* 53 bits *)
      destruct (binary_round_aux_aligned s mx 0 0) as (m' & Hm' & ->).
      + fold d. rewrite Hfexp. lia.
      + lia.
      + exists (Zpos mx). lia.
      + fold d. lia.
      + unfold emax, prec. lia.
      + rewrite Z.pow_0_r, Z.div_1_r in Hm'. cbn [float_eq_Z Z.add].
        replace (0 <=? 0) with true by done. rewrite Hm'.
        rewrite Z.pow_0_r, Z.mul_1_r. apply Z.eqb_refl.
    - (* more than 53 bits *)
      assert (Hdiv : (2 ^ Zpos p | Zpos mx)).
      { assert (Hpk : Zpos p <= k).
        { destruct (Z.le_gt_cases (Zpos p) k) as [|Hgt]; [done |].
          assert (2 ^ (53 + k) <= 2 ^ (d - 1)) by (apply Z.pow_le_mono_r; lia).
          rewrite Z.pow_add_r in * by lia.
          assert (0 < 2 ^ k) by (apply Z.pow_pos_nonneg; lia). nia. }
        exists (m * 2 ^ (k - Zpos p)). rewrite Hmx, <- Z.mul_assoc.
        rewrite <- Z.pow_add_r by lia. f_equal. f_equal. lia. }
      destruct (binary_round_aux_aligned s mx 0 (Zpos p)) as (m' & Hm' & ->).
      + fold d. rewrite Hfexp. lia.
      + lia.
      + done.
      + fold d. lia.
      + unfold emax, prec. lia.
      + cbn [float_eq_Z Z.add]. replace (0 <=? Zpos p) with true by done.
        rewrite Hm'. destruct Hdiv as [q Hq]. rewrite Hq.
        rewrite Z.div_mul by (apply Z.pow_nonzero; lia). apply Z.eqb_refl.
    - (* fewer than 53 bits *)
      destruct (binary_round_aux_aligned s (Pos.iter xO mx p) (d - 53) 0)
        as (m' & Hm' & ->).
      + rewrite digits2_pos_log2, shift_pos_value, Z.log2_mul_pow2 by lia.
        unfold fexp, emin, prec, emax. lia.
      + lia.
      + exists (Zpos (Pos.iter xO mx p)). lia.
      + rewrite digits2_pos_log2, shift_pos_value, Z.log2_mul_pow2 by lia.
        lia.
      + unfold emax, prec. lia.
      + rewrite Z.pow_0_r, Z.div_1_r in Hm'. cbn [float_eq_Z].
        replace (0 <=? d - 53 + 0) with false by (symmetry; apply Z.leb_gt; lia).
        rewrite Hm', shift_pos_value.
        replace (- (d - 53 + 0)) with (Zpos p) by lia.
        destruct s; cbn [signed]; apply Z.eqb_eq; lia. }
  unfold float_of_Z, binary_normalize. destruct z as [|mx|mx]; [done | |].
  - apply (Hgen false mx); simpl in *; lia.
  - apply (Hgen true mx); simpl in *; lia.
Qed.


(** ** What a numeric tag reads *)

Lemma float_of_Z_small z :
  Z.abs z <= 2 ^ 53 -> float_eq_Z (float_of_Z z) z = true.
Proof.
  intros Hz. destruct (decide (z = 0)) as [-> | Hne]; [done |].
  destruct (decide (Z.abs z = 2 ^ 53)) as [He | He].
  - apply (float_of_Z_exact z (2 ^ 52) 1); lia.
  - apply (float_of_Z_exact z (Z.abs z) 0); lia.
Qed.




(** ** Cleaning the records again *)

Lemma mapM_pure {A B} (f : A -> M B) (g : A -> B) l :
  Forall (fun x => f x = ([], Returns (g x))) l ->
  mapM f l = ([], Returns (map g l)).
Proof.
  induction 1 as [|x r Hx _ IH]; simpl; [done |]. by rewrite Hx, IH.
Qed.



Lemma clean_value_str_text E s t :
  In t str_tags -> strip s <> [] ->
  _clean_value E (RStr s) t = ([], Returns (VStr (strip s))).
Proof.
  intros Ht Hs. destruct (clean_value_str E (RStr s) t Ht)
    as [H | (s' & [= <-] & _ & H)]; [|done].
  rewrite clean_value_text in H by done. cbv zeta in H.
  assert (H1 : str_in t (int_tags ++ float_tags) = false).
  { apply str_in_false. intros Hi. apply in_app_or in Hi as [Hi | Hi].
    - by apply (int_str_disjoint t).
    - by apply (float_str_disjoint t). }
  apply str_in_true in Ht. rewrite H1, Ht in H. discriminate H.
Qed.


Lemma astype_Int64_inv E col series :
  astype_Int64 (to_numeric_series E col) = Returns series ->
  (exists zs, col = map VInt zs /\ series = map VInt zs /\
     Forall (fun z => INT64_MIN <= z <= INT64_MAX) zs) \/
  (series = map (fun c => float_to_Int64 (to_float64_coerce E c)) col /\
   Forall (fun c => int64_castable (to_float64_coerce E c) = true) col).
Proof.
  unfold to_numeric_series.
  destruct (ints_within INT64_MIN INT64_MAX col) as [zs|] eqn:H1.
  { intros [= <-]. apply ints_within_spec in H1 as [-> Hall]. left. by exists zs. }
  destruct (ints_within 0 UINT64_MAX col) as [zs|] eqn:H2; [done |].
  intros [Hc ->]%astype_Int64_float_returns.
  right. split; [by rewrite map_map |].
  rewrite forallb_forall in Hc. apply Forall_forall. intros c Hin.
  apply Hc, in_map. by apply list_elem_of_In.
Qed.




Lemma bind_pure {A B} (a : A) (k : A -> M B) : bind ([], Returns a) k = k a.
Proof. unfold bind. by destruct (k a). Qed.


(** The log of the loop is made of the logs of its columns. *)
Lemma clean_columns_logs E dtypes (P : log_record -> Prop) cols acc lg o :
  (forall name column l o', In (name, column) cols ->
     clean_column E dtypes name column = (l, o') -> Forall P l) ->
  clean_columns E dtypes cols acc = (lg, o) -> Forall P lg.
Proof.
  revert acc lg. induction cols as [|[name column] rest IH]; simpl;
    intros acc lg HP H.
  - injection H as <- _. constructor.
  - unfold bind in H.
    destruct (clean_column E dtypes name column) as [l1 [series | e]] eqn:Hc.
    + destruct (clean_columns E dtypes rest (dict_set name series acc))
        as [l2 o2] eqn:Hr.
      injection H as <- <-. apply Forall_app. split.
      * eapply HP; [by left | done].
      * eapply IH; [|exact Hr]. intros. eapply HP; [by right | done].
    + injection H as <- <-. eapply HP; [by left | done].
Qed.

Section Reclean.
Variable E : pandas_ext.







End Reclean.

(** ** The frame read back from the records *)



Lemma rows_of_unfold cd :
  rows_of cd =
    map (fun i => map (fun d : pystr * list pyval =>
                         (d.1, final (nth i d.2 (VFloat S754_nan)))) cd)
        (seq 0 (n_rows cd)).
Proof.
  unfold rows_of, to_dict_records. rewrite map_map. apply map_ext.
  intros i. unfold processed_row, row_at. by rewrite map_map.
Qed.




(** When each column returns, the loop returns the series in order. *)
Lemma clean_columns_all E dtypes cols acc news :
  NoDup (map fst acc ++ map fst cols) ->
  Forall2 (fun (c : pystr * list raw) (d : pystr * list pyval) =>
             d.1 = c.1 /\
             exists l, clean_column E dtypes c.1 c.2 = (l, Returns d.2)) cols news ->
  exists lg, clean_columns E dtypes cols acc = (lg, Returns (acc ++ news)).
Proof.
  intros Hnd H. revert acc Hnd.
  induction H as [|[name column] [k series] cs ds (Hk & l & Hc) _ IH]; simpl;
    intros acc Hnd.
  - exists []. by rewrite app_nil_r.
  - simpl in *. subst k. rewrite Hc.
    apply NoDup_app in Hnd as (H1 & H2 & H3).
    apply NoDup_cons in H3 as [H3 H4].
    destruct (IH (acc ++ [(name, series)])) as (lg & Hlg).
    + rewrite map_app. simpl. rewrite <- app_assoc. simpl.
      apply NoDup_app. split; [done |]. split; [|by apply NoDup_cons].
      intros k Hk Hk'. apply elem_of_cons in Hk' as [-> | Hk'].
      * apply (H2 name Hk). left.
      * apply (H2 k Hk). by right.
    + exists (l ++ lg). unfold bind. rewrite dict_set_fresh.
      2:{ intros Hin. apply (H2 name); [by apply list_elem_of_In | left]. }
      by rewrite Hlg, <- app_assoc.
Qed.



Lemma in_rows_of (cd : dict (list pyval)) n d y :
  cd <> [] -> Forall (fun d => length d.2 = n) cd ->
  In d cd -> In y d.2 ->
  exists row, In row (rows_of cd) /\ In (d.1, final y) row.
Proof.
  intros Hne Hlen Hd Hy.
  apply list_elem_of_In, list_elem_of_lookup in Hy as (j & Hj).
  assert (Hn : n_rows cd = length d.2).
  { rewrite (n_rows_uniform cd n) by done.
    rewrite Forall_forall in Hlen. symmetry. apply Hlen.
    by apply list_elem_of_In. }
  exists (map (fun d' : pystr * list pyval =>
                 (d'.1, final (nth j d'.2 (VFloat S754_nan)))) cd).
  split.
  - rewrite rows_of_unfold. apply in_map_iff. exists j. split; [done |].
    apply in_seq. rewrite Hn. apply lookup_lt_Some in Hj. lia.
  - apply in_map_iff. exists d. split; [|done].
    by rewrite (nth_lookup_Some _ _ _ _ Hj).
Qed.




(** A float that prints in exponent notation does not read back: 0.00001 is
    written ["1e-05"], of which the filter keeps ["1-05"], and is [None] on
    the second run. *)
Lemma exponent_notation_is_lost E :
  _clean_value E (RStr (py "0.00001")) (py "float")
    = ([], Returns (VFloat f1e_5)) /\
  float_repr f1e_5 = py "1e-05" /\
  re_sub_non_numeric (py "1e-05") = py "1-05" /\
  _clean_value E (as_text (VFloat f1e_5)) (py "float") = ([], Returns VNone).
Proof. repeat split; vm_compute; reflexivity. Qed.

(** * Further properties of the code *)

(** ** Integer numerals *)

Lemma kept_text_nonempty s : kept_text s <> [] -> strip s <> [].
Proof. unfold kept_text. intros H Hs. by rewrite Hs in H. Qed.

Lemma int_str_nonempty z : int_str z <> [].
Proof.
  unfold int_str. destruct z as [|p|p]; simpl; [done | | done].
  apply uint_chars_pos_nonempty.
Qed.

(** X1. Under a numeric tag only the kept characters count: when they are
    the decimal text of an integer [z] from [-2^63] to [2^64 - 1], the cell
    is cleaned to the int [z] under an int tag and to [float(z)] under a
    float tag, and nothing is logged. *)
Theorem X1_integer_numeral_survives_noise (E : pandas_ext) (s t : pystr) (z : Z) :
  kept_text s = int_str z -> INT64_MIN <= z <= UINT64_MAX ->
  (In t int_tags -> _clean_value E (RStr s) t = ([], Returns (VInt z))) /\
  (In t float_tags ->
   _clean_value E (RStr s) t = ([], Returns (VFloat (float_of_Z z)))).
Proof.
  intros Hk Hz. unfold kept_text in Hk. split; intros Ht.
  - apply clean_value_int_whole; [done | |];
      rewrite Hk, int_str_reads_back by done; [done | apply Z.eqb_refl].
  - rewrite (clean_value_float E s t Ht);
      rewrite Hk, int_str_reads_back by done; done.
Qed.

(** X1 at the text ["$1,000"] under ["int"]. *)
Lemma X1_witness :
  _clean_value bare_pandas (RStr (py "$1,000")) (py "int")
  = ([], Returns (VInt 1000)).
Proof.
  apply (X1_integer_numeral_survives_noise bare_pandas (py "$1,000") (py "int") 1000).
  - vm_compute. reflexivity.
  - unfold INT64_MIN, UINT64_MAX. lia.
  - left. reflexivity.
Defined.

(** ** Numerals *)

Lemma digit_not_minus c : is_digit c -> c <> 45%N.
Proof. unfold is_digit. lia. Qed.

Lemma digit_not_point c : is_digit c -> c <> 46%N.
Proof. unfold is_digit. lia. Qed.

(** A numeral has no ['-'] past its first character. *)
Lemma numeral_minus a b : a <> [] -> ~ numeral (a ++ 45%N :: b).
Proof.
  intros Ha (neg & ip & fp & Hs & Hip & Hfr & _).
  assert (Hrest : Forall (fun c => c <> 45%N)
                    (ip ++ match fp with Some fr => 46%N :: fr | None => [] end)).
  { apply Forall_app. split.
    - eapply Forall_impl; [exact Hip |]. apply digit_not_minus.
    - destruct fp as [fr|]; [|constructor]. constructor; [done |].
      eapply Forall_impl; [exact Hfr |]. apply digit_not_minus. }
  destruct a as [|c a]; [done |].
  assert (Hin : In 45%N (a ++ 45%N :: b)) by (apply in_or_app; right; by left).
  destruct neg; simpl in Hs.
  - injection Hs as _ Hs. rewrite Hs in Hin.
    rewrite Forall_forall in Hrest. apply list_elem_of_In in Hin. by apply (Hrest _ Hin).
  - assert (Hin' : In 45%N (c :: a ++ 45%N :: b)) by (by right).
    rewrite Hs in Hin'.
    rewrite Forall_forall in Hrest. apply list_elem_of_In in Hin'. by apply (Hrest _ Hin').
Qed.


Lemma points_app a b : points (a ++ b) = (points a + points b)%nat.
Proof. unfold points. by rewrite List.filter_app, length_app. Qed.

Lemma points_digits s : Forall is_digit s -> points s = 0%nat.
Proof.
  unfold points. induction 1 as [|c r Hc _ IH]; [done |].
  cbn [List.filter]. replace ((46 =? c)%N) with false; [done |].
  symmetry. apply N.eqb_neq. unfold is_digit in Hc. lia.
Qed.

Lemma points_cons c s :
  points (c :: s) = ((if (c =? 46)%N then 1 else 0) + points s)%nat.
Proof.
  unfold points. cbn [List.filter]. rewrite (N.eqb_sym 46 c).
  by destruct (c =? 46)%N.
Qed.

(** A numeral has at most one ['.']. *)
Lemma numeral_points a b c : ~ numeral (a ++ 46%N :: b ++ 46%N :: c).
Proof.
  intros (neg & ip & fp & Hs & Hip & Hfr & _).
  apply (f_equal points) in Hs.
  rewrite !points_app, points_cons, points_app, points_cons in Hs.
  rewrite (points_digits ip) in Hs by done.
  assert (Hsign : points (if neg then [45%N] else []) = 0%nat) by (by destruct neg).
  rewrite Hsign in Hs. simpl in Hs.
  destruct fp as [fr|]; simpl in Hfr.
  - rewrite points_cons, (points_digits fr) in Hs by done. simpl in Hs. lia.
  - change (points []) with 0%nat in Hs. lia.
Qed.

Section Numerals.
Variable E : pandas_ext.

(** Under a numeric tag a cell is a number or [None], and a number only when
    it parses. *)
Lemma clean_value_numeric s t lg v :
  In t numeric_tags -> _clean_value E (RStr s) t = (lg, Returns v) ->
  v = VNone \/
  (strip s <> [] /\
   num_isna (to_numeric_coerce E (kept_text s)) = false /\
   ((exists z, In t int_tags /\ v = VInt z /\
       num_eq_Z (to_numeric_coerce E (kept_text s)) z = true) \/
    (exists f, In t int_tags /\ to_numeric_coerce E (kept_text s) = NFloat f /\
       v = VFloat f /\ ~ whole (NFloat f)) \/
    (In t float_tags /\ v = VFloat (num_float (to_numeric_coerce E (kept_text s)))))).
Proof.
  intros Ht H. unfold kept_text.
  destruct (decide (strip s = [])) as [Hs | Hs].
  { rewrite clean_value_blank in H by (by apply strip_empty_iff).
    injection H as _ <-. by left. }
  set (n := to_numeric_coerce E (re_sub_non_numeric (strip s))) in *.
  destruct (num_isna n) eqn:Hna.
  { rewrite clean_value_unparsed in H; [| done | done | by right; right].
    injection H as _ <-. by left. }
  right. split; [done |]. split; [done |].
  apply in_app_or in Ht as [Ht | Ht].
  - destruct (num_round_cases n Hna) as [[r Hr] | (b & Hb & _)].
    2:{ by rewrite (clean_value_int_infinity E s t b Ht Hb) in H. }
    assert (Hfin : forall b, n <> NFloat (S754_infinity b)).
    { intros b Hb. by rewrite Hb in Hr. }
    destruct (num_eq_Z n r) eqn:Heq.
    + rewrite (clean_value_int_whole E s t r) in H by done.
      injection H as _ <-. left. by exists r.
    + assert (Hw : ~ whole n).
      { intros (z & Hz%num_eq_Z_is). destruct (num_eq_Z_exact _ _ Hz) as [Hr' _].
        assert (z = r) by congruence. subst z. congruence. }
      destruct (clean_value_int_fraction E s t Ht Hna Hfin Hw) as (f & Hf & Hc).
      rewrite Hc in H. injection H as _ <-. right; left. exists f.
      fold n in Hf. rewrite Hf in Hw. done.
  - rewrite (clean_value_float E s t Ht Hna) in H. injection H as _ <-.
    right; right. done.
Qed.
End Numerals.

(** X2. Under a numeric tag a cell is cleaned to a number only when its
    kept characters are a numeral: an optional ['-'], digits, and optionally
    one ['.'] and more digits.  A ['-'] past the first kept character, or a
    second ['.'], makes the cell [None]: so do a date such as 2024-01-15 and
    a range such as 10-20. *)
Theorem X2_only_numerals_become_numbers (E : pandas_ext) (s t : pystr) lg v :
  In t numeric_tags -> _clean_value E (RStr s) t = (lg, Returns v) ->
  (v <> VNone -> numeral (kept_text s)) /\
  (forall a b, a <> [] -> kept_text s = a ++ 45%N :: b -> v = VNone) /\
  (forall a b c, kept_text s = a ++ 46%N :: b ++ 46%N :: c -> v = VNone).
Proof.
  intros Ht H.
  destruct (clean_value_numeric E s t lg v Ht H) as [-> | (_ & Hna & _)];
    [done |].
  apply (to_numeric_coerce_numeral E) in Hna.
  split; [done |]. split.
  - intros a b Ha Hk. exfalso. apply (numeral_minus a b Ha). by rewrite <- Hk.
  - intros a b c Hk. exfalso. apply (numeral_points a b c). by rewrite <- Hk.
Qed.

(** X2 at the texts ["1,000"], a numeral once filtered, and
    ["2024-01-15"], which is cleaned to [None]. *)
Lemma X2_witness :
  numeral (kept_text (py "1,000")) /\
  _clean_value bare_pandas (RStr (py "2024-01-15")) (py "int")
  = ([], Returns VNone).
Proof.
  split.
  - apply (X2_only_numerals_become_numbers bare_pandas (py "1,000") (py "int")
             [] (VInt 1000)); [by left | vm_compute; reflexivity | done].
  - vm_compute. reflexivity.
Defined.


(** ** The sign of a number *)

Lemma binary_round_aux_side s m e l :
  0 <= m -> float_on_side s (binary_round_aux prec emax s m e l).
Proof.
  intros Hm. unfold binary_round_aux.
  pose proof (shr_fexp_bound m e l Hm) as H1.
  destruct (shr_fexp prec emax m e l) as [mrs1 e1]. cbn [fst] in H1.
  pose proof (shr_fexp_bound
                (round_nearest_even (shr_m mrs1) (loc_of_shr_record mrs1))
                e1 loc_Exact
                (round_nearest_even_nonneg _ _ (proj1 H1))) as H2.
  destruct (shr_fexp prec emax _ e1 loc_Exact) as [mrs2 e2]. cbn [fst] in H2.
  destruct (shr_m mrs2) as [|p|p]; [done | | lia].
  by destruct (e2 <=? emax - prec).
Qed.

Lemma float_of_Z_side neg z :
  int_on_side neg z -> float_on_side neg (float_of_Z z).
Proof.
  unfold float_of_Z, binary_normalize, binary_round, int_on_side.
  destruct z as [|p|p]; [done | |]; intros Hz;
    destruct (shl_align _ _ _) as [mz ez].
  - destruct neg; [lia |]. apply binary_round_aux_side. lia.
  - destruct neg; [|lia]. apply binary_round_aux_side. lia.
Qed.

Lemma float_of_decimal_side neg m k :
  float_on_side neg (float_of_decimal neg m k).
Proof.
  unfold float_of_decimal. destruct m as [|p|p]; [done | | done].
  unfold SFdiv.
  destruct (SFdiv_core_binary _ _ _ _ _ _) as [[mz ez] lz] eqn:Hd.
  replace (xorb neg false) with neg by (by destruct neg).
  apply binary_round_aux_side.
  unfold SFdiv_core_binary in Hd.
  set (m' := match _ with 0 => _ | _ => _ end) in Hd.
  assert (Hm' : 0 <= m').
  { subst m'. destruct (_ - _ - _) as [|q|q]; [lia | | lia].
    apply Z.shiftl_nonneg. lia. }
  set (d := Z.to_pos (10 ^ Z.of_nat k)) in *.
  pose proof (Z.div_eucl_eq m' (Zpos d) ltac:(lia)) as He.
  pose proof (Z.mod_pos_bound m' (Zpos d) ltac:(lia)) as Hr.
  unfold Z.modulo in Hr.
  change IntDef.Z.div_eucl with Z.div_eucl in Hd.
  destruct (Z.div_eucl m' (Zpos d)) as [q r]. injection Hd as <- _ _. nia.
Qed.

Lemma with_sign_side neg f :
  float_isnan (with_sign neg f) = true \/ float_on_side neg (with_sign neg f).
Proof. destruct f; simpl; auto. Qed.

(** The sign of what [to_numeric_coerce] reads is the sign written. *)
Lemma to_numeric_coerce_side E s :
  match to_numeric_coerce E s with
  | NInt z => int_on_side (leading_minus s) z
  | NFloat f => float_isnan f = true \/ float_on_side (leading_minus s) f
  end.
Proof.
  unfold to_numeric_coerce.
  set (nb := match s with [] => _ | _ => _ end).
  assert (Hneg : nb.1 = leading_minus s).
  { subst nb. destruct s as [|c r]; [done |]. simpl. by destruct (c =? 45)%N. }
  destruct nb as [neg body]. simpl in Hneg. subst neg.
  destruct (split_point body) as [ip fp].
  destruct (digits_value 0 ip) as [i|] eqn:Hi; [|by left].
  apply digits_value_nonneg in Hi; [|done].
  destruct fp as [fr|].
  - destruct (digits_value 0 (ip ++ fr)) as [m|] eqn:Hm; [|by left].
    case_bool_decide; [by left |].
    destruct (_ <=? _)%nat; [right; apply float_of_decimal_side |].
    apply with_sign_side.
  - case_bool_decide; [by left |].
    destruct (_ && _).
    + unfold int_on_side, signed. destruct (leading_minus s); lia.
    + apply with_sign_side.
Qed.

Lemma float_eq_Z_side neg f z :
  float_on_side neg f -> float_eq_Z f z = true -> int_on_side neg z.
Proof.
  destruct f as [s | s | | s m e]; simpl; try done.
  - intros _ H%Z.eqb_eq. subst. unfold int_on_side. destruct neg; lia.
  - intros ->. unfold int_on_side. destruct (0 <=? e) eqn:He.
    + intros H%Z.eqb_eq. apply Z.leb_le in He.
      assert (0 < 2 ^ e) by (apply Z.pow_pos_nonneg; lia).
      destruct neg; simpl in H; nia.
    + intros H%Z.eqb_eq. apply Z.leb_gt in He.
      assert (0 < 2 ^ (- e)) by (apply Z.pow_pos_nonneg; lia).
      destruct neg; simpl in H; nia.
Qed.

(** X3. Under a numeric tag the sign of the number is read from the first
    kept character alone: without a leading ['-'] the cell is [None], an int
    that is not negative or a float that is not negative, and with one it is
    [None], an int that is not positive or a float that is not positive.  A
    negative amount written in parentheses is read as positive. *)
Theorem X3_sign_comes_from_leading_minus (E : pandas_ext) (s t : pystr) lg v :
  In t numeric_tags -> _clean_value E (RStr s) t = (lg, Returns v) ->
  v = VNone \/
  (exists z, v = VInt z /\ int_on_side (leading_minus (kept_text s)) z) \/
  (exists f, v = VFloat f /\ float_on_side (leading_minus (kept_text s)) f).
Proof.
  intros Ht H.
  destruct (clean_value_numeric E s t lg v Ht H)
    as [-> | (_ & Hna & Hv)]; [by left |].
  right. pose proof (to_numeric_coerce_side E (kept_text s)) as Hside.
  destruct Hv as [(z & _ & -> & Hz) | [(f & _ & Hn & -> & _) | [_ ->]]].
  - left. exists z. split; [done |].
    destruct (to_numeric_coerce E (kept_text s)) as [x | f]; simpl in *.
    + apply Z.eqb_eq in Hz. by subst.
    + destruct Hside as [Hnan | Hside]; [congruence |].
      by eapply float_eq_Z_side.
  - right. exists f. split; [done |]. rewrite Hn in Hside, Hna. simpl in Hna.
    destruct Hside as [Hnan | Hside]; [congruence | done].
  - right. eexists. split; [done |].
    destruct (to_numeric_coerce E (kept_text s)) as [x | f]; simpl in *.
    + by apply float_of_Z_side.
    + destruct Hside as [Hnan | Hside]; [congruence | done].
Qed.

(** X3 at the text ["(1,234.50)"] under ["float"]: the float 1234.5, not
    negative. *)
Lemma X3_witness :
  VFloat f1234_5 = VNone \/
  (exists z, VFloat f1234_5 = VInt z /\
     int_on_side (leading_minus (kept_text (py "(1,234.50)"))) z) \/
  (exists f, VFloat f1234_5 = VFloat f /\
     float_on_side (leading_minus (kept_text (py "(1,234.50)"))) f).
Proof.
  apply (X3_sign_comes_from_leading_minus bare_pandas (py "(1,234.50)")
           (py "float") []).
  - right. right. left. reflexivity.
  - vm_compute. reflexivity.
Defined.


(** ** What a call logs *)

Lemma mapM_log {A B} (f : A -> M B) (Q : log_record -> Prop) l lg o :
  (forall x l' o', In x l -> f x = (l', o') -> Forall Q l') ->
  mapM f l = (lg, o) -> Forall Q lg.
Proof.
  revert lg o. induction l as [|x r IH]; simpl; intros lg o Hf H.
  - injection H as <- _. constructor.
  - unfold bind in H. destruct (f x) as [l1 [y | e]] eqn:Hx.
    + destruct (mapM f r) as [l2 [ys | e]] eqn:Hr; simpl in H;
        injection H as <- _; rewrite ?app_nil_r; apply Forall_app; split.
      * eapply Hf; [by left | done].
      * eapply IH; [|done]. intros. eapply Hf; [by right | done].
      * eapply Hf; [by left | done].
      * eapply IH; [|done]. intros. eapply Hf; [by right | done].
    + injection H as <- _. eapply Hf; [by left | done].
Qed.

Lemma mapM_returns_each {A B} (f : A -> M B) l lg ys x :
  mapM f l = (lg, Returns ys) -> In x l ->
  exists l' y, f x = (l', Returns y) /\ In y ys.
Proof.
  intros Hm%mapM_returns Hin.
  apply list_elem_of_In, list_elem_of_lookup in Hin as (i & Hi).
  destruct (Forall2_lookup_l _ _ _ _ _ Hm Hi) as (y & Hy & l' & Hx).
  exists l', y. split; [done |].
  apply list_elem_of_In, list_elem_of_lookup. by exists i.
Qed.

Lemma above_debug_Forall (P : log_record -> Prop) lg :
  Forall (fun r => is_debug r = true \/ P r) lg -> Forall P (above_debug lg).
Proof.
  induction 1 as [|r lg [Hr | Hr] _ IH]; simpl; [constructor | ..].
  - by rewrite Hr.
  - destruct (is_debug r); simpl; [done | by constructor].
Qed.

Lemma astype_Int64_raises_cast E col e :
  astype_Int64 (to_numeric_series E col) = Raises e -> int_column_error e.
Proof.
  unfold int_column_error.
  destruct (to_numeric_series E col) as [zs | zs | fs]; [done | |].
  - intros [= <-]. by left.
  - intros [_ H]%astype_Int64_float_raises. tauto.
Qed.

Section ColumnLogs.
Variable E : pandas_ext.
Variable dtypes : gmap pystr pystr.

(** The log of a cell: nothing, or one warning, by the family of the tag. *)
Lemma clean_value_log value t l v :
  _clean_value E value t = (l, Returns v) ->
  l = [] \/
  (In t int_tags /\ exists n f, l = [WarnNotSafeInt value n] /\ v = VFloat f /\
     float_isnan f = false /\ ~ whole (NFloat f)) \/
  (~ In t (numeric_tags ++ str_tags) /\
   exists s e, l = [WarnCellConversion s t e]).
Proof.
  intros H. destruct (clean_value_cases E value t) as [H0 | (s & -> & Hs)].
  { rewrite H0 in H. injection H as <- _. by left. }
  destruct (decide (In t int_tags)) as [Hi | Hi].
  { set (n := to_numeric_coerce E (re_sub_non_numeric (strip s))).
    destruct (num_isna n) eqn:Hna.
    { rewrite clean_value_unparsed in H; [| | done | by right; right].
      - injection H as <- _. by left.
      - apply in_or_app. by left. }
    destruct (num_round_cases n Hna) as [[r Hr] | (b & Hb & _)].
    2:{ by rewrite (clean_value_int_infinity E s t b Hi Hb) in H. }
    assert (Hfin : forall b, n <> NFloat (S754_infinity b)).
    { intros b Hb. by rewrite Hb in Hr. }
    destruct (num_eq_Z n r) eqn:Heq.
    - rewrite (clean_value_int_whole E s t r) in H by done.
      injection H as <- _. by left.
    - assert (Hw : ~ whole n).
      { intros (z & Hz%num_eq_Z_is). destruct (num_eq_Z_exact _ _ Hz) as [Hr' _].
        assert (z = r) by congruence. subst z. congruence. }
      destruct (clean_value_int_fraction E s t Hi Hna Hfin Hw) as (f & Hf & Hc).
      rewrite Hc in H. injection H as <- <-. right; left. split; [done |].
      exists n, f. fold n in Hf. rewrite Hf in Hna, Hw. done. }
  destruct (decide (In t float_tags)) as [Hf | Hf].
  { destruct (clean_value_float_shape E (RStr s) t Hf) as (v' & H' & _).
    rewrite H' in H. injection H as <- _. by left. }
  destruct (decide (In t str_tags)) as [Hst | Hst].
  { rewrite clean_value_str_text in H by done. injection H as <- _. by left. }
  assert (Ho : ~ In t (numeric_tags ++ str_tags)).
  { unfold numeric_tags. rewrite !in_app_iff. tauto. }
  rewrite clean_value_other in H by done.
  destruct (astype_scalar E t (strip s)) as [v' | e].
  - injection H as <- _. by left.
  - injection H as <- _. right; right. split; [done |]. by eexists _, _.
Qed.

(** The Value Normalizer logs no DEBUG record. *)
Lemma clean_value_no_debug value t l o :
  _clean_value E value t = (l, o) -> Forall (fun r => is_debug r = false) l.
Proof.
  destruct o as [v | e]; intros H.
  - destruct (clean_value_log value t l v H)
      as [-> | [(_ & n & f & -> & _) | (_ & s & e & ->)]];
      by repeat constructor.
  - apply clean_value_raises in H as (_ & -> & _). constructor.
Qed.

(** Nor does the finalization. *)
Lemma finalize_no_debug name t c l o :
  finalize E name t c = (l, o) -> Forall (fun r => is_debug r = false) l.
Proof.
  destruct (decide (In t int_tags)) as [Hi | Hi].
  { rewrite finalize_int by done. intros [= <- _]. constructor. }
  destruct (decide (In t float_tags)) as [Hf | Hf].
  { rewrite finalize_float by done. intros [= <- _]. constructor. }
  destruct (decide (In t str_tags)) as [Hs | Hs].
  { rewrite finalize_str by done. intros [= <- _]. constructor. }
  rewrite finalize_other.
  2:{ unfold numeric_tags. rewrite !in_app_iff. tauto. }
  destruct (str_in t datetime_tags).
  - destruct (to_datetime_coerce E c); simpl; intros [= <- _];
      by repeat constructor.
  - destruct (series_astype E t c); simpl; intros [= <- _];
      by repeat constructor.
Qed.

(** The log of the loop body: the DEBUG record that shows the tag, and after
    it no other record of this kind. *)
Lemma clean_column_log_shape name column l o :
  clean_column E dtypes name column = (l, o) ->
  exists l0, l = DebugProcessing name (dtypes !! name) :: l0 /\
    Forall (fun r => ~ is_processing r) l0.
Proof.
  intros (l0 & -> & H)%clean_column_inv. exists l0. split; [done |].
  destruct (tag_of dtypes name) as [t|].
  - assert (Hall : Forall (fun r => is_debug r = false) l0).
    { unfold bind in H.
      destruct (mapM _ column) as [l1 [c | e]] eqn:Hm.
      - destruct (finalize E name t c) as [l2 o2] eqn:Hf.
        injection H as <- _. apply Forall_app. split.
        + eapply mapM_log; [|exact Hm]. intros x l' o' _ Hx.
          by apply clean_value_no_debug in Hx.
        + by apply finalize_no_debug in Hf.
      - injection H as <- _. eapply mapM_log; [|exact Hm].
        intros x l' o' _ Hx. by apply clean_value_no_debug in Hx. }
    eapply Forall_impl; [exact Hall |]. intros r Hr Hp. by destruct r.
  - destruct H as [-> _]. constructor; [|constructor]. by intros [].
Qed.
End ColumnLogs.

Section SeriesLogs.
Variable E : pandas_ext.
Variable dtypes : gmap pystr pystr.

(** A float left in the cleaned series of an int column makes
    [astype("Int64")] raise. *)
Lemma fraction_in_series cleaned f :
  In (VFloat f) cleaned -> float_isnan f = false -> ~ whole (NFloat f) ->
  exists e, astype_Int64 (to_numeric_series E cleaned) = Raises e.
Proof.
  intros Hin Hnan Hw.
  destruct (astype_Int64 (to_numeric_series E cleaned)) as [series | e] eqn:H;
    [|by eexists].
  exfalso. unfold to_numeric_series in H.
  rewrite !(ints_within_float _ _ cleaned f Hin) in H.
  apply astype_Int64_float_returns in H as [Hc _].
  rewrite forallb_forall in Hc.
  specialize (Hc f (in_map (to_float64_coerce E) _ _ Hin)).
  by rewrite fraction_not_castable in Hc.
Qed.

(** The cells of an int column whose finalization returns were cleaned
    without a warning. *)
Lemma int_series_log t column l cleaned series :
  In t int_tags ->
  mapM (fun x => _clean_value E x t) column = (l, Returns cleaned) ->
  astype_Int64 (to_numeric_series E cleaned) = Returns series ->
  l = [].
Proof.
  intros Ht Hm Hf.
  assert (Hall : Forall (fun _ => False) l); [|by destruct Hall].
  eapply mapM_log; [|exact Hm]. intros x l' o Hin Hx. cbv beta in Hx.
  destruct (mapM_returns_each _ _ _ _ x Hm Hin) as (l'' & v & Hv & Hvin).
  rewrite Hv in Hx. injection Hx as <- <-.
  destruct (clean_value_log E x t l'' v Hv)
    as [-> | [(_ & n & f & -> & -> & Hnan & Hw) | (Ho & _)]].
  - constructor.
  - exfalso. destruct (fraction_in_series cleaned f) as [e He]; try done.
    congruence.
  - exfalso. apply Ho. unfold numeric_tags. rewrite !in_app_iff. tauto.
Qed.

(** The log of a column that is cleaned: DEBUG records and conversion
    warnings only, and DEBUG records only for a column with no tag or a tag
    of the int, float or str family. *)
Lemma clean_column_log name column l series :
  clean_column E dtypes name column = (l, Returns series) ->
  Forall (fun r => is_debug r = true \/ conversion_warning r) l /\
  ((forall t, tag_of dtypes name = Some t -> In t (numeric_tags ++ str_tags)) ->
   Forall (fun r => is_debug r = true) l).
Proof.
  intros (l0 & -> & H)%clean_column_inv.
  destruct (tag_of dtypes name) as [t|].
  2:{ destruct H as [-> _]. split; [|intros _]; repeat constructor; by left. }
  apply bind_returns in H as (l1 & c & l2 & Hc & Hf & ->).
  destruct (decide (In t int_tags)) as [Hi | Hi].
  { rewrite finalize_int in Hf by done. injection Hf as <- Hf.
    rewrite (int_series_log t column l1 c series Hi Hc Hf).
    split; [|intros _]; repeat constructor; by left. }
  assert (Hcells : Forall (fun r => conversion_warning r /\
                              ~ In t (numeric_tags ++ str_tags)) l1).
  { eapply mapM_log; [|exact Hc]. intros x l' o Hin Hx. cbv beta in Hx.
    destruct (mapM_returns_each _ _ _ _ x Hc Hin) as (l'' & v & Hv & _).
    rewrite Hv in Hx. injection Hx as <- <-.
    destruct (clean_value_log E x t l'' v Hv)
      as [-> | [(Hi' & _) | (Ho & s & e & ->)]]; [constructor | done |].
    by repeat constructor. }
  destruct (decide (In t float_tags)) as [Hfl | Hfl].
  { rewrite finalize_float in Hf by done. injection Hf as <- _.
    assert (l1 = []) as ->.
    { destruct Hcells as [|r rs [_ Ho] _]; [done |].
      destruct Ho. unfold numeric_tags. rewrite !in_app_iff. tauto. }
    split; [|intros _]; repeat constructor; by left. }
  destruct (decide (In t str_tags)) as [Hst | Hst].
  { rewrite finalize_str in Hf by done. injection Hf as <- _.
    assert (l1 = []) as ->.
    { destruct Hcells as [|r rs [_ Ho] _]; [done |].
      destruct Ho. rewrite !in_app_iff. tauto. }
    split; [|intros _]; repeat constructor; by left. }
  assert (Ho : ~ In t (numeric_tags ++ str_tags)).
  { unfold numeric_tags. rewrite !in_app_iff. tauto. }
  split; [|intros Hall; destruct Ho; by apply Hall].
  constructor; [by left |]. apply Forall_app. split.
  { eapply Forall_impl; [exact Hcells |]. intros r [Hr _]. by right. }
  rewrite finalize_other in Hf by done.
  destruct (str_in t datetime_tags).
  - destruct (to_datetime_coerce E c); simpl in Hf; injection Hf as <- _;
      repeat constructor; by right.
  - destruct (series_astype E t c); simpl in Hf; injection Hf as <- _;
      repeat constructor; by right.
Qed.

Lemma clean_columns_log (Q : log_record -> Prop) cols acc lg cd :
  (forall name column l series,
     In (name, column) cols ->
     clean_column E dtypes name column = (l, Returns series) -> Forall Q l) ->
  clean_columns E dtypes cols acc = (lg, Returns cd) -> Forall Q lg.
Proof.
  revert acc lg. induction cols as [|[name column] rest IH]; simpl;
    intros acc lg HQ H.
  - injection H as <- _. constructor.
  - apply bind_returns in H as (l1 & series & l2 & Hc & Hr & ->).
    apply Forall_app. split.
    + eapply HQ; [by left | done].
    + eapply IH; [|exact Hr]. intros. eapply HQ; [by right | done].
Qed.
End SeriesLogs.

(** X4. A call on a file that reads as a frame, when it returns records,
    logged at WARNING level or above conversion warnings only: no warning
    that a value cannot be safely converted to int, since a cell that draws
    it makes the finalization of its column raise, and no record at ERROR
    level.  When every column has a tag of the int, float or str family or
    none, the call logged nothing at WARNING level or above: its log holds
    the records of [logger.debug] only. *)
Theorem X4_records_come_without_int_warning (E : pandas_ext) (df : frame)
    (csv_path : pystr) (dtypes : gmap pystr pystr) lg rows :
  clean_csv_data E (ReadFrame df) csv_path dtypes = (lg, Records rows) ->
  Forall conversion_warning (above_debug lg) /\
  (forall value n, ~ In (WarnNotSafeInt value n) lg) /\
  ((forall name t, In name (map fst df) -> tag_of dtypes name = Some t ->
      In t (numeric_tags ++ str_tags)) ->
   above_debug lg = []).
Proof.
  intros H. apply clean_csv_data_records in H as (lg' & cd & Hcd & _ & ->).
  assert (Hw : Forall (fun r => is_debug r = true \/ conversion_warning r)
                 (DebugRawHead (frame_head df) :: DebugRawDtypes (map fst df)
                    :: lg' ++ [DebugCleanedHead (take 5 (to_dict_records cd));
                               DebugCleanedDtypes cd])).
  { constructor; [by left |]. constructor; [by left |].
    apply Forall_app. split; [|repeat constructor; by left].
    eapply clean_columns_log; [|exact Hcd]. intros name column l series _ Hc.
    by apply clean_column_log in Hc as [Hc _]. }
  split; [by apply above_debug_Forall |]. split.
  - intros value n Hin. rewrite Forall_forall in Hw.
    apply list_elem_of_In in Hin. by destruct (Hw _ Hin).
  - intros Htags. apply above_debug_quiet.
    constructor; [done |]. constructor; [done |].
    apply Forall_app. split; [|by repeat constructor].
    eapply clean_columns_log; [|exact Hcd]. intros name column l series Hin Hc.
    apply clean_column_log in Hc as [_ Hc]. apply Hc.
    intros t Ht. apply (Htags name); [|done].
    apply in_map_iff. by exists (name, column).
Qed.

Lemma sample_tags name t :
  In name (map fst sample_frame) -> tag_of sample_dtypes name = Some t ->
  In t (numeric_tags ++ str_tags).
Proof.
  intros Hin Ht. apply str_in_true. simpl in Hin.
  destruct Hin as [<- | [<- | [<- | [<- | []]]]]; vm_compute in Ht;
    try discriminate Ht; injection Ht as <-; reflexivity.
Qed.

(** X4 on the sample report, whose run logs nothing at WARNING level or
    above. *)
Lemma X4_witness :
  above_debug
    (clean_csv_data bare_pandas (ReadFrame sample_frame) (py "report.csv")
       sample_dtypes).1 = [].
Proof.
  destruct (X4_records_come_without_int_warning bare_pandas sample_frame
              (py "report.csv") sample_dtypes _ sample_records
              (sample_run bare_pandas)) as (_ & _ & Hq).
  rewrite sample_run. apply Hq. exact sample_tags.
Defined.


(** ** A report with no data row *)

Section NoRows.
Variable E : pandas_ext.
Variable dtypes : gmap pystr pystr.

Lemma clean_column_empty name :
  exists l, clean_column E dtypes name [] = (l, Returns []).
Proof.
  rewrite clean_column_unfold, log_then.
  destruct (tag_of dtypes name) as [t|]; [|by eexists].
  cbn [mapM]. unfold ret. rewrite bind_pure.
  destruct (decide (In t int_tags)) as [Hi | Hi].
  - rewrite finalize_int by done. by eexists.
  - destruct (finalize_returns E name t [] Hi) as (l & series & Hf).
    pose proof (finalize_length _ _ _ _ _ _ Hf) as Hlen.
    destruct series; [|done]. rewrite Hf. by eexists.
Qed.

Lemma clean_columns_no_rows cols (acc : dict (list pyval)) :
  no_rows cols -> Forall (fun d => d.2 = []) acc ->
  exists lg cd, clean_columns E dtypes cols acc = (lg, Returns cd) /\
    Forall (fun d => d.2 = []) cd.
Proof.
  unfold no_rows. intros Hcols. revert acc.
  induction Hcols as [|[name column] rest Hc _ IH]; simpl; intros acc Hacc.
  - by eexists _, _.
  - simpl in Hc. subst column.
    destruct (clean_column_empty name) as [l ->].
    destruct (IH (dict_set name [] acc)) as (lg & cd & Hr & Hcd).
    { by apply dict_set_Forall. }
    unfold bind. rewrite Hr. by eexists _, _.
Qed.

Lemma n_rows_no_rows (cd : dict (list pyval)) :
  Forall (fun d => d.2 = []) cd -> n_rows cd = 0%nat.
Proof.
  induction 1 as [|d r Hd _ IH]; simpl; [done |]. by rewrite Hd, IH.
Qed.
End NoRows.

(** X5. A file on which [read_csv] raises [EmptyDataError], and a file with
    a header and no data row, both give the empty list of records, whatever
    the type specification, and nothing is logged at ERROR level. *)
Theorem X5_no_data_rows_give_no_records (E : pandas_ext) (file : csv_file)
    (csv_path : pystr) (dtypes : gmap pystr pystr) :
  (exists e, file = ReadRaises e /\ exn_cls e = EmptyDataError) \/
  (exists df, file = ReadFrame df /\ no_rows df) ->
  exists lg, clean_csv_data E file csv_path dtypes = (lg, Records []) /\
    Forall (fun r => error_level r = false) lg.
Proof.
  intros [(e & -> & He) | (df & -> & Hdf)].
  - exists [WarnEmptyCsv csv_path]. unfold clean_csv_data. simpl.
    rewrite He. split; [done | by repeat constructor].
  - destruct (clean_columns_no_rows E dtypes df []) as (lg & cd & Hcd & Hno);
      [done | constructor |].
    rewrite clean_csv_data_frame, Hcd.
    unfold to_dict_records. rewrite (n_rows_no_rows cd Hno).
    eexists. split; [done |].
    constructor; [done |]. constructor; [done |].
    apply Forall_app. split; [|by repeat constructor].
    assert (Hw : Forall (fun r => is_debug r = true \/ conversion_warning r) lg).
    { eapply clean_columns_log; [|exact Hcd]. intros name column l series _ Hc.
      by apply clean_column_log in Hc as [Hc _]. }
    eapply Forall_impl; [exact Hw |]. by intros [] [H | H].
Qed.

(** X5 on a report with two columns and no data row, one column with an
    int tag. *)
Lemma X5_witness :
  exists lg,
    clean_csv_data bare_pandas (ReadFrame header_only_frame) (py "report.csv")
      id_dtypes = (lg, Records []) /\
    Forall (fun r => error_level r = false) lg.
Proof.
  apply (X5_no_data_rows_give_no_records bare_pandas (ReadFrame header_only_frame)
           (py "report.csv") id_dtypes).
  right. exists header_only_frame. split; [reflexivity |].
  repeat constructor.
Defined.


(** ** Error results *)

Section Errors.
Variable E : pandas_ext.
Variable dtypes : gmap pystr pystr.

Lemma clean_column_raises_cast name column lg e :
  clean_column E dtypes name column = (lg, Raises e) -> int_column_error e.
Proof.
  intros (l & _ & H)%clean_column_inv.
  destruct (tag_of dtypes name) as [t|]; [|by destruct H].
  apply bind_raises in H as [H | (l1 & c & l2 & Hc & Hf & _)].
  - apply cleaned_series_raises in H as [_ ->].
    unfold int_column_error. tauto.
  - apply finalize_raises in Hf as (_ & _ & Hf & _).
    by apply astype_Int64_raises_cast in Hf.
Qed.

Lemma clean_columns_raises_cast cols acc lg e :
  clean_columns E dtypes cols acc = (lg, Raises e) -> int_column_error e.
Proof.
  revert acc lg. induction cols as [|[name column] rest IH]; simpl;
    intros acc lg H; [done |].
  apply bind_raises in H as [H | (l1 & series & l2 & Hc & Hr & _)].
  - by apply clean_column_raises_cast in H.
  - by apply IH in Hr.
Qed.
End Errors.

(** X6. Every error result has an ERROR record as the last record of its
    log, and its message is one of three: ["CSV file not found: "] and the
    path, when the path is no file or [read_csv] raises [FileNotFoundError];
    ["Error cleaning CSV: "] and the text of the exception [read_csv]
    raises; or, for a file that reads as a frame, ["Error cleaning CSV: "]
    and the text of what a column with an int tag raised: the complaint of
    [astype("Int64")] about a [uint64], a [float64] or an [object] series,
    or an [OverflowError], on an infinity or on an [int] beyond [int64]. *)
Theorem X6_error_results_are_logged_and_named (E : pandas_ext) (file : csv_file)
    (csv_path : pystr) (dtypes : gmap pystr pystr) lg msg :
  clean_csv_data E file csv_path dtypes = (lg, ErrorDict msg) ->
  (exists r, last lg = Some r /\ error_level r = true) /\
  ((msg = not_found_msg csv_path /\
    (file = NotAFile \/
     exists e, file = ReadRaises e /\ exn_cls e = FileNotFoundError)) \/
   (exists e, file = ReadRaises e /\ exn_cls e <> FileNotFoundError /\
      msg = py "Error cleaning CSV: " ++ exn_str e) \/
   (exists df, file = ReadFrame df /\
      (msg = py "Error cleaning CSV: cannot safely cast non-equivalent uint64 to int64" \/
       msg = py "Error cleaning CSV: cannot safely cast non-equivalent float64 to int64" \/
       msg = py "Error cleaning CSV: cannot safely cast non-equivalent object to int64" \/
       msg = py "Error cleaning CSV: cannot convert float infinity to integer" \/
       msg = py "Error cleaning CSV: Python int too large to convert to C long"))).
Proof.
  destruct file as [| e | df].
  - unfold clean_csv_data. simpl. intros [= <- <-]. split.
    + by eexists.
    + left. split; [done | by left].
  - unfold clean_csv_data. simpl. destruct (exn_cls e) eqn:He;
      intros [= <- <-]; (split; [by eexists |]);
      first [ left; split; [done |]; right; by exists e
            | right; left; exists e; rewrite He; by repeat split ].
  - rewrite clean_csv_data_frame.
    destruct (clean_columns E dtypes df []) as [lg' [cd | e]] eqn:H; [done |].
    intros [= <- <-]. split.
    + change (DebugRawHead (frame_head df) :: DebugRawDtypes (map fst df)
                :: lg' ++ [ErrorUnexpected csv_path e])
        with ((DebugRawHead (frame_head df) :: DebugRawDtypes (map fst df)
                 :: lg') ++ [ErrorUnexpected csv_path e]).
      rewrite last_snoc. by eexists.
    + right; right. exists df. split; [done |].
      apply clean_columns_raises_cast in H
        as [-> | [-> | [-> | [-> | ->]]]]; tauto.
Qed.

(** X6 on the report with the one cell ["10.5"] in an int column. *)
Lemma X6_witness :
  exists r,
    last (clean_csv_data bare_pandas (ReadFrame fraction_frame)
            (py "report.csv") fraction_dtypes).1 = Some r /\
    error_level r = true.
Proof.
  apply (X6_error_results_are_logged_and_named bare_pandas
           (ReadFrame fraction_frame) (py "report.csv") fraction_dtypes _
           (py "Error cleaning CSV: cannot safely cast non-equivalent object to int64")).
  vm_compute. reflexivity.
Defined.


(** ** The empty tag *)

Lemma above_debug_relog (g : log_record -> log_record) lg :
  (forall r, ~ is_processing r -> g r = r) ->
  (forall r, is_processing r -> is_processing (g r)) ->
  above_debug (map g lg) = above_debug lg.
Proof.
  intros Hg Hp. induction lg as [|r lg IH]; simpl; [done |].
  rewrite IH. destruct r as [| | | n t | | | | | | | | | |];
    try (rewrite Hg by (by intros []); reflexivity).
  specialize (Hp (DebugProcessing n t) I). by destruct (g _).
Qed.

Section Relog.
Variable E : pandas_ext.
Variables d1 d2 : gmap pystr pystr.
Variable g : log_record -> log_record.
Hypothesis g_other : forall r, ~ is_processing r -> g r = r.
Hypothesis g_column : forall name column,
  clean_column E d1 name column =
    (map g (clean_column E d2 name column).1, (clean_column E d2 name column).2).

(** Two type specifications under which each column gives the same outcome,
    and the same log but for the tag its DEBUG record shows, give the same
    result of the loop, and the same log but for these tags. *)
Lemma clean_columns_relog cols acc :
  clean_columns E d1 cols acc =
    (map g (clean_columns E d2 cols acc).1, (clean_columns E d2 cols acc).2).
Proof.
  revert acc. induction cols as [|[name column] rest IH]; simpl; intros acc;
    [done |].
  rewrite g_column.
  destruct (clean_column E d2 name column) as [l [series | e]]; simpl; [|done].
  rewrite IH.
  destruct (clean_columns E d2 rest (dict_set name series acc)) as [l2 o2].
  simpl. by rewrite map_app.
Qed.

Lemma clean_csv_data_relog file csv_path :
  clean_csv_data E file csv_path d1 =
    (map g (clean_csv_data E file csv_path d2).1,
     (clean_csv_data E file csv_path d2).2).
Proof.
  assert (Hg : forall r, is_debug r = false -> g r = r).
  { intros r Hr. apply g_other. intros Hp. by destruct r. }
  assert (Hh : forall df, g (DebugRawHead df) = DebugRawHead df)
    by (intros; apply g_other; by intros []).
  assert (Hn : forall ns, g (DebugRawDtypes ns) = DebugRawDtypes ns)
    by (intros; apply g_other; by intros []).
  assert (Hc : forall rs, g (DebugCleanedHead rs) = DebugCleanedHead rs)
    by (intros; apply g_other; by intros []).
  assert (Hd : forall cd, g (DebugCleanedDtypes cd) = DebugCleanedDtypes cd)
    by (intros; apply g_other; by intros []).
  destruct file as [| e | df].
  - unfold clean_csv_data. simpl. by rewrite Hg.
  - unfold clean_csv_data. simpl.
    destruct (exn_cls e); simpl; by rewrite Hg.
  - rewrite !clean_csv_data_frame, clean_columns_relog.
    destruct (clean_columns E d2 df []) as [l [cd | e]]; simpl;
      rewrite map_app; simpl; rewrite Hh, Hn, ?Hc, ?Hd, ?Hg; done.
Qed.
End Relog.

Lemma empty_tag_record_other name r :
  ~ is_processing r -> empty_tag_record name r = r.
Proof. by destruct r. Qed.

Lemma empty_tag_record_processing name r :
  is_processing r -> is_processing (empty_tag_record name r).
Proof.
  destruct r; try done. simpl. destruct target_dtype; [done |].
  by destruct (str_eqb _ _).
Qed.

Lemma map_fixed {A} (g : A -> A) (P : A -> Prop) l :
  (forall x, P x -> g x = x) -> Forall P l -> map g l = l.
Proof.
  intros Hg. induction 1 as [|x r Hx _ IH]; simpl; [done |].
  by rewrite Hg, IH.
Qed.

(** With the empty tag for [name] instead of no entry, each column gives the
    same outcome, and the same log but for the tag the DEBUG record of the
    column [name] shows. *)
Lemma clean_column_empty_tag E dtypes name k column :
  clean_column E (<[name := []]> dtypes) k column =
    (map (empty_tag_record name) (clean_column E (delete name dtypes) k column).1,
     (clean_column E (delete name dtypes) k column).2).
Proof.
  destruct (decide (k = name)) as [-> | Hk].
  - unfold clean_column. rewrite lookup_insert_eq, lookup_delete_eq.
    simpl. by rewrite str_eqb_refl.
  - rewrite (clean_column_ext E (<[name := []]> dtypes) (delete name dtypes))
      by (by rewrite lookup_insert_ne, lookup_delete_ne).
    destruct (clean_column E (delete name dtypes) k column) as [l o] eqn:Hc.
    apply clean_column_log_shape in Hc as (l0 & -> & Hl0). simpl.
    rewrite (map_fixed _ _ l0 (empty_tag_record_other name) Hl0).
    destruct (delete name dtypes !! k); [done |].
    replace (str_eqb k name) with false; [done |].
    symmetry. by apply str_eqb_false.
Qed.

(** X7. An entry of the type specification whose tag is the empty string
    is as no entry: the call returns the same result with the entry as
    without it, and logs the same records at WARNING level or above.  The
    whole logs differ in one thing: the DEBUG record at the head of the loop
    shows the tag of the column, the empty string with the entry and [None]
    without it. *)
Theorem X7_empty_tag_is_no_tag (E : pandas_ext) (file : csv_file)
    (csv_path : pystr) (dtypes : gmap pystr pystr) (name : pystr) :
  (clean_csv_data E file csv_path (<[name := []]> dtypes)).2 =
    (clean_csv_data E file csv_path (delete name dtypes)).2 /\
  (clean_csv_data E file csv_path (<[name := []]> dtypes)).1 =
    map (empty_tag_record name)
        (clean_csv_data E file csv_path (delete name dtypes)).1 /\
  above_debug (clean_csv_data E file csv_path (<[name := []]> dtypes)).1 =
    above_debug (clean_csv_data E file csv_path (delete name dtypes)).1.
Proof.
  rewrite (clean_csv_data_relog E (<[name := []]> dtypes) (delete name dtypes)
             (empty_tag_record name) (empty_tag_record_other name)
             (clean_column_empty_tag E dtypes name)).
  simpl. split; [done |]. split; [done |].
  apply above_debug_relog;
    [apply empty_tag_record_other | apply empty_tag_record_processing].
Qed.

(** ** Int columns of plain integers *)

Lemma float_of_Z_small_castable z :
  Z.abs z <= 2 ^ 53 ->
  int64_castable (float_of_Z z) = true /\
  float_to_Int64 (float_of_Z z) = VInt z.
Proof.
  intros Hz. pose proof (float_of_Z_small z Hz) as He.
  destruct (float_eq_Z_exact _ _ He) as [_ Ht].
  unfold int64_castable, float_to_Int64. rewrite Ht, He. split; [|done].
  apply andb_true_iff. unfold INT64_MIN, INT64_MAX.
  split; [apply andb_true_iff; split; [done |] |]; apply Z.leb_le; lia.
Qed.

Lemma ints_within_none lo hi col : In VNone col -> ints_within lo hi col = None.
Proof.
  induction col as [|v r IH]; simpl; [done |].
  intros [-> | Hin]; [done |]. destruct v; try done.
  destruct (_ && _); [|done]. by rewrite IH.
Qed.

Section PlainInt.
Variable E : pandas_ext.
Variable dtypes : gmap pystr pystr.

Lemma clean_value_blank_cell x t :
  blank x -> _clean_value E x t = ([], Returns VNone).
Proof.
  intros [H | (s & -> & H)].
  - apply clean_value_missing. by left.
  - by apply clean_value_blank.
Qed.

Lemma clean_value_spelled x z t :
  In t int_tags -> spells x z -> INT64_MIN <= z <= UINT64_MAX ->
  _clean_value E x t = ([], Returns (VInt z)).
Proof.
  intros Ht (s & -> & Hk) Hz. unfold kept_text in Hk.
  apply clean_value_int_whole; [done | |];
    rewrite Hk, int_str_reads_back by done; [done | apply Z.eqb_refl].
Qed.

(** The series of a finished column, cell by cell. *)
Lemma records_cells df lg cd :
  well_formed df ->
  clean_columns E dtypes df [] = (lg, Returns cd) ->
  let rows := map processed_row (to_dict_records cd) in
  forall i row, rows !! i = Some row ->
    Forall2 (fun (c : pystr * list raw) (kv : pystr * pyval) =>
               kv.1 = c.1 /\
               exists l series y,
                 clean_column E dtypes c.1 c.2 = (l, Returns series) /\
                 series !! i = Some y /\ kv.2 = final y)
            df row.
Proof.
  intros [Hnd Hlen] Hcd rows.
  destruct (clean_columns_appends E dtypes df [] lg cd Hnd Hcd)
    as (new & -> & Hall). simpl in rows.
  remember (frame_height df) as n eqn:Hn0.
  assert (Hlens : Forall (fun d : pystr * list pyval => length d.2 = n) new).
  { clear rows Hcd Hnd Hn0.
    induction Hall as [|c d cs ds (_ & l & Hc) _ IH]; [constructor |].
    apply Forall_cons in Hlen as [Hc' Hlen].
    constructor; [|by apply IH].
    apply clean_column_length in Hc. congruence. }
  assert (Hn : n_rows new = n).
  { destruct new as [|d ds].
    - apply Forall2_nil_inv_r in Hall. by subst df.
    - by apply n_rows_uniform. }
  intros i row Hi.
  assert (Hlt : (i < n)%nat).
  { apply lookup_lt_Some in Hi. subst rows. unfold to_dict_records in Hi.
    by rewrite !length_map, length_seq, Hn in Hi. }
  subst rows. unfold to_dict_records in Hi.
  rewrite !list_lookup_fmap, Hn, lookup_seq_lt in Hi by done.
  simpl in Hi. injection Hi as <-.
  unfold processed_row, row_at. rewrite map_map. simpl.
  clear Hn Hcd Hnd Hn0.
  induction Hall as [|c d cs ds (Hk & l & Hc) _ IH]; [constructor |].
  apply Forall_cons in Hlen as [Hc' Hlen].
  apply Forall_cons in Hlens as [Hd Hlens].
  simpl. constructor; [|by apply IH].
  split; [done |]. simpl.
  destruct (lookup_lt_is_Some_2 d.2 i) as [y Hy]; [lia |].
  exists l, d.2, y. split; [done |]. split; [done |].
  by rewrite (nth_lookup_Some _ _ _ _ Hy).
Qed.

(** The cleaned series of an int column of blank cells and integers. *)
Lemma plain_cleaned t column (bound : Z -> Prop) :
  In t int_tags ->
  (forall z, bound z -> INT64_MIN <= z <= UINT64_MAX) ->
  Forall (fun x => blank x \/ exists z, spells x z /\ bound z) column ->
  exists cleaned,
    mapM (fun x => _clean_value E x t) column = ([], Returns cleaned) /\
    Forall2 (fun x c => (blank x /\ c = VNone) \/
                        exists z, spells x z /\ bound z /\ c = VInt z)
            column cleaned.
Proof.
  intros Ht Hb. induction 1 as [|x r Hx _ (cleaned & IH & Hrel)].
  - exists []. split; [done | constructor].
  - destruct Hx as [Hx | (z & Hz & Hbz)].
    + exists (VNone :: cleaned). split.
      * cbn [mapM]. rewrite clean_value_blank_cell by done.
        rewrite bind_pure, IH. done.
      * constructor; [by left | done].
    + exists (VInt z :: cleaned). split.
      * cbn [mapM]. rewrite (clean_value_spelled x z) by auto.
        rewrite bind_pure, IH. done.
      * constructor; [right; by exists z | done].
Qed.
End PlainInt.

Lemma spells_not_blank x z : spells x z -> ~ blank x.
Proof.
  intros (s & -> & Hk) [H | (s' & [= <-] & Hs)]; [done |].
  apply strip_empty_iff in Hs. unfold kept_text in Hk. rewrite Hs in Hk.
  symmetry in Hk. by apply int_str_nonempty in Hk.
Qed.

Lemma ints_within_Some lo hi col :
  Forall (fun c => exists z, c = VInt z /\ lo <= z <= hi) col ->
  exists zs, ints_within lo hi col = Some zs.
Proof.
  induction 1 as [|c r (z & -> & Hz) _ [zs IH]]; simpl; [by eexists |].
  replace ((lo <=? z) && (z <=? hi)) with true.
  - rewrite IH. by eexists.
  - symmetry. apply andb_true_iff. split; apply Z.leb_le; lia.
Qed.

Section PlainColumn.
Variable E : pandas_ext.
Variable dtypes : gmap pystr pystr.

(** An int column of integers within [int64], or of blank cells and integers
    of magnitude up to [2^53], is finished as it is written. *)
Lemma plain_int_column name t column :
  tag_of dtypes name = Some t -> In t int_tags ->
  Forall (fun x => exists z, spells x z /\ INT64_MIN <= z <= INT64_MAX) column \/
  Forall (fun x => blank x \/ exists z, spells x z /\ Z.abs z <= 2 ^ 53) column ->
  exists series,
    clean_column E dtypes name column =
      ([DebugProcessing name (dtypes !! name)], Returns series) /\
    Forall2 (fun x y => (blank x /\ final y = VNone) \/
                        exists z, spells x z /\ y = VInt z)
            column series.
Proof.
  intros Htag Ht Hcol. rewrite clean_column_unfold, log_then, Htag.
  destruct Hcol as [Hcol | Hcol].
  - destruct (plain_cleaned E t column
                (fun z => INT64_MIN <= z <= INT64_MAX) Ht) as (cleaned & Hm & Hrel).
    { unfold INT64_MAX, UINT64_MAX. lia. }
    { eapply Forall_impl; [exact Hcol |]. intros x Hx. by right. }
    rewrite Hm, bind_pure, finalize_int by done.
    assert (Hints : Forall (fun c => exists z, c = VInt z /\
                              INT64_MIN <= z <= INT64_MAX) cleaned).
    { clear Hm. induction Hrel as [|x c xs cs Hxc _ IH]; [constructor |].
      apply Forall_cons in Hcol as [(z0 & Hz0 & _) Hcol].
      constructor; [|by apply IH].
      destruct Hxc as [[Hb _] | (z & _ & Hz & ->)]; [|by exists z].
      by destruct (spells_not_blank x z0). }
    destruct (ints_within_Some _ _ _ Hints) as [zs Hzs].
    unfold to_numeric_series. rewrite Hzs. simpl.
    apply ints_within_spec in Hzs as [Hcl _]. rewrite <- Hcl.
    exists cleaned. split; [done |].
    eapply Forall2_impl; [exact Hrel |]. simpl.
    intros x c [[Hb ->] | (z & Hs & _ & ->)]; [by left | right; by exists z].
  - destruct (plain_cleaned E t column (fun z => Z.abs z <= 2 ^ 53) Ht)
      as (cleaned & Hm & Hrel); [| done |].
    { intros z Hz. unfold INT64_MIN, UINT64_MAX. lia. }
    rewrite Hm, bind_pure, finalize_int by done.
    unfold to_numeric_series.
    destruct (ints_within INT64_MIN INT64_MAX cleaned) as [zs|] eqn:H1.
    { simpl. apply ints_within_spec in H1 as [Hcl _]. rewrite <- Hcl.
      exists cleaned. split; [done |].
      eapply Forall2_impl; [exact Hrel |]. simpl.
      intros x c [[Hb ->] | (z & Hs & _ & ->)]; [by left | right; by exists z]. }
    destruct (ints_within 0 UINT64_MAX cleaned) as [zs|] eqn:H2.
    { exfalso. apply ints_within_spec in H2 as [Hcl _].
      destruct (ints_within_Some INT64_MIN INT64_MAX cleaned) as [zs' Hzs'];
        [|congruence].
      clear Hm H1. subst cleaned. revert column Hcol Hrel.
      induction zs as [|z zs IH]; intros column Hcol Hrel; [constructor |].
      destruct column as [|x column]; [by apply Forall2_nil_inv_l in Hrel |].
      apply Forall2_cons in Hrel as [Hx Hrel].
      apply Forall_cons in Hcol as [_ Hcol].
      constructor; [|by eapply IH].
      destruct Hx as [[_ Hx] | (z' & _ & Hz' & [= <-])]; [done |].
      exists z. split; [done |]. unfold INT64_MIN, INT64_MAX. lia. }
    assert (Hc : forallb int64_castable (map (to_float64_coerce E) cleaned) = true).
    { apply forallb_forall. intros f Hf. apply in_map_iff in Hf as (c & <- & Hc).
      apply list_elem_of_In, list_elem_of_lookup in Hc as (i & Hi).
      destruct (Forall2_lookup_r _ _ _ _ _ Hrel Hi)
        as (x & _ & [[_ ->] | (z & _ & Hz & ->)]); [done |].
      by apply float_of_Z_small_castable. }
    rewrite (proj2 (astype_Int64_float_returns
                      (map (to_float64_coerce E) cleaned) _) (conj Hc eq_refl)).
    eexists. split; [done |]. rewrite map_map.
    apply Forall2_fmap_r.
    eapply Forall2_impl; [exact Hrel |]. simpl.
    intros x c [[Hb ->] | (z & Hs & Hz & ->)]; [by left |].
    right. exists z. split; [done |]. simpl.
    by apply float_of_Z_small_castable.
Qed.

Lemma clean_columns_raises_at cols acc lg e :
  clean_columns E dtypes cols acc = (lg, Raises e) ->
  exists name column l,
    In (name, column) cols /\
    clean_column E dtypes name column = (l, Raises e).
Proof.
  revert acc lg. induction cols as [|[name column] rest IH]; simpl;
    intros acc lg H; [done |].
  apply bind_raises in H as [H | (l1 & series & l2 & Hc & Hr & _)].
  - exists name, column, lg. split; [by left | done].
  - apply IH in Hr as (name' & column' & l & Hin & Hr).
    exists name', column', l. split; [by right | done].
Qed.
End PlainColumn.

(** X8. On a frame as [read_csv] returns it, when every int column holds
    only integers within int64, or only blank cells and integers of
    magnitude up to [2^53], each given by its kept characters, the call
    returns records, and in them a blank cell of an int column is [None]
    and a cell that spells [z] is the int [z]. *)
Theorem X8_plain_int_columns_are_exact (E : pandas_ext) (df : frame)
    (csv_path : pystr) (dtypes : gmap pystr pystr) :
  well_formed df ->
  (forall name column t,
     In (name, column) df -> tag_of dtypes name = Some t -> In t int_tags ->
     Forall (fun x => exists z, spells x z /\ INT64_MIN <= z <= INT64_MAX)
            column \/
     Forall (fun x => blank x \/ exists z, spells x z /\ Z.abs z <= 2 ^ 53)
            column) ->
  exists lg rows,
    clean_csv_data E (ReadFrame df) csv_path dtypes = (lg, Records rows) /\
    forall i row, rows !! i = Some row ->
      Forall2 (fun (c : pystr * list raw) (kv : pystr * pyval) =>
                 kv.1 = c.1 /\
                 forall t, tag_of dtypes c.1 = Some t -> In t int_tags ->
                   exists x, c.2 !! i = Some x /\
                     ((blank x /\ kv.2 = VNone) \/
                      exists z, spells x z /\ kv.2 = VInt z))
              df row.
Proof.
  intros Hwf Hplain. rewrite clean_csv_data_frame.
  destruct (clean_columns E dtypes df []) as [lg [cd | e]] eqn:Hrun.
  2:{ exfalso.
      apply clean_columns_raises_at in Hrun as (name & column & l & Hin & Hc).
      destruct (clean_column_raises _ _ _ _ _ _ Hc) as (t & Htag & Ht & _).
      destruct (plain_int_column E dtypes name t column Htag Ht
                  (Hplain name column t Hin Htag Ht)) as (series & Hs & _).
      congruence. }
  eexists _, _. split; [reflexivity |].
  intros i row Hi.
  pose proof (records_cells E dtypes df lg cd Hwf Hrun i row Hi) as Hcells.
  apply Forall2_same_length_lookup in Hcells as [Hlen Hcells].
  apply Forall2_same_length_lookup. split; [done |].
  intros j c kv Hc Hkv.
  destruct (Hcells j c kv Hc Hkv) as (Hk & l & series & y & Hcol & Hy & Hv).
  split; [done |]. intros t Htag Ht.
  assert (Hin : In (c.1, c.2) df).
  { apply list_elem_of_In, list_elem_of_lookup. exists j. by destruct c. }
  destruct (plain_int_column E dtypes c.1 t c.2 Htag Ht
              (Hplain c.1 c.2 t Hin Htag Ht)) as (series' & Hs & Hrel).
  assert (series' = series) by congruence. subst series'.
  destruct (Forall2_lookup_r _ _ _ _ _ Hrel Hy) as (x & Hx & Hxy).
  exists x. split; [done |].
  destruct Hxy as [[Hb Hf] | (z & Hs' & ->)].
  - left. split; [done | congruence].
  - right. exists z. split; [done |]. by rewrite Hv.
Qed.

Lemma counts_well_formed : well_formed counts_frame.
Proof.
  split.
  - apply (bool_decide_unpack _). by vm_compute.
  - by repeat constructor.
Qed.

Lemma counts_plain name column t :
  In (name, column) counts_frame -> tag_of id_dtypes name = Some t ->
  In t int_tags ->
  Forall (fun x => exists z, spells x z /\ INT64_MIN <= z <= INT64_MAX)
         column \/
  Forall (fun x => blank x \/ exists z, spells x z /\ Z.abs z <= 2 ^ 53)
         column.
Proof.
  intros [[= <- <-] | [[= <- <-] | []]] Htag _; [|by vm_compute in Htag].
  right. constructor; [|constructor; [|constructor]].
  - right. exists 1000. split; [|lia]. exists (py "1,000"). split; [done |].
    vm_compute. reflexivity.
  - left. by left.
Qed.

(** X8 on a report with an int column of ["1,000"] and an empty field,
    beside a column without a tag. *)
Lemma X8_witness :
  exists lg rows,
    clean_csv_data bare_pandas (ReadFrame counts_frame) (py "report.csv")
      id_dtypes = (lg, Records rows) /\
    forall i row, rows !! i = Some row ->
      Forall2 (fun (c : pystr * list raw) (kv : pystr * pyval) =>
                 kv.1 = c.1 /\
                 forall t, tag_of id_dtypes c.1 = Some t -> In t int_tags ->
                   exists x, c.2 !! i = Some x /\
                     ((blank x /\ kv.2 = VNone) \/
                      exists z, spells x z /\ kv.2 = VInt z))
              counts_frame row.
Proof.
  apply (X8_plain_int_columns_are_exact bare_pandas counts_frame (py "report.csv")
           id_dtypes).
  - exact counts_well_formed.
  - exact counts_plain.
Defined.


Lemma float_of_Z_not_nan z : float_isnan (float_of_Z z) = false.
Proof.
  pose proof (float_of_Z_side (z <? 0) z) as H.
  destruct (float_of_Z z); try done. exfalso. apply H.
  unfold int_on_side. destruct (z <? 0) eqn:Hz; lia.
Qed.

(** X9. An int column with a blank cell is converted through [float64]:
    in the records of a call that returns them, a cell of such a column that
    spells the integer [z] is the int [int(float(z))]; and
    [int(float(2^53 + 1))] is [2^53]. *)
Theorem X9_int_column_with_a_blank_goes_through_float (E : pandas_ext) :
  (forall (df : frame) (csv_path : pystr) (dtypes : gmap pystr pystr) lg rows
          (name : pystr) (column : list raw) (t : pystr),
     well_formed df ->
     In (name, column) df -> tag_of dtypes name = Some t -> In t int_tags ->
     (exists x, In x column /\ blank x) ->
     clean_csv_data E (ReadFrame df) csv_path dtypes = (lg, Records rows) ->
     forall i x z row,
       column !! i = Some x -> spells x z -> INT64_MIN <= z <= UINT64_MAX ->
       rows !! i = Some row ->
       exists z', float_trunc (float_of_Z z) = Returns z' /\
         In (name, VInt z') row) /\
  float_trunc (float_of_Z (2 ^ 53 + 1)) = Returns (2 ^ 53).
Proof.
  split; [|vm_compute; reflexivity].
  intros df csv_path dtypes lg rows name column t
    Hwf Hin Htag Ht (x0 & Hx0 & Hb) H i x z row Hx Hs Hz Hrow.
  apply clean_csv_data_records in H as (lg' & cd & Hcd & -> & _).
  pose proof (records_cells E dtypes df lg' cd Hwf Hcd i row Hrow) as Hcells.
  apply list_elem_of_In, list_elem_of_lookup in Hin as (j & Hj).
  destruct (Forall2_lookup_l _ _ _ _ _ Hcells Hj)
    as (kv & Hkv & Hk & l & series & y & Hcol & Hy & Hv).
  simpl in Hk, Hcol.
  apply clean_column_inv in Hcol as (l0 & _ & Hcol). rewrite Htag in Hcol.
  apply bind_returns in Hcol as (l1 & cleaned & l2 & Hm & Hf & _).
  rewrite finalize_int in Hf by done. injection Hf as _ Hf.
  apply mapM_returns in Hm.
  assert (Hnone : In VNone cleaned).
  { apply list_elem_of_In, list_elem_of_lookup in Hx0 as (k & Hk0).
    destruct (Forall2_lookup_l _ _ _ _ _ Hm Hk0) as (c0 & Hc0 & l' & Hcl).
    rewrite clean_value_blank_cell in Hcl by done. injection Hcl as _ <-.
    apply list_elem_of_In, list_elem_of_lookup. by exists k. }
  destruct (Forall2_lookup_l _ _ _ _ _ Hm Hx) as (c & Hc & l' & Hcl).
  rewrite (clean_value_spelled E x z t Ht Hs Hz) in Hcl. injection Hcl as _ <-.
  unfold to_numeric_series in Hf.
  rewrite !(ints_within_none _ _ cleaned Hnone) in Hf.
  apply astype_Int64_float_returns in Hf as [Hcast ->].
  rewrite map_map, list_lookup_fmap, Hc in Hy.
  simpl in Hy. injection Hy as <-.
  rewrite forallb_forall in Hcast.
  assert (Hcz : int64_castable (float_of_Z z) = true).
  { apply Hcast. apply in_map_iff. exists (VInt z). split; [done |].
    apply list_elem_of_In, list_elem_of_lookup. by exists i. }
  unfold int64_castable in Hcz. unfold float_to_Int64 in Hv.
  destruct (float_trunc (float_of_Z z)) as [z' | e] eqn:Htr.
  - exists z'. split; [done |].
    apply list_elem_of_In, list_elem_of_lookup. exists j.
    destruct kv as [k v]. simpl in *. by subst.
  - by rewrite float_of_Z_not_nan in Hcz.
Qed.

Lemma ids_well_formed : well_formed ids_frame.
Proof.
  split.
  - apply (bool_decide_unpack _). by vm_compute.
  - by repeat constructor.
Qed.

Lemma result_of_run E file csv_path dtypes result :
  (clean_csv_data E file csv_path dtypes).2 = result ->
  clean_csv_data E file csv_path dtypes =
    ((clean_csv_data E file csv_path dtypes).1, result).
Proof. intros <-. by destruct (clean_csv_data E file csv_path dtypes). Qed.

Lemma ids_run :
  (clean_csv_data bare_pandas (ReadFrame ids_frame) (py "report.csv")
     id_dtypes).2
  = Records [ [(py "id", VInt 9007199254740992)]; [(py "id", VNone)] ].
Proof. vm_compute. reflexivity. Qed.

(** X9 on a column of ["9007199254740993"] and an empty field: the record
    holds 9007199254740992. *)
Lemma X9_witness :
  exists z',
    float_trunc (float_of_Z 9007199254740993) = Returns z' /\
    In (py "id", VInt z') [(py "id", VInt 9007199254740992)].
Proof.
  apply (proj1 (X9_int_column_with_a_blank_goes_through_float bare_pandas)
           ids_frame (py "report.csv") id_dtypes
           (clean_csv_data bare_pandas (ReadFrame ids_frame) (py "report.csv")
              id_dtypes).1
           [ [(py "id", VInt 9007199254740992)]; [(py "id", VNone)] ] (py "id")
           [RStr (py "9007199254740993"); RNaN] (py "int")
           ids_well_formed) with (i := 0%nat) (x := RStr (py "9007199254740993")).
  - left. reflexivity.
  - vm_compute. reflexivity.
  - left. reflexivity.
  - exists RNaN. split; [right; left; reflexivity | left; reflexivity].
  - exact (result_of_run _ _ _ _ _ ids_run).
  - reflexivity.
  - exists (py "9007199254740993"). split; [reflexivity | vm_compute; reflexivity].
  - unfold INT64_MIN, UINT64_MAX. lia.
  - reflexivity.
Defined.


(** ** Integers beyond int64 *)

Lemma Zdigits2_unique m k :
  0 < k -> 2 ^ (k - 1) <= m < 2 ^ k -> Zdigits2 m = k.
Proof.
  intros Hk Hm.
  assert (0 < 2 ^ (k - 1)) by (apply Z.pow_pos_nonneg; lia).
  destruct m as [|p|p]; [lia | | lia].
  cbn [Zdigits2]. rewrite digits2_pos_log2.
  rewrite (Z.log2_unique (Zpos p) (k - 1)); [lia | lia |].
  by replace (Z.succ (k - 1)) with k by lia.
Qed.

Lemma round_nearest_even_bounds m l :
  m <= round_nearest_even m l <= m + 1.
Proof.
  unfold round_nearest_even. destruct l as [|[]]; try lia.
  destruct (Z.even m); lia.
Qed.

(** [float(z)] for [z] from [2^63] to [2^64 - 1] is at least [2^63]. *)
Lemma float_of_Z_beyond_int64 z :
  2 ^ 63 <= z < 2 ^ 64 ->
  exists m e, float_of_Z z = S754_finite false m e /\ 0 <= e /\
    2 ^ 63 <= Zpos m * 2 ^ e.
Proof.
  intros Hz. destruct z as [|mx|mx]; [lia | | lia].
  unfold float_of_Z, binary_normalize, binary_round.
  assert (Hd : Zpos (digits2_pos mx) = 64).
  { apply (Zdigits2_unique (Zpos mx) 64); [lia |]. by simpl. }
  rewrite Hd. change (fexp prec emax (64 + 0)) with 11.
  change (shl_align mx 0 11) with (mx, 0).
  unfold binary_round_aux, shr_fexp at 1. cbn [Zdigits2]. rewrite Hd.
  change (fexp prec emax (64 + 0) - 0) with 11. cbn [shr_record_of_loc shr].
  set (mrs := SpecFloat.iter_pos shr_1 11 _).
  assert (Hm : shr_m mrs = Zpos mx / 2 ^ 11).
  { subst mrs. by rewrite iter_pos_shr_m by (cbn; lia). }
  pose proof (round_nearest_even_bounds (shr_m mrs) (loc_of_shr_record mrs)) as Hr.
  set (m1 := round_nearest_even (shr_m mrs) (loc_of_shr_record mrs)) in *.
  clearbody m1. rewrite Hm in Hr. clear Hm. clearbody mrs.
  assert (Hq : 2 ^ 52 <= Zpos mx / 2 ^ 11 < 2 ^ 53).
  { split.
    - apply Z.div_le_lower_bound; [done |]. rewrite <- Z.pow_add_r by lia.
      simpl Z.add. lia.
    - apply Z.div_lt_upper_bound; [done |]. rewrite <- Z.pow_add_r by lia.
      simpl Z.add. lia. }
  destruct (decide (m1 = 2 ^ 53)) as [-> | Hne].
  - vm_compute. eexists _, _. split; [reflexivity |]. split; [done |]. done.
  - assert (Hm1 : 2 ^ 52 <= m1 < 2 ^ 53) by lia.
    unfold shr_fexp. rewrite (Zdigits2_unique m1 53) by (simpl; lia).
    change (fexp prec emax (53 + (0 + 11)) - (0 + 11)) with 0.
    cbn [shr_record_of_loc shr shr_m].
    destruct m1 as [|p|p]; [lia | | lia].
    change (0 + 11 <=? emax - prec) with true. cbv iota.
    exists p, 11. split; [done |]. split; [done |].
    change (2 ^ 63) with (2 ^ 52 * 2 ^ 11). nia.
Qed.

Lemma beyond_int64_not_castable z :
  INT64_MAX < z <= UINT64_MAX -> int64_castable (float_of_Z z) = false.
Proof.
  unfold INT64_MAX, UINT64_MAX. intros Hz.
  destruct (float_of_Z_beyond_int64 z) as (m & e & -> & He & Hv); [lia |].
  unfold int64_castable. cbn [float_trunc signed].
  apply Z.leb_le in He. rewrite He.
  destruct (float_eq_Z _ _); [|done]. cbn [andb].
  apply andb_false_iff. right. apply Z.leb_gt. unfold INT64_MAX. lia.
Qed.

(** X10. A cell of an int column that spells an integer from [2^63] to
    [2^64 - 1] makes the whole call return an error result, whatever the
    other cells and columns are. *)
Theorem X10_integer_beyond_int64_fails_the_call (E : pandas_ext) (df : frame)
    (csv_path : pystr) (dtypes : gmap pystr pystr)
    (name : pystr) (column : list raw) (t : pystr) (x : raw) (z : Z) :
  In (name, column) df -> tag_of dtypes name = Some t -> In t int_tags ->
  In x column -> spells x z -> INT64_MAX < z <= UINT64_MAX ->
  exists lg msg,
    clean_csv_data E (ReadFrame df) csv_path dtypes = (lg, ErrorDict msg).
Proof.
  intros Hcol Htag Ht Hcell Hs Hz. rewrite clean_csv_data_frame.
  destruct (clean_columns E dtypes df []) as [lg [cd | e]] eqn:Hrun;
    [|by eexists _, _].
  exfalso.
  destruct (clean_columns_each E dtypes df [] lg cd Hrun name column Hcol)
    as (l & series & Hc).
  apply clean_column_inv in Hc as (l0 & _ & Hc). rewrite Htag in Hc.
  apply bind_returns in Hc as (l1 & cleaned & l2 & Hm & Hf & _).
  rewrite finalize_int in Hf by done. injection Hf as _ Hf.
  assert (Hin : In (VInt z) cleaned).
  { apply mapM_returns in Hm.
    apply list_elem_of_In, list_elem_of_lookup in Hcell as (i & Hi).
    destruct (Forall2_lookup_l _ _ _ _ _ Hm Hi) as (v & Hv' & l' & Hx).
    rewrite (clean_value_spelled E x z t) in Hx; [| done | done |].
    - injection Hx as _ <-. apply list_elem_of_In, list_elem_of_lookup.
      by exists i.
    - unfold INT64_MIN, INT64_MAX in *. lia. }
  apply astype_Int64_inv in Hf as [(zs & -> & _ & Hzs) | [_ Hcast]].
  - apply in_map_iff in Hin as (z' & [= ->] & Hin).
    rewrite Forall_forall in Hzs. apply list_elem_of_In in Hin.
    specialize (Hzs _ Hin). lia.
  - rewrite Forall_forall in Hcast. apply list_elem_of_In in Hin.
    specialize (Hcast _ Hin). simpl in Hcast.
    by rewrite beyond_int64_not_castable in Hcast.
Qed.

(** X10 on a column with the one cell ["9223372036854775808"]. *)
Lemma X10_witness :
  exists lg msg,
    clean_csv_data bare_pandas (ReadFrame big_id_frame) (py "report.csv")
      id_dtypes = (lg, ErrorDict msg).
Proof.
  apply (X10_integer_beyond_int64_fails_the_call bare_pandas big_id_frame
           (py "report.csv") id_dtypes (py "id")
           [RStr (py "9223372036854775808")] (py "int")
           (RStr (py "9223372036854775808")) 9223372036854775808).
  - left. reflexivity.
  - vm_compute. reflexivity.
  - left. reflexivity.
  - left. reflexivity.
  - exists (py "9223372036854775808"). split; [reflexivity | vm_compute; reflexivity].
  - unfold INT64_MAX, UINT64_MAX. lia.
Defined.


(** ** Thread ids *)

Section SpecialChars.
Variable U : N -> bool.

Lemma remove_special_chars_filter text :
  _remove_special_chars U text = List.filter (is_plain_char U) text.
Proof. induction text as [|c r IH]; simpl; [done | by rewrite IH]. Qed.

Lemma remove_special_chars_app a b :
  _remove_special_chars U (a ++ b) =
  _remove_special_chars U a ++ _remove_special_chars U b.
Proof.
  induction a as [|c r IH]; simpl; [done |].
  destruct (is_plain_char U c); simpl; by rewrite IH.
Qed.

Lemma remove_special_chars_plain text :
  Forall (fun c => is_plain_char U c = true) (_remove_special_chars U text).
Proof.
  induction text as [|c r IH]; simpl; [constructor |].
  destruct (is_plain_char U c) eqn:Hc; [by constructor | done].
Qed.

Lemma remove_special_chars_fixed text :
  Forall (fun c => is_plain_char U c = true) text ->
  _remove_special_chars U text = text.
Proof. induction 1 as [|c r Hc _ IH]; simpl; [done | by rewrite Hc, IH]. Qed.

Lemma plain_ascii c :
  is_plain_char U c = true -> (c < 128)%N ->
  ascii_isalnum c = true \/ c = 95%N \/ is_space c = true.
Proof.
  unfold is_plain_char, is_word. intros H Hc.
  apply N.ltb_lt in Hc. rewrite Hc in H.
  destruct (c =? 95)%N eqn:H95; [apply N.eqb_eq in H95; auto |].
  destruct (ascii_isalnum c); [auto |]. simpl in H. auto.
Qed.

Lemma special_removed c text :
  is_plain_char U c = false -> ~ In c (_remove_special_chars U text).
Proof.
  intros Hc Hin. pose proof (remove_special_chars_plain text) as Hall.
  rewrite Forall_forall in Hall. apply list_elem_of_In in Hin.
  specialize (Hall _ Hin). congruence.
Qed.
End SpecialChars.

(** X11. [_remove_special_chars] keeps, in their order, exactly the
    characters that are word characters or whitespace, so that no ASCII
    character of the result is punctuation; removing again changes nothing,
    and a text is left as it is exactly when it has no other character. *)
Theorem X11_remove_special_chars_keeps_plain_text (uni_alnum : N -> bool)
    (text : pystr) :
  sublist (_remove_special_chars uni_alnum text) text /\
  Forall (fun c => is_plain_char uni_alnum c = true)
         (_remove_special_chars uni_alnum text) /\
  Forall (fun c => (c < 128)%N ->
            ascii_isalnum c = true \/ c = 95%N \/ is_space c = true)
         (_remove_special_chars uni_alnum text) /\
  _remove_special_chars uni_alnum (_remove_special_chars uni_alnum text)
  = _remove_special_chars uni_alnum text /\
  (_remove_special_chars uni_alnum text = text <->
   Forall (fun c => is_plain_char uni_alnum c = true) text).
Proof.
  split; [|split; [|split; [|split]]].
  - induction text as [|c r IH]; simpl; [constructor |].
    destruct (is_plain_char uni_alnum c); by constructor.
  - apply remove_special_chars_plain.
  - eapply Forall_impl; [apply remove_special_chars_plain |].
    intros c Hc Hlt. by apply (plain_ascii uni_alnum).
  - apply remove_special_chars_fixed, remove_special_chars_plain.
  - split.
    + intros <-. apply remove_special_chars_plain.
    + apply remove_special_chars_fixed.
Qed.

Lemma os_path_join_data b :
  (forall r, b <> 47%N :: r) -> os_path_join DUCKDB_DIR b = py "data/" ++ b.
Proof.
  intros Hb. unfold os_path_join. destruct b as [|c r]; [done |].
  destruct c as [|p]; [done |].
  destruct (decide (N.pos p = 47%N)) as [Hp | Hp].
  - injection Hp as ->. by destruct (Hb r).
  - do 6 (destruct p as [p|p|]; try done).
Qed.

Lemma db_path_in_data U thread_id :
  os_path_join DUCKDB_DIR (_remove_special_chars U thread_id ++ py ".duckdb") =
  py "data/" ++ _remove_special_chars U thread_id ++ py ".duckdb".
Proof.
  apply os_path_join_data. intros r Hr.
  destruct (_remove_special_chars U thread_id) as [|c s] eqn:Hs; [done |].
  injection Hr as -> _.
  apply (special_removed U 47%N thread_id); [done |]. rewrite Hs. by left.
Qed.

(** X12. A request whose thread id is the empty string is answered with
    ["Thread ID is missing from request headers."] and no database is
    opened; any other request runs on the database
    ["data/<id>.duckdb"], where [<id>] is the thread id without its special
    characters: [<id>] has no ['/'], ['.'] or backslash, so the file is
    always directly in [data].  A request without the header runs on
    ["data/57fc9d4c5a164aaab044792ad2c355d3.duckdb"]. *)
Theorem X12_database_file_stays_in_data_dir (D : duckdb_ext)
    (uni_alnum : N -> bool) (header : option pystr) (sql_query : pystr) :
  (default DEFAULT_THREAD_ID header = [] ->
   run_query_on_duckdb D uni_alnum header sql_query =
     ([], Returns (py "Thread ID is missing from request headers."))) /\
  (default DEFAULT_THREAD_ID header <> [] ->
   run_query_on_duckdb D uni_alnum header sql_query =
     query_database D
       (py "data/" ++
        _remove_special_chars uni_alnum (default DEFAULT_THREAD_ID header) ++
        py ".duckdb") sql_query) /\
  (forall c, In c [47%N; 46%N; 92%N] ->
     ~ In c (_remove_special_chars uni_alnum
               (default DEFAULT_THREAD_ID header))) /\
  (header = None ->
   _remove_special_chars uni_alnum (default DEFAULT_THREAD_ID header)
   = py "57fc9d4c5a164aaab044792ad2c355d3").
Proof.
  split; [|split; [|split]].
  - intros Hid. unfold run_query_on_duckdb. by rewrite Hid.
  - intros Hid. unfold run_query_on_duckdb.
    apply str_eqb_false in Hid. rewrite Hid. by rewrite db_path_in_data.
  - intros c [<- | [<- | [<- | []]]]; by apply special_removed.
  - intros ->. reflexivity.
Qed.

(** X13. Two thread ids that differ by a special character only are not
    told apart: a request under one runs exactly as a request under the
    other, on the same database. *)
Theorem X13_thread_ids_share_a_database (D : duckdb_ext) (uni_alnum : N -> bool)
    (a b : pystr) (c : N) (sql_query : pystr) :
  is_plain_char uni_alnum c = false -> a ++ b <> [] ->
  run_query_on_duckdb D uni_alnum (Some (a ++ c :: b)) sql_query =
  run_query_on_duckdb D uni_alnum (Some (a ++ b)) sql_query.
Proof.
  intros Hc Hne. unfold run_query_on_duckdb, default. cbn [from_option id].
  assert (H1 : str_eqb (a ++ c :: b) [] = false).
  { apply str_eqb_false. by destruct a. }
  assert (H2 : str_eqb (a ++ b) [] = false) by (by apply str_eqb_false).
  rewrite H1, H2, !remove_special_chars_app. simpl. by rewrite Hc.
Qed.

(** X13 at the thread ids ["57fc9d4c-5a16"] and ["57fc9d4c5a16"]. *)
Lemma X13_witness :
  run_query_on_duckdb sample_db ascii_only (Some (py "57fc9d4c-5a16"))
    (py "SELECT 1") =
  run_query_on_duckdb sample_db ascii_only (Some (py "57fc9d4c5a16"))
    (py "SELECT 1").
Proof.
  apply (X13_thread_ids_share_a_database sample_db ascii_only (py "57fc9d4c")
           (py "5a16") 45%N (py "SELECT 1")).
  - reflexivity.
  - vm_compute. discriminate.
Defined.


(** ** The query action *)

(** X14. [run_query_on_duckdb] raises exactly when the thread id is not
    empty and [duckdb.connect] raises on the database file of the thread,
    and then with that exception and nothing logged: a failure of the query
    itself, or of reading the column names, is returned as text. *)
Theorem X14_only_a_failed_connection_raises (D : duckdb_ext)
    (uni_alnum : N -> bool) (header : option pystr) (sql_query : pystr)
    (lg : list log_record) (e : exn) :
  run_query_on_duckdb D uni_alnum header sql_query = (lg, Raises e) <->
  lg = [] /\ default DEFAULT_THREAD_ID header <> [] /\
  duckdb_connect D
    (py "data/" ++
     _remove_special_chars uni_alnum (default DEFAULT_THREAD_ID header) ++
     py ".duckdb") = Raises e.
Proof.
  unfold run_query_on_duckdb.
  destruct (str_eqb (default DEFAULT_THREAD_ID header) []) eqn:Hid.
  { apply str_eqb_true in Hid. split; [done | by intros (_ & H & _)]. }
  apply str_eqb_false in Hid. rewrite db_path_in_data.
  unfold query_database, call, bind, try_except, ret.
  destruct (duckdb_connect D _) as [con | e'].
  - split; [|by intros (_ & _ & H)].
    destruct (execute_fetchall D con sql_query) as [[con' result] | e1];
      simpl; [|done].
    destruct (description_names D con') as [names | e2]; simpl; [|done].
    by destruct result.
  - split.
    + by intros [= <- <-].
    + by intros (-> & _ & [= ->]).
Qed.

Lemma lines_from_line cur a r :
  ~ In 10%N a ->
  lines_from cur (a ++ 10%N :: r) = (rev cur ++ a) :: lines_from [] r.
Proof.
  revert cur. induction a as [|c a IH]; intros cur Ha.
  - simpl. by rewrite app_nil_r.
  - cbn [app lines_from].
    replace ((c =? 10)%N) with false.
    2:{ symmetry. apply N.eqb_neq. intros ->. apply Ha. by left. }
    rewrite IH by (intros H; apply Ha; by right).
    simpl. by rewrite <- app_assoc.
Qed.

(** The lines of a text made of lines. *)
Lemma lines_concat ls :
  Forall (fun l => ~ In 10%N l) ls ->
  lines (concat (map (fun l => l ++ newline) ls)) = ls.
Proof.
  unfold lines. induction 1 as [|l r Hl _ IH]; [done |].
  cbn [map concat]. unfold newline at 1. rewrite <- app_assoc. cbn [app].
  rewrite lines_from_line by done. by rewrite IH.
Qed.

Lemma str_join_no_newline sep parts :
  ~ In 10%N sep -> Forall (fun p => ~ In 10%N p) parts ->
  ~ In 10%N (str_join sep parts).
Proof.
  intros Hsep. induction 1 as [|p r Hp Hr IH]; [simpl; tauto |].
  destruct r as [|q r]; [done |].
  change (str_join sep (p :: q :: r)) with (p ++ sep ++ str_join sep (q :: r)).
  rewrite !in_app_iff. tauto.
Qed.

Lemma foldl_app_concat {A} (f : A -> pystr) (init : pystr) (l : list A) :
  foldl (fun out x => out ++ f x) init l = init ++ concat (map f l).
Proof.
  revert init. induction l as [|x r IH]; intros init; simpl.
  - by rewrite app_nil_r.
  - by rewrite IH, <- app_assoc.
Qed.

(** X15. When no column name and no printed value holds a line feed, the
    text returned for a result with rows is, line by line: the title, fifty
    ['='], the column names joined by [" \| "], fifty ['-'], and one line
    per row, in the order fetched, of its values joined by [" \| "]. *)
Theorem X15_query_output_has_a_line_per_row (D : duckdb_ext)
    (column_names : list pystr) (result : list (list (cell D))) :
  Forall (fun name => ~ In 10%N name) column_names ->
  Forall (Forall (fun v => ~ In 10%N (cell_str D v))) result ->
  lines (query_output D column_names result) =
    [ py "Discrepancy Query Results:"; repeat 61%N 50;
      str_join (py " \| ") column_names; repeat 45%N 50 ] ++
    map (fun row => str_join (py " \| ") (map (cell_str D) row)) result.
Proof.
  intros Hnames Hcells.
  set (head := [ py "Discrepancy Query Results:"; repeat 61%N 50;
                 str_join (py " \| ") column_names; repeat 45%N 50 ]).
  set (body := map (fun row => str_join (py " \| ") (map (cell_str D) row)) result).
  assert (Hout : query_output D column_names result =
                 concat (map (fun l => l ++ newline) (head ++ body))).
  { unfold query_output. rewrite foldl_app_concat.
    rewrite map_app, concat_app. f_equal.
    subst body. by rewrite map_map. }
  rewrite Hout. apply lines_concat. apply Forall_app. split.
  - subst head. repeat constructor.
    + by vm_compute; intuition discriminate.
    + intros Hin. apply repeat_spec in Hin. discriminate.
    + apply str_join_no_newline; [|done]. by vm_compute; intuition discriminate.
    + intros Hin. apply repeat_spec in Hin. discriminate.
  - subst body. apply Forall_map. eapply Forall_impl; [exact Hcells |].
    intros row Hrow. simpl. apply str_join_no_newline.
    + by vm_compute; intuition discriminate.
    + by apply Forall_map.
Qed.

(** X15 at a result of two columns and two rows. *)
Lemma X15_witness :
  lines (query_output sample_db [py "a"; py "b"] [[1; 2]; [3; 4]]) =
    [ py "Discrepancy Query Results:"; repeat 61%N 50;
      py "a \| b"; repeat 45%N 50; py "1 \| 2"; py "3 \| 4" ].
Proof.
  apply (X15_query_output_has_a_line_per_row sample_db [py "a"; py "b"]
           [[1; 2]; [3; 4]]).
  - repeat constructor; vm_compute; intuition discriminate.
  - repeat constructor; vm_compute; intuition discriminate.
Defined.


(** ** Files of the chat *)

Lemma split_point_app a b :
  ~ In 46%N a -> split_point (a ++ 46%N :: b) = (a, Some b).
Proof.
  induction a as [|c a IH]; intros Ha; [done |].
  cbn [app split_point].
  replace ((c =? 46)%N) with false.
  2:{ symmetry. apply N.eqb_neq. intros ->. apply Ha. by left. }
  rewrite IH; [done |]. intros H. apply Ha. by right.
Qed.

Lemma split_point_no_point s : ~ In 46%N (split_point s).1.
Proof.
  induction s as [|c r IH]; simpl; [tauto |].
  destruct (c =? 46)%N eqn:Hc; [simpl; tauto |].
  destruct (split_point r) as [a b]. simpl in *.
  apply N.eqb_neq in Hc. intros [H | H]; [congruence | done].
Qed.

(** A name is its stem followed by its suffix. *)
Lemma splitext_join name : (splitext name).1 ++ (splitext name).2 = name.
Proof.
  unfold splitext. pose proof (split_point_spec (rev name)) as Hs.
  destruct (split_point (rev name)) as [e [s|]]; simpl in *;
    [|by rewrite app_nil_r].
  destruct (negb (str_eqb e []) && negb (str_eqb s [])); simpl;
    [|by rewrite app_nil_r].
  apply (f_equal (@rev N)) in Hs. rewrite rev_involutive in Hs.
  rewrite Hs, rev_app_distr. simpl. by rewrite <- app_assoc.
Qed.

(** A suffix is nothing, or a ['.'] and an extension with no ['.']. *)
Lemma splitext_suffix name :
  (splitext name).2 = [] \/
  exists e, (splitext name).2 = 46%N :: e /\ e <> [] /\ ~ In 46%N e /\
    (splitext name).1 <> [].
Proof.
  unfold splitext. pose proof (split_point_no_point (rev name)) as Hn.
  destruct (split_point (rev name)) as [e [s|]]; simpl in *; [|by left].
  destruct (str_eqb e []) eqn:He; simpl; [by left |].
  destruct (str_eqb s []) eqn:Hs; simpl; [by left |].
  apply str_eqb_false in He, Hs.
  right. exists (rev e). split; [done |]. split; [|split].
  - intros H. apply (f_equal (@rev N)) in H. rewrite rev_involutive in H. done.
  - by rewrite <- in_rev.
  - intros H. apply (f_equal (@rev N)) in H. rewrite rev_involutive in H. done.
Qed.

Lemma splitext_app stem e :
  stem <> [] -> e <> [] -> ~ In 46%N e ->
  splitext (stem ++ 46%N :: e) = (stem, 46%N :: e).
Proof.
  intros Hs He Hn. unfold splitext.
  rewrite rev_app_distr. simpl. rewrite <- app_assoc. simpl.
  rewrite split_point_app by (by rewrite <- in_rev).
  assert (H1 : str_eqb (rev e) [] = false).
  { apply str_eqb_false. intros H. apply (f_equal (@rev N)) in H.
    rewrite rev_involutive in H. done. }
  assert (H2 : str_eqb (rev stem) [] = false).
  { apply str_eqb_false. intros H. apply (f_equal (@rev N)) in H.
    rewrite rev_involutive in H. done. }
  rewrite H1, H2. simpl. by rewrite !rev_involutive.
Qed.

Lemma splitext_stem_nonempty name : name <> [] -> (splitext name).1 <> [].
Proof.
  intros Hn. destruct (splitext_suffix name) as [H | (e & _ & _ & _ & H)];
    [|done].
  pose proof (splitext_join name) as Hj. rewrite H, app_nil_r in Hj.
  by rewrite Hj.
Qed.

Lemma split_slash_from_single cur s :
  ~ In 47%N s -> split_slash_from cur s = [rev cur ++ s].
Proof.
  revert cur. induction s as [|c r IH]; intros cur Hs; simpl.
  - by rewrite app_nil_r.
  - replace ((c =? 47)%N) with false.
    2:{ symmetry. apply N.eqb_neq. intros ->. apply Hs. by left. }
    rewrite IH by (intros H; apply Hs; by right).
    simpl. by rewrite <- app_assoc.
Qed.

Lemma split_slash_from_no_slash cur s :
  ~ In 47%N cur -> Forall (fun x => ~ In 47%N x) (split_slash_from cur s).
Proof.
  revert cur. induction s as [|c r IH]; intros cur Hc; simpl.
  - constructor; [by rewrite <- in_rev | constructor].
  - destruct (c =? 47)%N eqn:H47.
    + constructor; [by rewrite <- in_rev |]. apply IH. simpl. tauto.
    + apply IH. apply N.eqb_neq in H47. intros [H | H]; [congruence | done].
Qed.

(** [Path] builds a path of components. *)
Lemma Path_of_wf s : wf_path (Path_of s).
Proof.
  unfold Path_of.
  assert (Hroot : let r := (splitroot s).1 in
                  r = [] \/ r = [47%N] \/ r = [47%N; 47%N]).
  { unfold splitroot. destruct s as [|c1 [|c2 [|c3 r]]]; simpl; auto;
      repeat (match goal with
              | |- context [match ?c with N0 => _ | Npos _ => _ end] =>
                  destruct c
              | |- context [match ?p with xH => _ | xO _ => _ | xI _ => _ end] =>
                  destruct p
              end; simpl; auto). }
  destruct (splitroot s) as [root rel]. simpl in Hroot.
  split; [done |]. simpl.
  apply Forall_forall. intros x Hx. apply list_elem_of_In in Hx.
  apply filter_In in Hx as [Hx Hc]. split; [done |].
  pose proof (split_slash_from_no_slash [] rel) as Hall.
  rewrite Forall_forall in Hall. apply Hall; [simpl; tauto |].
  by apply list_elem_of_In.
Qed.

(** A component is a path by itself. *)
Lemma Path_of_component x :
  is_component x = true -> ~ In 47%N x -> Path_of x = Path [] [x].
Proof.
  intros Hc Hx. unfold Path_of.
  assert (Hr : splitroot x = ([], x)).
  { unfold splitroot. destruct x as [|c r]; [done |].
    destruct (decide (c = 47%N)) as [-> | Hne]; [destruct Hx; by left |].
    destruct c as [|p]; [done |].
    do 6 (destruct p as [p|p|]; try done). }
  rewrite Hr. unfold split_slash. rewrite split_slash_from_single by done.
  simpl. by rewrite Hc.
Qed.

Lemma path_name_in p :
  wf_path p -> path_name p <> [] ->
  is_component (path_name p) = true /\ ~ In 47%N (path_name p) /\
  path_parts p = removelast (path_parts p) ++ [path_name p].
Proof.
  intros [_ Hparts] Hn. unfold path_name in *.
  destruct (path_parts p) as [|x xs] using rev_ind; [done |].
  rewrite last_snoc in *. simpl in *.
  apply Forall_app in Hparts as [_ Hx]. apply Forall_cons in Hx as [[H1 H2] _].
  by rewrite removelast_last.
Qed.

Lemma path_div_name root parts x :
  is_component x = true -> ~ In 47%N x ->
  path_div (Path root parts) x = Path root (parts ++ [x]).
Proof. intros Hc Hx. unfold path_div. by rewrite Path_of_component. Qed.

Lemma no_name_no_parts p : wf_path p -> path_name p = [] -> path_parts p = [].
Proof.
  intros [_ Hparts] Hn. unfold path_name in Hn.
  destruct (path_parts p) as [|x xs] using rev_ind; [done |].
  rewrite last_snoc in Hn. simpl in Hn. subst x.
  apply Forall_app in Hparts as [_ Hx]. by apply Forall_cons in Hx as [[H1 _] _].
Qed.

Section AccessFile.
Variable W : chat_ext.

(** The name given to the file of the chat: a component. *)
Lemma new_name_component temp_file filepath :
  wf_path temp_file -> wf_path filepath -> path_name temp_file <> [] ->
  path_suffix filepath <> [] ->
  let n := path_stem temp_file ++ path_suffix filepath in
  is_component n = true /\ ~ In 47%N n /\
  splitext n = (path_stem temp_file, path_suffix filepath).
Proof.
  intros Ht Hf Hn Hsuf. cbv zeta. unfold path_stem, path_suffix in *.
  destruct (splitext_suffix (path_name filepath))
    as [H | (e & He & Hne & Hdot & Hst)]; [done |].
  pose proof (splitext_stem_nonempty (path_name temp_file) Hn) as Hstem.
  rewrite He. split; [|split].
  - unfold is_component. apply andb_true_iff. split; apply negb_true_iff;
      apply str_eqb_false.
    + by destruct (splitext (path_name temp_file)).1.
    + destruct (splitext (path_name temp_file)).1 as [|c [|c' r]]; done.
  - destruct (path_name_in temp_file Ht Hn) as (_ & Hslash & _).
    assert (Hfn : path_name filepath <> []).
    { intros H. rewrite H in He. done. }
    destruct (path_name_in filepath Hf Hfn) as (_ & Hslash' & _).
    rewrite <- (splitext_join (path_name temp_file)) in Hslash.
    rewrite <- (splitext_join (path_name filepath)), He in Hslash'.
    rewrite in_app_iff in *. tauto.
  - by apply splitext_app.
Qed.
End AccessFile.

(** X16. When the chat has the file and the rename succeeds,
    [_access_file] returns the last component of the file name asked for,
    and a path in the directory of the chat's file, with the stem of the
    chat's file and the suffix of the file name asked for; the chat's file
    is supposed to have a name, and the file name asked for a suffix. *)
Theorem X16_access_file_carries_the_extension (W : chat_ext) (filename : pystr)
    (temp_file : path) :
  chat_get_file W (path_name (Path_of filename)) = Returns temp_file ->
  wf_path temp_file -> path_name temp_file <> [] ->
  path_suffix (Path_of filename) <> [] ->
  rename W temp_file
    (path_div (path_parent temp_file)
       (path_stem temp_file ++ path_suffix (Path_of filename))) = None ->
  (_access_file W filename).1 = path_name (Path_of filename) /\
  path_parent (_access_file W filename).2 = path_parent temp_file /\
  path_stem (_access_file W filename).2 = path_stem temp_file /\
  path_suffix (_access_file W filename).2 = path_suffix (Path_of filename).
Proof.
  intros Hget Hwf Hname Hsuf Hren. unfold _access_file.
  rewrite Hget, Hren. cbn [fst snd]. split; [done |].
  destruct (new_name_component temp_file (Path_of filename) Hwf
              (Path_of_wf filename) Hname Hsuf) as (Hc & Hslash & Hext).
  set (n := path_stem temp_file ++ path_suffix (Path_of filename)) in *.
  assert (Hdiv : path_div (path_parent temp_file) n =
                 Path (path_root temp_file)
                      (removelast (path_parts temp_file) ++ [n])).
  { unfold path_parent. by apply path_div_name. }
  rewrite Hdiv.
  assert (Hn : path_name (Path (path_root temp_file)
                            (removelast (path_parts temp_file) ++ [n])) = n).
  { unfold path_name. cbn [path_parts]. by rewrite last_snoc. }
  split; [|split].
  - unfold path_parent. cbn [path_root path_parts].
    by rewrite removelast_last.
  - unfold path_stem at 1. by rewrite Hn, Hext.
  - unfold path_suffix at 1. by rewrite Hn, Hext.
Qed.

Lemma sample_temp_file_wf : wf_path (Path [47%N] [py "tmp"; py "upload_1"]).
Proof.
  split; [right; left; reflexivity |].
  repeat constructor; vm_compute; intuition discriminate.
Qed.

(** X16 at the file name ["reports/gam.csv"], for which the chat has
    [/tmp/upload_1]: the path returned is [/tmp/upload_1.csv]. *)
Lemma X16_witness :
  (_access_file sample_chat (py "reports/gam.csv")).1 = py "gam.csv" /\
  path_parent (_access_file sample_chat (py "reports/gam.csv")).2
  = Path [47%N] [py "tmp"] /\
  path_stem (_access_file sample_chat (py "reports/gam.csv")).2
  = py "upload_1" /\
  path_suffix (_access_file sample_chat (py "reports/gam.csv")).2 = py ".csv".
Proof.
  apply (X16_access_file_carries_the_extension sample_chat (py "reports/gam.csv")
           (Path [47%N] [py "tmp"; py "upload_1"])).
  - reflexivity.
  - exact sample_temp_file_wf.
  - vm_compute. discriminate.
  - vm_compute. discriminate.
  - reflexivity.
Defined.


(** X17. When the chat raises, [_access_file] returns the path asked for
    itself.  When the chat's file has the name asked for, it is renamed to
    itself: [_access_file] returns the chat's file when that rename
    succeeds, and the path asked for when it raises. *)
Theorem X17_access_file_same_name_or_fallback (W : chat_ext) (filename : pystr) :
  (forall e, chat_get_file W (path_name (Path_of filename)) = Raises e ->
     _access_file W filename = (path_name (Path_of filename), Path_of filename)) /\
  (forall temp_file,
     chat_get_file W (path_name (Path_of filename)) = Returns temp_file ->
     wf_path temp_file ->
     path_name temp_file = path_name (Path_of filename) ->
     _access_file W filename =
       (path_name (Path_of filename),
        match rename W temp_file temp_file with
        | None => temp_file
        | Some _ => Path_of filename
        end)).
Proof.
  split.
  - intros e He. unfold _access_file. by rewrite He.
  - intros temp_file Hget Hwf Hname. unfold _access_file. rewrite Hget.
    assert (Hnew : path_div (path_parent temp_file)
                     (path_stem temp_file ++ path_suffix (Path_of filename))
                   = temp_file).
    { unfold path_stem, path_suffix. rewrite <- Hname, splitext_join.
      destruct temp_file as [root parts].
      destruct (decide (path_name (Path root parts) = [])) as [Hn | Hn].
      - rewrite Hn. pose proof (no_name_no_parts _ Hwf Hn) as Hp.
        simpl in Hp. subst parts. done.
      - destruct (path_name_in _ Hwf Hn) as (Hc & Hs & Hp).
        unfold path_parent. cbn [path_root path_parts] in *.
        rewrite path_div_name by done. by rewrite <- Hp. }
    rewrite Hnew. by destruct (rename W temp_file temp_file).
Qed.

(** ** The upload action *)

(** X18. [upload_reports] returns one of two texts: that the thread id is
    missing, or that the reports were loaded.  [clean_csv_data] gives its
    error results as [Response(result=...)], so the field [error] the upload
    looks at is [None]: when the cleaning of either report gives an error
    result, the error [dict] goes to [pd.DataFrame], and [upload_reports]
    raises [ValueError], after its own DEBUG record and the log records of
    the two cleanings. *)
Theorem X18_failed_cleaning_is_raised_not_reported (E : pandas_ext)
    (W1 W2 : chat_ext) (S : store_ext) (uni_alnum : N -> bool)
    (header : option pystr) (gam_csv cm360_csv : pystr)
    (dtypes : gmap pystr pystr) :
  (forall lg text,
     upload_reports E W1 W2 S uni_alnum header gam_csv cm360_csv dtypes
     = (lg, Returns text) ->
     text = py "Thread ID is missing from request headers." \/
     exists rest, text = py "Successfully loaded:" ++ rest) /\
  (default DEFAULT_THREAD_ID header <> [] ->
   forall lg1 lg2 r1 r2,
     clean_csv_data E (file_at S (_access_file W1 gam_csv).2)
       (path_str (_access_file W1 gam_csv).2) dtypes = (lg1, r1) ->
     clean_csv_data E (file_at S (_access_file W2 cm360_csv).2)
       (path_str (_access_file W2 cm360_csv).2) dtypes = (lg2, r2) ->
     (exists msg, r1 = ErrorDict msg) \/ (exists msg, r2 = ErrorDict msg) ->
     upload_reports E W1 W2 S uni_alnum header gam_csv cm360_csv dtypes
     = (DebugStartUpload :: lg1 ++ lg2, Raises scalar_values)).
Proof.
  unfold upload_reports. rewrite log_then.
  destruct (str_eqb (default DEFAULT_THREAD_ID header) []) eqn:Hid.
  { split.
    - intros lg text [= <- <-]. by left.
    - intros Hne. by apply str_eqb_true in Hid. }
  cbv zeta.
  destruct (clean_csv_data E (file_at S (_access_file W1 gam_csv).2) _ dtypes)
    as [lg1 r1].
  destruct (clean_csv_data E (file_at S (_access_file W2 cm360_csv).2) _ dtypes)
    as [lg2 r2].
  cbn [fst snd Response_of_result response_error response_result].
  unfold bind, call, ret. cbn [DataFrame_of].
  split.
  - intros lg text. destruct r1 as [rows1 | msg1]; [|done].
    destruct r2 as [rows2 | msg2]; [|done].
    destruct (load_tables S _ _ _ rows1 rows2) as [counts | e]; [|done].
    intros [= <- <-]. right. by eexists.
  - intros _ l1 l2 x1 x2 [= <- <-] [= <- <-] [[msg ->] | [msg ->]].
    + cbn [fst snd]. by rewrite !app_nil_r.
    + destruct r1 as [rows1 | msg1]; cbn [fst snd]; by rewrite !app_nil_r.
Qed.

(** X18 with a chat that has no file and a file system with no file: the
    two cleanings report that no file was found, and the upload raises. *)
Lemma X18_witness :
  upload_reports bare_pandas no_chat no_chat empty_store ascii_only None
    (py "reports/gam.csv") (py "reports/cm360.csv") ∅
  = ([DebugStartUpload;
      ErrorNotFound (py "reports/gam.csv");
      ErrorNotFound (py "reports/cm360.csv")],
     Raises scalar_values).
Proof.
  apply (proj2 (X18_failed_cleaning_is_raised_not_reported bare_pandas no_chat
                  no_chat empty_store ascii_only None (py "reports/gam.csv")
                  (py "reports/cm360.csv") ∅))
    with (lg1 := [ErrorNotFound (py "reports/gam.csv")])
         (lg2 := [ErrorNotFound (py "reports/cm360.csv")])
         (r1 := ErrorDict (py "CSV file not found: reports/gam.csv"))
         (r2 := ErrorDict (py "CSV file not found: reports/cm360.csv")).
  - vm_compute. discriminate.
  - vm_compute. reflexivity.
  - vm_compute. reflexivity.
  - left. by eexists.
Defined.

(** ** Tags of one family *)

Lemma same_family_str_in t t' :
  same_family t t' ->
  str_in t int_tags = str_in t' int_tags /\
  str_in t float_tags = str_in t' float_tags /\
  str_in t str_tags = str_in t' str_tags /\
  (str_in t int_tags || str_in t float_tags || str_in t str_tags = true) /\
  t <> [] /\ t' <> [].
Proof.
  intros [[H H'] | [[H H'] | [H H']]];
    unfold int_tags, float_tags, str_tags in *; simpl in H, H';
    destruct H as [<- | [<- | []]]; destruct H' as [<- | [<- | []]];
    by vm_compute.
Qed.

Section SameFamily.
Variable E : pandas_ext.

Lemma str_in_app x l1 l2 : str_in x (l1 ++ l2) = str_in x l1 || str_in x l2.
Proof. unfold str_in. apply existsb_app. Qed.

Lemma clean_value_same_family value t t' :
  same_family t t' -> _clean_value E value t = _clean_value E value t'.
Proof.
  intros (Hi & Hf & Hs & Hany & _)%same_family_str_in.
  unfold _clean_value. rewrite !str_in_app, <- Hi, <- Hf, <- Hs.
  destruct (str_in t int_tags), (str_in t float_tags), (str_in t str_tags);
    try done.
Qed.

Lemma finalize_same_family name t t' c :
  same_family t t' -> finalize E name t c = finalize E name t' c.
Proof.
  intros (Hi & Hf & Hs & Hany & _)%same_family_str_in.
  unfold finalize. rewrite <- Hi, <- Hf, <- Hs.
  destruct (str_in t int_tags), (str_in t float_tags), (str_in t str_tags);
    try done.
Qed.

Lemma mapM_ext {A B} (f g : A -> M B) l :
  (forall x, f x = g x) -> mapM f l = mapM g l.
Proof.
  intros Hfg. induction l as [|x r IH]; simpl; [done |]. by rewrite Hfg, IH.
Qed.

End SameFamily.

Lemma retag_record_other alias r :
  ~ is_processing r -> retag_record alias r = r.
Proof. by destruct r. Qed.

Lemma retag_record_processing alias r :
  is_processing r -> is_processing (retag_record alias r).
Proof. destruct r; try done. simpl. by destruct target_dtype. Qed.

(** With a tag replaced by a tag of its family, a column gives the same
    outcome, and the same log but for the tag its DEBUG record shows. *)
Lemma clean_column_retag E dtypes alias name column :
  (forall t, dtypes !! name = Some t -> t = alias t \/ same_family t (alias t)) ->
  clean_column E (retag alias dtypes) name column =
    (map (retag_record alias) (clean_column E dtypes name column).1,
     (clean_column E dtypes name column).2).
Proof.
  intros Halias.
  destruct (clean_column E dtypes name column) as [l o] eqn:Hc.
  destruct (clean_column_log_shape E dtypes name column l o Hc)
    as (l0 & -> & Hl0).
  simpl. rewrite (map_fixed _ _ l0 (retag_record_other alias) Hl0).
  revert Hc. unfold clean_column, retag. rewrite lookup_fmap.
  destruct (dtypes !! name) as [t|] eqn:Ht; simpl; [|done].
  destruct (Halias t eq_refl) as [<- | Hfam]; [done |].
  destruct (same_family_str_in _ _ Hfam) as (_ & _ & _ & _ & Hne & Hne').
  apply str_eqb_false in Hne, Hne'. rewrite Hne, Hne'.
  assert (Hb : (cleaned_series <- mapM (fun x => _clean_value E x (alias t)) column ;;
                finalize E name (alias t) cleaned_series)
             = (cleaned_series <- mapM (fun x => _clean_value E x t) column ;;
                finalize E name t cleaned_series)).
  { rewrite (mapM_ext _ (fun x => _clean_value E x t)).
    2:{ intros x. symmetry. by apply clean_value_same_family. }
    unfold bind. destruct (mapM _ column) as [l [cleaned | e]]; [|done].
    by rewrite (finalize_same_family E name t (alias t)). }
  rewrite Hb. intros (l & H & [= <-])%log_first.
  apply log_first. by exists l0.
Qed.

(** X19. The two tags of a family are interchangeable: replacing tags of
    the type specification by tags of the same family (["int"] by
    ["int64"], ["float"] by ["float64"], ["str"] by ["string"], or the
    other way round) changes neither the result of the call nor what it logs
    at WARNING level or above.  The whole logs differ in one thing: the
    DEBUG record at the head of the loop shows the tag of the column. *)
Theorem X19_tags_of_one_family_are_interchangeable (E : pandas_ext)
    (file : csv_file) (csv_path : pystr) (dtypes : gmap pystr pystr)
    (alias : pystr -> pystr) :
  (forall name t, dtypes !! name = Some t -> t = alias t \/ same_family t (alias t)) ->
  (clean_csv_data E file csv_path (retag alias dtypes)).2 =
    (clean_csv_data E file csv_path dtypes).2 /\
  (clean_csv_data E file csv_path (retag alias dtypes)).1 =
    map (retag_record alias) (clean_csv_data E file csv_path dtypes).1 /\
  above_debug (clean_csv_data E file csv_path (retag alias dtypes)).1 =
    above_debug (clean_csv_data E file csv_path dtypes).1.
Proof.
  intros Halias.
  rewrite (clean_csv_data_relog E (retag alias dtypes) dtypes
             (retag_record alias) (retag_record_other alias)).
  2:{ intros name column. apply clean_column_retag. apply Halias. }
  simpl. split; [done |]. split; [done |].
  apply above_debug_relog;
    [apply retag_record_other | apply retag_record_processing].
Qed.

Lemma long_name_family t : t = long_name t \/ same_family t (long_name t).
Proof.
  unfold long_name, same_family.
  destruct (str_eqb t (py "int")) eqn:H1.
  { apply str_eqb_true in H1. subst. right. left. split; [by left | right; by left]. }
  destruct (str_eqb t (py "float")) eqn:H2.
  { apply str_eqb_true in H2. subst. right. right. left.
    split; [by left | right; by left]. }
  destruct (str_eqb t (py "str")) eqn:H3.
  { apply str_eqb_true in H3. subst. right. right. right.
    split; [by left | right; by left]. }
  by left.
Qed.

(** X19 on the sample report, with each tag replaced by its long name. *)
Lemma X19_witness :
  (clean_csv_data bare_pandas (ReadFrame sample_frame) (py "report.csv")
     (retag long_name sample_dtypes)).2 = Records sample_records.
Proof.
  destruct (X19_tags_of_one_family_are_interchangeable bare_pandas
              (ReadFrame sample_frame) (py "report.csv") sample_dtypes long_name)
    as (Hres & _).
  - intros name t _. apply long_name_family.
  - rewrite Hres. by rewrite sample_run.
Defined.

(** ** Cleaning row by row *)

Section RowWise.
Variable E : pandas_ext.
Variable dtypes : gmap pystr pystr.

(** A column with a float or str tag, or with no tag, is cleaned cell by
    cell, and nothing is logged but the DEBUG records. *)
Lemma clean_column_alone name column :
  (forall t, tag_of dtypes name = Some t -> In t (float_tags ++ str_tags)) ->
  clean_column E dtypes name column =
    (DebugProcessing name (dtypes !! name) ::
       match tag_of dtypes name with
       | None => [DebugNoDtype name]
       | Some _ => []
       end,
     Returns (map (cell_alone E (tag_of dtypes name)) column)).
Proof.
  intros Htag. rewrite clean_column_unfold, log_then.
  destruct (tag_of dtypes name) as [t|] eqn:Ht; [|done].
  specialize (Htag t eq_refl). apply in_app_or in Htag as [Hf | Hs].
  - rewrite (mapM_pure _ (fun x => match _clean_value E x t with
                                   | (_, Returns v) => v
                                   | (_, Raises _) => VNone
                                   end)).
    2:{ apply Forall_forall. intros x _.
        destruct (clean_value_float_shape E x t Hf) as (v & -> & _). done. }
    rewrite bind_pure, finalize_float by done. unfold ret. simpl. do 2 f_equal.
    rewrite map_map. apply map_ext. intros x. unfold cell_alone.
    apply str_in_true in Hf. by rewrite Hf.
  - rewrite (mapM_pure _ (fun x => match _clean_value E x t with
                                   | (_, Returns v) => v
                                   | (_, Raises _) => VNone
                                   end)).
    2:{ apply Forall_forall. intros x _.
        destruct (clean_value_str E x t Hs) as [-> | (s & _ & _ & ->)]; done. }
    rewrite bind_pure, finalize_str by done. unfold ret. simpl. do 2 f_equal.
    rewrite map_map. apply map_ext. intros x. unfold cell_alone.
    assert (Hf : str_in t float_tags = false).
    { apply str_in_false. intros Hf. by apply (float_str_disjoint t). }
    by rewrite Hf.
Qed.

Lemma clean_columns_alone df :
  NoDup (map fst df) ->
  (forall name t, In name (map fst df) -> tag_of dtypes name = Some t ->
     In t (float_tags ++ str_tags)) ->
  exists lg,
    clean_columns E dtypes df [] =
      (lg, Returns (map (fun c => (c.1, map (cell_alone E (tag_of dtypes c.1)) c.2))
                        df)) /\
    Forall (fun r => is_debug r = true) lg.
Proof.
  intros Hnd Htags.
  assert (Hcol : forall name column, In (name, column) df ->
            forall t, tag_of dtypes name = Some t -> In t (float_tags ++ str_tags)).
  { intros name column Hin t. apply Htags. apply in_map_iff.
    by exists (name, column). }
  destruct (clean_columns_all E dtypes df []
              (map (fun c => (c.1, map (cell_alone E (tag_of dtypes c.1)) c.2)) df))
    as (lg & Hlg); [done | |].
  { apply Forall2_fmap_r, Forall_Forall2_diag, Forall_forall.
    intros [name column] Hc. split; [done |]. simpl. eexists.
    apply clean_column_alone. by apply (Hcol name column), list_elem_of_In. }
  exists lg. split; [done |].
  eapply clean_columns_logs; [|exact Hlg]. intros name column l o Hin Hc.
  rewrite clean_column_alone in Hc by (by apply (Hcol name column)).
  injection Hc as <- _. constructor; [done |].
  destruct (tag_of dtypes name); by repeat constructor.
Qed.

(** A call whose loop logs DEBUG records only logs nothing at WARNING level
    or above. *)
Lemma frame_log_quiet lg head names rows cd :
  Forall (fun r => is_debug r = true) lg ->
  above_debug (DebugRawHead head :: DebugRawDtypes names :: lg ++
                 [DebugCleanedHead rows; DebugCleanedDtypes cd]) = [].
Proof.
  intros H. apply above_debug_quiet.
  constructor; [done |]. constructor; [done |].
  apply Forall_app. split; [done | by repeat constructor].
Qed.
End RowWise.

Lemma stack_names df1 df2 :
  map fst df1 = map fst df2 -> map fst (stack df1 df2) = map fst df1.
Proof.
  unfold stack. revert df2. induction df1 as [|c1 r1 IH]; intros [|c2 r2] H;
    simpl in *; try done.
  injection H as H1 H2. by rewrite IH.
Qed.

(** The rows of stacked columns are the rows of the first columns and then
    the rows of the second. *)
Lemma rows_of_stack (g : pystr -> raw -> pyval) df1 df2 n1 n2 :
  map fst df1 = map fst df2 -> df1 <> [] ->
  Forall (fun c => length c.2 = n1) df1 ->
  Forall (fun c => length c.2 = n2) df2 ->
  rows_of (map (fun c => (c.1, map (g c.1) c.2)) (stack df1 df2)) =
  rows_of (map (fun c => (c.1, map (g c.1) c.2)) df1) ++
  rows_of (map (fun c => (c.1, map (g c.1) c.2)) df2).
Proof.
  intros Hnames Hne H1 H2.
  assert (Hlen : length df1 = length df2).
  { apply (f_equal (@length pystr)) in Hnames. by rewrite !length_map in Hnames. }
  assert (Hne2 : df2 <> []) by (destruct df1, df2; done).
  assert (Hs : Forall (fun c => length c.2 = (n1 + n2)%nat) (stack df1 df2)).
  { unfold stack. clear Hnames Hne Hne2. revert df2 Hlen H2.
    induction H1 as [|c1 r1 Hc1 _ IH]; intros [|c2 r2] Hlen H2; simpl in *;
      try done.
    apply Forall_cons in H2 as [Hc2 H2].
    constructor; [simpl; rewrite length_app; lia |]. apply IH; [lia | done]. }
  rewrite !rows_of_unfold.
  rewrite (n_rows_uniform _ (n1 + n2)), (n_rows_uniform _ n1),
    (n_rows_uniform _ n2); cycle 1.
  { by destruct df2. }
  { apply Forall_map. eapply Forall_impl; [exact H2 |]. intros c Hc. simpl.
    by rewrite length_map. }
  { by destruct df1. }
  { apply Forall_map. eapply Forall_impl; [exact H1 |]. intros c Hc. simpl.
    by rewrite length_map. }
  { assert (stack df1 df2 <> []) by (unfold stack; destruct df1, df2; done).
    by destruct (stack df1 df2). }
  { apply Forall_map. eapply Forall_impl; [exact Hs |]. intros c Hc. simpl.
    by rewrite length_map. }
  rewrite seq_app, map_app. f_equal.
  - apply map_ext_in. intros i Hi. apply in_seq in Hi.
    rewrite !map_map. simpl. unfold stack.
    clear Hne Hne2 Hs. revert df2 Hnames Hlen H2.
    induction H1 as [|c1 r1 Hc1 _ IH]; intros [|c2 r2] Hnames Hlen H2;
      simpl in *; try done.
    injection Hnames as Hn Hnames. apply Forall_cons in H2 as [Hc2 H2].
    rewrite IH by (done || lia). do 3 f_equal.
    rewrite map_app, app_nth1; [done |]. rewrite length_map. lia.
  - simpl (0 + n1)%nat.
    replace (seq n1 n2) with (map (Nat.add n1) (seq 0 n2)).
    2:{ change (map ?f ?l) with (f <$> l). rewrite fmap_add_seq.
        f_equal. lia. }
    rewrite map_map. apply map_ext_in. intros i Hi. apply in_seq in Hi.
    rewrite !map_map. simpl. unfold stack.
    clear Hne Hne2 Hs. revert df2 Hnames Hlen H2.
    induction H1 as [|c1 r1 Hc1 _ IH]; intros [|c2 r2] Hnames Hlen H2;
      simpl in *; try done.
    injection Hnames as Hn Hnames. apply Forall_cons in H2 as [Hc2 H2].
    rewrite IH by (done || lia). rewrite Hn. do 3 f_equal.
    rewrite map_app, app_nth2; rewrite length_map; [|lia].
    f_equal. lia.
Qed.

(** X20. Columns with a float or str tag, or with no tag, are cleaned row
    by row: for two reports with one header and only such columns, both
    calls return records and log nothing at WARNING level or above, and the
    call on the report with the rows of the second after the rows of the
    first returns the records of the first followed by the records of the
    second, and logs nothing at WARNING level or above either. *)
Theorem X20_cleaning_is_row_by_row (E : pandas_ext) (df1 df2 : frame)
    (csv_path : pystr) (dtypes : gmap pystr pystr) :
  well_formed df1 -> well_formed df2 -> map fst df1 = map fst df2 ->
  (forall name t, In name (map fst df1) -> tag_of dtypes name = Some t ->
     In t (float_tags ++ str_tags)) ->
  exists lg1 lg2 lg rows1 rows2,
    clean_csv_data E (ReadFrame df1) csv_path dtypes = (lg1, Records rows1) /\
    clean_csv_data E (ReadFrame df2) csv_path dtypes = (lg2, Records rows2) /\
    clean_csv_data E (ReadFrame (stack df1 df2)) csv_path dtypes
    = (lg, Records (rows1 ++ rows2)) /\
    above_debug lg1 = [] /\ above_debug lg2 = [] /\ above_debug lg = [].
Proof.
  intros [Hnd1 Hlen1] [Hnd2 Hlen2] Hnames Htags.
  set (g := fun name => cell_alone E (tag_of dtypes name)).
  destruct (clean_columns_alone E dtypes df1 Hnd1 Htags) as (l1 & H1 & Hq1).
  destruct (clean_columns_alone E dtypes df2) as (l2 & H2 & Hq2); [done | |].
  { intros name t. rewrite <- Hnames. apply Htags. }
  destruct (clean_columns_alone E dtypes (stack df1 df2)) as (l & H & Hq).
  { by rewrite stack_names. }
  { intros name t. rewrite stack_names by done. apply Htags. }
  rewrite !clean_csv_data_frame, H1, H2, H.
  eexists _, _, _, _, _. split; [reflexivity |]. split; [reflexivity |].
  split; [|by rewrite !frame_log_quiet].
  do 2 f_equal. fold (rows_of (map (fun c => (c.1, map (g c.1) c.2)) df1)).
  fold (rows_of (map (fun c => (c.1, map (g c.1) c.2)) df2)).
  fold (rows_of (map (fun c => (c.1, map (g c.1) c.2)) (stack df1 df2))).
  destruct (decide (df1 = [])) as [-> | Hne].
  - destruct df2; done.
  - apply (rows_of_stack g df1 df2 (frame_height df1) (frame_height df2));
      done.
Qed.

Lemma first_rows_well_formed : well_formed first_rows.
Proof.
  split.
  - apply (bool_decide_unpack _). by vm_compute.
  - by repeat constructor.
Qed.

Lemma more_rows_well_formed : well_formed more_rows.
Proof.
  split.
  - apply (bool_decide_unpack _). by vm_compute.
  - by repeat constructor.
Qed.

Lemma amount_tags name t :
  In name (map fst first_rows) -> tag_of amount_dtypes name = Some t ->
  In t (float_tags ++ str_tags).
Proof.
  intros [<- | [<- | []]] H; vm_compute in H; [|done].
  injection H as <-. left. reflexivity.
Qed.

(** X20 on a report of one row and a report of two rows, with a float
    column and a column without a tag. *)
Lemma X20_witness :
  exists lg1 lg2 lg rows1 rows2,
    clean_csv_data bare_pandas (ReadFrame first_rows) (py "report.csv")
      amount_dtypes = (lg1, Records rows1) /\
    clean_csv_data bare_pandas (ReadFrame more_rows) (py "report.csv")
      amount_dtypes = (lg2, Records rows2) /\
    clean_csv_data bare_pandas (ReadFrame (stack first_rows more_rows))
      (py "report.csv") amount_dtypes = (lg, Records (rows1 ++ rows2)) /\
    above_debug lg1 = [] /\ above_debug lg2 = [] /\ above_debug lg = [].
Proof.
  apply (X20_cleaning_is_row_by_row bare_pandas first_rows more_rows
           (py "report.csv") amount_dtypes).
  - exact first_rows_well_formed.
  - exact more_rows_well_formed.
  - reflexivity.
  - exact amount_tags.
Defined.

(** ** The columns of the frame that is uploaded *)

Lemma frame_columns_row_new (cols : list pystr) (row : record) :
  NoDup (cols ++ map fst row) ->
  foldl (fun cols kv => if str_in kv.1 cols then cols else cols ++ [kv.1])
        cols row = cols ++ map fst row.
Proof.
  revert cols. induction row as [|[k v] r IH]; intros cols Hnd; simpl.
  - by rewrite app_nil_r.
  - simpl in Hnd.
    assert (Hk : str_in k cols = false).
    { apply str_in_false. intros Hin. apply NoDup_app in Hnd as (_ & Hd & _).
      apply (Hd k); [by apply list_elem_of_In | left]. }
    rewrite Hk, IH; [by rewrite <- app_assoc |].
    rewrite <- app_assoc. done.
Qed.

Lemma frame_columns_row_old (cols : list pystr) (row : record) :
  Forall (fun kv => In kv.1 cols) row ->
  foldl (fun cols kv => if str_in kv.1 cols then cols else cols ++ [kv.1])
        cols row = cols.
Proof.
  induction 1 as [|kv r Hk _ IH]; simpl; [done |].
  apply str_in_true in Hk. by rewrite Hk.
Qed.

Lemma frame_columns_same_keys (keys : list pystr) (rows : list record) :
  NoDup keys -> Forall (fun row => map fst row = keys) rows ->
  frame_columns rows = match rows with [] => [] | _ :: _ => keys end.
Proof.
  intros Hnd Hrows. unfold frame_columns.
  destruct Hrows as [|row rows Hrow Hrows]; [done |].
  cbn [foldl]. rewrite frame_columns_row_new by (simpl; by rewrite Hrow).
  simpl. rewrite Hrow. clear row Hrow.
  induction Hrows as [|row rows Hrow _ IH]; [done |].
  cbn [foldl]. rewrite frame_columns_row_old; [done |].
  apply Forall_forall. intros kv Hkv. rewrite <- Hrow.
  apply in_map. by apply list_elem_of_In.
Qed.

(** X21. When [clean_csv_data] returns records for a frame, the frame
    [upload_reports] builds from them with [pd.DataFrame] has the columns
    of the report's header, in the header's order, when the report has a
    data row; when it has none, the frame built from the records has no
    column at all. *)
Theorem X21_uploaded_columns_are_the_header (E : pandas_ext) (df : frame)
    (csv_path : pystr) (dtypes : gmap pystr pystr) lg rows :
  well_formed df ->
  clean_csv_data E (ReadFrame df) csv_path dtypes = (lg, Records rows) ->
  DataFrame_of (response_result (Response_of_result (Records rows)))
  = Returns rows /\
  frame_columns rows =
    match frame_height df with
    | O => []
    | S _ => map fst df
    end.
Proof.
  intros Hwf H. split; [done |].
  pose proof (records_keys E dtypes df csv_path lg rows Hwf H) as Hkeys.
  apply clean_csv_data_records in H as (lg' & cd & Hcd & -> & _).
  destruct (records_shape E dtypes df lg' cd Hwf Hcd) as [Hlen _].
  rewrite (frame_columns_same_keys (map fst df)); [| by destruct Hwf | done].
  destruct (map processed_row (to_dict_records cd));
    destruct (frame_height df); done.
Qed.

(** X21 on the sample report, and on a report with a header only. *)
Lemma X21_witness :
  frame_columns sample_records = map fst sample_frame /\
  frame_columns [] = [] /\
  (clean_csv_data bare_pandas (ReadFrame header_only_frame) (py "report.csv")
     id_dtypes).2 = Records [].
Proof.
  split; [|split; [reflexivity | vm_compute; reflexivity]].
  apply (X21_uploaded_columns_are_the_header bare_pandas sample_frame
           (py "report.csv") sample_dtypes _ sample_records
           sample_well_formed (sample_run bare_pandas)).
Defined.
